(** * ToogaBooga: the verification manager and the logger

    A shallow embedding of [VerifyManager] (requirement evaluation, the
    entry points, the main-section and section verification flows, the
    manual-verification round and its acknowledgement) and of
    [LoggerManager] (writing the logged counters, reading points, completed
    dungeons and the statistics of runs and led raids), followed by the
    properties of the evaluation engine, the session protocol and the
    logged counters.

    Conventions.
    - JavaScript numbers that the code uses as counters, ranks and array
      indices are integers of [Z]; reading an array out of range gives
      [undefined], and [undefined > 0] is false, which is written out at each
      such read.
    - JavaScript strings are [string]; [===] on strings is [String.eqb].
    - Awaited calls to collaborators (RealmEye wrapper, Mongo, Discord) read an
      explicit [World] and are recorded, in program order, in a trace. *)

From Stdlib Require Import ZArith List String Ascii Bool Lia Permutation.
Import ListNotations.

Local Open Scope string_scope.
Local Open Scope Z_scope.

(** ** JavaScript built-ins used by the code *)
Module JS.

(** [String.prototype.toLowerCase] on the ASCII range: in-game names, guild
    names and ranks are ASCII. *)
Definition lowerAscii (c : ascii) : ascii :=
  let n := nat_of_ascii c in
  if (Nat.leb 65 n && Nat.leb n 90)%bool then ascii_of_nat (n + 32) else c.

Fixpoint toLowerCase (s : string) : string :=
  match s with
  | EmptyString => EmptyString
  | String c r => String (lowerAscii c) (toLowerCase r)
  end.

(** [s.startsWith(p)] *)
Definition startsWith (s p : string) : bool := String.prefix p s.

(** [s.includes(p)]: [p] occurs somewhere in [s]. *)
Fixpoint includes (s p : string) : bool :=
  if String.prefix p s then true
  else match s with
       | EmptyString => false
       | String _ r => includes r p
       end.

(** [s.endsWith(p)] *)
Fixpoint endsWith (s p : string) : bool :=
  if String.eqb s p then true
  else match s with
       | EmptyString => false
       | String _ r => endsWith r p
       end.

(** [s.split(sep)] for a one-character separator. *)
Fixpoint splitAux (sep : ascii) (s acc : string) : list string :=
  match s with
  | EmptyString => [acc]
  | String c r =>
      if Ascii.eqb c sep then acc :: splitAux sep r EmptyString
      else splitAux sep r (acc ++ String c EmptyString)
  end.

Definition split (s : string) (sep : ascii) : list string :=
  splitAux sep s EmptyString.

(** [arr.indexOf(x)] on an array of strings; [-1] when absent. *)
Fixpoint indexOf (arr : list string) (x : string) : Z :=
  match arr with
  | [] => -1
  | y :: r =>
      if String.eqb y x then 0
      else let i := indexOf r x in if i =? -1 then -1 else i + 1
  end.

(** [arr[i]] on an array of numbers, [None] standing for [undefined]. *)
Definition get {A} (arr : list A) (i : Z) : option A :=
  if i <? 0 then None else nth_error arr (Z.to_nat i).

(** [arr[i] > 0], false on [undefined]. *)
Definition positiveAt (arr : list Z) (i : Z) : bool :=
  match get arr i with
  | Some v => 0 <? v
  | None => false
  end.

(** [arr[i] -= amt], executed by the code only where [arr[i] > 0], hence
    in range. *)
Fixpoint subAtNat (arr : list Z) (i : nat) (amt : Z) : list Z :=
  match arr, i with
  | [], _ => []
  | v :: r, O => (v - amt) :: r
  | v :: r, S j => v :: subAtNat r j amt
  end.

Definition subAt (arr : list Z) (i : Z) (amt : Z) : list Z :=
  if i <? 0 then arr else subAtNat arr (Z.to_nat i) amt.

(** [arr.find(p)] *)
Definition find {A} (p : A -> bool) (arr : list A) : option A :=
  List.find p arr.

End JS.

(** ** discord.js objects, as far as the code reads them *)
Module Discord.

(** Modelled from the spec: the guild object belongs to discord.js. A
    manual-review destination or a membership role is configured for a scope
    when the guild has the channel or role of that id; the guild is given by
    its id and the ids of its channels and roles. *)
Record Guild := {
  id : string;
  cachedChannels : list string;
  cachedRoles : list string
}.

(** Modelled from the spec: the member object belongs to discord.js; a
    member is given by its id, its guild and the roles it has. *)
Record GuildMember := {
  memberId : string;
  guild : Guild;
  memberRoles : list string
}.

End Discord.

(** ** GuildFgrUtilities: the cache tests *)
Module GuildFgrUtilities.

(** Modelled from the spec: [GuildFgrUtilities.hasCachedChannel] is defined
    outside the files embedded here. The channel is configured when the guild
    has a channel of that id. *)
Definition hasCachedChannel (g : Discord.Guild) (channelId : string) : bool :=
  existsb (String.eqb channelId) (Discord.cachedChannels g).

(** Modelled from the spec: [GuildFgrUtilities.hasCachedRole], likewise for
    the membership role of a scope. *)
Definition hasCachedRole (g : Discord.Guild) (roleId : string) : bool :=
  existsb (String.eqb roleId) (Discord.cachedRoles g).

(** Modelled from the spec: [GuildFgrUtilities.memberHasCachedRole]; the
    membership is already granted when the member has the role. *)
Definition memberHasCachedRole (m : Discord.GuildMember) (roleId : string) : bool :=
  existsb (String.eqb roleId) (Discord.memberRoles m).

End GuildFgrUtilities.

(** ** RealmEye records ([PrivateApiDefinitions]), the fields the code reads *)
Module PAD.

(** The keys of [exaltationStats], which are the keys of
    [LONG_STAT_TO_SHORT]. *)
Inductive LongStat :=
| attack | defense | speed | dexterity | vitality | wisdom | health | magic.

(** Modelled from the spec: the declarations of [PrivateApiDefinitions] are
    outside the files embedded here. A character has a tier, its number of
    maxed stats; the code passes over a character whose [statsMaxed] is
    [-1]. *)
Record ICharacter := { statsMaxed : Z }.

(** Modelled from the spec: the profile snapshot, with the fields the code
    reads: name, rank, alive fame, guild name and rank, last-seen state,
    characters and description lines. *)
Record IPlayerData := {
  name : string;
  rank : Z;
  fame : Z;
  guild : string;
  guildRank : string;
  lastSeen : string;
  characters : list ICharacter;
  description : list string
}.

(** Modelled from the spec: the graveyard summary, with per-class rows of
    past characters by tier and per-achievement totals. *)
Record IStatsCharacter := { stats : list Z }.

Record IGraveyardProperty := { achievement : string; total : Z }.

Record IGraveyardSummary := {
  statsCharacters : list IStatsCharacter;
  properties : list IGraveyardProperty
}.

(** Modelled from the spec: the exaltation record is a per-character mapping
    from stat to bonus amount; every character has an amount for each of the
    eight stats. *)
Record IExaltationEntry := { exaltationStats : LongStat -> Z }.

Record IExaltation := { exaltations : list IExaltationEntry }.

Record INameHistory := { nameHistory : list string }.

End PAD.

(** ** Persisted documents ([definitions]), the fields the code reads *)
Module Defs.

(** The keys of [SHORT_STAT_TO_LONG] and of [exaltations.minimum]. *)
Inductive Stat := att | def | spd | dex | vit | wis | hp | mp.

Record IPropertyKeyValuePair (K V : Type) := { key : K; value : V }.
Arguments key {K V} _.
Arguments value {K V} _.
Arguments Build_IPropertyKeyValuePair {K V} _ _.

(** Modelled from the spec: the declarations of [definitions] are outside the
    files embedded here. The requirement policy, with the fields the code
    reads, named by their path in the document
    ([guild_checkThis] is [verifReq.guild.checkThis]). *)
Record IVerificationRequirements := {
  lastSeen_mustBeHidden : bool;
  guild_checkThis : bool;
  guildName_checkThis : bool;
  guildName_name : string;
  guildRank_checkThis : bool;
  guildRank_minRank : string;
  guildRank_exact : bool;
  rank_checkThis : bool;
  rank_minRank : Z;
  aliveFame_checkThis : bool;
  aliveFame_minFame : Z;
  characters_checkThis : bool;
  characters_statsNeeded : list Z;
  characters_checkPastDeaths : bool;
  exaltations_checkThis : bool;
  exaltations_minimum : Stat -> Z;
  exaltations_onOneChar : bool;
  graveyardSummary_checkThis : bool;
  graveyardSummary_useBotCompletions : bool;
  graveyardSummary_botCompletions : list (IPropertyKeyValuePair string Z);
  graveyardSummary_realmEyeCompletions : list (IPropertyKeyValuePair string Z)
}.

Record IVerificationProperties := {
  checkRequirements : bool;
  verifReq : IVerificationRequirements
}.

Record IManualVerificationEntry := {
  userId : string;
  ign : string;
  manualVerifyMsgId : string;
  manualVerifyChannelId : string;
  sectionId : string
}.

Record ISectionInfo := {
  uniqueIdentifier : string;
  sectionName : string;
  isMainSection : bool;
  verifiedRoleId : string;
  manualVerificationChannelId : string;
  verificationProperties : IVerificationProperties
}.

Record IBlacklistedUser := {
  lowercaseIgn : string;
  actionId : string
}.

Record IGuildInfo := {
  guildId : string;
  guildVerifiedRoleId : string;
  guildManualVerificationChannelId : string;
  guildVerificationProperties : IVerificationProperties;
  guildSections : list ISectionInfo;
  manualVerificationEntries : list IManualVerificationEntry;
  blacklistedUsers : list IBlacklistedUser
}.

Record IUserInfo := {
  discordId : string;
  loggedInfo : list (IPropertyKeyValuePair string Z)
}.

Record IIdNameInfo := {
  rotmgNames : list string;
  pastRealmNames : list string
}.

End Defs.

(** ** discord.js [Collection] (a [Map]): keys in insertion order *)
Module Collection.

Section WithKey.
Context {K V : Type} (eqb : K -> K -> bool).

Definition t := list (K * V).

Definition has (c : t) (k : K) : bool :=
  existsb (fun e => eqb (fst e) k) c.

Definition get (c : t) (k : K) : option V :=
  option_map snd (List.find (fun e => eqb (fst e) k) c).

(** [set] keeps the position of a key that is already present. *)
Fixpoint set (c : t) (k : K) (v : V) : t :=
  match c with
  | [] => [(k, v)]
  | (k', v') :: r => if eqb k' k then (k, v) :: r else (k', v') :: set r k v
  end.

Definition delete (c : t) (k : K) : t :=
  List.filter (fun e => negb (eqb (fst e) k)) c.

(** [new Collection(entries)] *)
Definition ofEntries (entries : list (K * V)) : t :=
  fold_left (fun c e => set c (fst e) (snd e)) entries [].
End WithKey.

End Collection.

(** ** LoggerManager *)
Module LoggerManager.
Import Defs.

(** A key of the result of [getCompletedDungeons]: the third field of the
    logged key, [None] (JavaScript [undefined]) when the logged key has fewer
    than three fields. *)
Definition optEqb (a b : option string) : bool :=
  match a, b with
  | Some x, Some y => String.eqb x y
  | None, None => true
  | _, _ => false
  end.

Definition getCompletedDungeons (memberDoc : IUserInfo) (guildId : string)
  : Collection.t (K := option string) (V := Z) :=
  let data :=
    List.filter
      (fun x => JS.startsWith (key x) ("R:" ++ guildId) && JS.endsWith (key x) "1")%bool
      (loggedInfo memberDoc) in
  fold_left
    (fun res dgn =>
       let dgnId := nth_error (JS.split (key dgn) ":"%char) 2 in
       Collection.set optEqb res dgnId (value dgn))
    data [].

(** *** Writing the logged counters *)

(** [$inc] on ["loggedInfo.$.value"]: the positional operator stands for the
    first array element that the filter ["loggedInfo.key": id] matches. *)
Fixpoint incFirst (id : string) (amt : Z) (l : list (IPropertyKeyValuePair string Z))
  : list (IPropertyKeyValuePair string Z) :=
  match l with
  | [] => []
  | x :: r =>
      if (key x =? id)%string
      then {| key := key x; value := value x + amt |} :: r
      else x :: incFirst id amt r
  end.

(** [internalUpdateLoggedInfo], on the stored user document, which is the
    document [userDocToUse] that the function has read: an existing key is
    incremented, a new key is pushed at the end, and a document of another
    Discord id is left alone. *)
Definition internalUpdateLoggedInfo (memberId id : string) (amt : Z)
           (userDocToUse : IUserInfo) : IUserInfo :=
  if negb (discordId userDocToUse =? memberId)%string then userDocToUse
  else if existsb (fun x => (key x =? id)%string) (loggedInfo userDocToUse)
  then {| discordId := discordId userDocToUse;
          loggedInfo := incFirst id amt (loggedInfo userDocToUse) |}
  else {| discordId := discordId userDocToUse;
          loggedInfo := (loggedInfo userDocToUse ++ [{| key := id; value := amt |}])%list |}.

(** [logPoints]: the key is [P:GUILD_ID]. *)
Definition logPoints (memberId guildId : string) (points : Z) (doc : IUserInfo)
  : IUserInfo :=
  internalUpdateLoggedInfo memberId ("P:" ++ guildId) points doc.

(** [getPoints]: [doc] is what [findOne] gives, [None] for no document. *)
Definition getPoints (guildId : string) (doc : option IUserInfo) : Z :=
  match doc with
  | None => 0
  | Some d =>
      match JS.find (fun x => (key x =? "P:" ++ guildId)%string) (loggedInfo d) with
      | Some x => value x
      | None => 0
      end
  end.

(** [getDungeonIdToLog]. [DungeonUtilities.isCustomDungeon] is taken as
    given; [customDungeons] are the code names of
    [guildDoc.properties.customDungeons]. *)
Definition getDungeonIdToLog (isCustomDungeon : string -> bool)
           (customDungeons : list string) (origDungeonId : string) : option string :=
  if negb (isCustomDungeon origDungeonId) then Some origDungeonId
  else JS.find (fun x => (x =? origDungeonId)%string) customDungeons.

(** The key of a dungeon run: [R:GUILD_ID:DUNGEON_ID:COMPLETED(1/0)]. The
    test [!dgnId] of [logDungeonRun] and [logDungeonLead] holds of [null] and
    of the empty string. *)
Definition runKey (guildId dgnId : string) (completed : bool) : string :=
  "R:" ++ guildId ++ ":" ++ dgnId ++ ":" ++ (if completed then "1" else "0").

Definition logDungeonRun (isCustomDungeon : string -> bool) (customDungeons : list string)
           (memberId guildId dungeonId : string) (completed : bool) (amt : Z)
           (doc : IUserInfo) : IUserInfo :=
  match getDungeonIdToLog isCustomDungeon customDungeons dungeonId with
  | None => doc
  | Some dgnId =>
      if (dgnId =? "")%string then doc
      else internalUpdateLoggedInfo memberId (runKey guildId dgnId completed) amt doc
  end.

Inductive RunResult := Complete | Failed | Assist.

Definition runResultText (r : RunResult) : string :=
  match r with
  | Complete => "Completed"
  | Failed => "Failed"
  | Assist => "Assisted"
  end.

(** The key of a led raid: [L:GUILD_ID:DUNGEON_ID:RESULT]. *)
Definition leadKey (guildId dgnId : string) (result : RunResult) : string :=
  "L:" ++ guildId ++ ":" ++ dgnId ++ ":" ++ runResultText result.

Definition logDungeonLead (isCustomDungeon : string -> bool) (customDungeons : list string)
           (memberId guildId dungeonId : string) (result : RunResult) (amt : Z)
           (doc : IUserInfo) : IUserInfo :=
  match getDungeonIdToLog isCustomDungeon customDungeons dungeonId with
  | None => doc
  | Some dgnId =>
      if (dgnId =? "")%string then doc
      else internalUpdateLoggedInfo memberId (leadKey guildId dgnId result) amt doc
  end.

Definition KEY_IDS_TO_STORE : list string :=
  ["VIAL_OF_PURE_DARKNESS"; "SHIELD_RUNE"; "SWORD_RUNE"; "HELM_RUNE";
   "LOST_HALLS_KEY"; "NEST_KEY"; "SHATTERS_KEY"; "FUNGAL_CAVERN_KEY"].

(** The key of a key use: [K:GUILD_ID:KEY_ID:USE], or [K:GUILD_ID:GENERAL:USE]
    for a key that has no counter of its own. *)
Definition keyUseKey (guildId keyId : string) : string :=
  if existsb (String.eqb keyId) KEY_IDS_TO_STORE
  then "K:" ++ guildId ++ ":" ++ keyId ++ ":USE"
  else "K:" ++ guildId ++ ":GENERAL:USE".

(** [logKeyUse]; [reactionPoints] is [guildDoc.properties.reactionPoints]. *)
Definition logKeyUse (reactionPoints : list (IPropertyKeyValuePair string Z))
           (memberId guildId keyId : string) (amt : Z) (doc : IUserInfo) : IUserInfo :=
  let doc := internalUpdateLoggedInfo memberId (keyUseKey guildId keyId) amt doc in
  match JS.find (fun x => (key x =? keyId)%string) reactionPoints with
  | None => doc
  | Some ptsForReact => logPoints memberId guildId (value ptsForReact * amt) doc
  end.

(** *** Reading the statistics *)

(** [StrWhiteSpaceChar] on the ASCII range. *)
Definition isWhiteSpace (c : ascii) : bool :=
  let n := nat_of_ascii c in
  (Nat.eqb n 9 || Nat.eqb n 10 || Nat.eqb n 11 || Nat.eqb n 12 || Nat.eqb n 13
   || Nat.eqb n 32)%bool.

Fixpoint skipWhiteSpace (s : string) : string :=
  match s with
  | EmptyString => EmptyString
  | String c r => if isWhiteSpace c then skipWhiteSpace r else s
  end.

Definition digitOf (c : ascii) : option Z :=
  let n := nat_of_ascii c in
  if (Nat.leb 48 n && Nat.leb n 57)%bool then Some (Z.of_nat (n - 48)) else None.

(** The longest prefix of decimal digits, as a number; [acc] is [None] as
    long as no digit was read. *)
Fixpoint readDigits (s : string) (acc : option Z) : option Z :=
  match s with
  | EmptyString => acc
  | String c r =>
      match digitOf c with
      | Some d =>
          readDigits r (Some (10 * match acc with Some a => a | None => 0 end + d))
      | None => acc
      end
  end.

(** [Number.parseInt(s, 10)]; [None] stands for [NaN], which is also what
    [undefined] gives. The code only tests the result for being falsy or 0,
    which does not depend on the rounding of large numbers. *)
Definition parseInt (s : option string) : option Z :=
  match s with
  | None => None
  | Some s =>
      match skipWhiteSpace s with
      | String "-" r => option_map Z.opp (readDigits r None)
      | String "+" r => readDigits r None
      | r => readDigits r None
      end
  end.

(** The value of a [DungeonRunType]. *)
Record RunCount := { completed : Z; failed : Z }.

(** One iteration of the loop of [getStatsWithDoc], as far as it concerns
    [stats.dungeonRuns]: only the case ["R"] touches it. [dungeonNameOf] is
    what [DungeonUtilities.getDungeonInfo(vId, guildDoc)?.dungeonName] gives,
    for [undefined] too; an empty name is falsy. *)
Definition dungeonRunsStep (dungeonNameOf : option string -> option string)
           (dungeonRuns : Collection.t (K := option string)
                                       (V := Collection.t (K := string) (V := RunCount)))
           (entry : IPropertyKeyValuePair string Z)
  : Collection.t (K := option string) (V := Collection.t (K := string) (V := RunCount)) :=
  let fields := JS.split (key entry) ":"%char in
  let gId := nth_error fields 1 in
  let vId := nth_error fields 2 in
  let rest := skipn 3 fields in
  match nth_error fields 0 with
  | Some "R" =>
      match dungeonNameOf vId with
      | None => dungeonRuns
      | Some dgnName =>
          if (dgnName =? "")%string then dungeonRuns
          else
            match parseInt (nth_error rest 0) with
            | None => dungeonRuns
            | Some result =>
                if result =? 0 then dungeonRuns
                else
                  let dungeonRuns :=
                    if negb (Collection.has optEqb dungeonRuns gId)
                    then Collection.set optEqb dungeonRuns gId []
                    else dungeonRuns in
                  let ofGuild :=
                    match Collection.get optEqb dungeonRuns gId with
                    | Some c => c
                    | None => []
                    end in
                  let ofGuild :=
                    match Collection.get String.eqb ofGuild dgnName with
                    | Some c =>
                        Collection.set String.eqb ofGuild dgnName
                          (if result =? 0
                           then {| completed := completed c; failed := failed c + value entry |}
                           else {| completed := completed c + value entry; failed := failed c |})
                    | None =>
                        Collection.set String.eqb ofGuild dgnName
                          (if result =? 0
                           then {| completed := 0; failed := value entry |}
                           else {| completed := value entry; failed := 0 |})
                    end in
                  Collection.set optEqb dungeonRuns gId ofGuild
            end
      end
  | _ => dungeonRuns
  end.

(** [getStatsWithDoc(userInfo, guildDoc).dungeonRuns]. *)
Definition getStatsWithDoc_dungeonRuns (dungeonNameOf : option string -> option string)
           (userInfo : IUserInfo) (guildDoc : option IGuildInfo)
  : Collection.t (K := option string) (V := Collection.t (K := string) (V := RunCount)) :=
  let logInfoToProcess :=
    match guildDoc with
    | Some g => List.filter (fun x => JS.includes (key x) (guildId g)) (loggedInfo userInfo)
    | None => loggedInfo userInfo
    end in
  fold_left (dungeonRunsStep dungeonNameOf) logInfoToProcess [].

(** The value of a [DungeonLedType]. *)
Module Led.
Record Count := { completed : Z; failed : Z; assisted : Z }.
End Led.

(** One iteration of the loop of [getStatsWithDoc], as far as it concerns
    [stats.dungeonsLed]: only the case ["L"] touches it. [result] is the
    fourth field of the key, [None] for [undefined]. *)
Definition dungeonsLedStep (dungeonNameOf : option string -> option string)
           (dungeonsLed : Collection.t (K := option string)
                                       (V := Collection.t (K := string) (V := Led.Count)))
           (entry : IPropertyKeyValuePair string Z)
  : Collection.t (K := option string) (V := Collection.t (K := string) (V := Led.Count)) :=
  let fields := JS.split (key entry) ":"%char in
  let gId := nth_error fields 1 in
  let vId := nth_error fields 2 in
  let rest := skipn 3 fields in
  match nth_error fields 0 with
  | Some "L" =>
      match dungeonNameOf vId with
      | None => dungeonsLed
      | Some dgnName =>
          if (dgnName =? "")%string then dungeonsLed
          else
            let result := nth_error rest 0 in
            let dungeonsLed :=
              if negb (Collection.has optEqb dungeonsLed gId)
              then Collection.set optEqb dungeonsLed gId []
              else dungeonsLed in
            let ofGuild :=
              match Collection.get optEqb dungeonsLed gId with
              | Some c => c
              | None => []
              end in
            let ofGuild :=
              match Collection.get String.eqb ofGuild dgnName with
              | Some c =>
                  Collection.set String.eqb ofGuild dgnName
                    (if optEqb result (Some "Completed")
                     then {| Led.completed := Led.completed c + value entry;
                             Led.failed := Led.failed c;
                             Led.assisted := Led.assisted c |}
                     else if optEqb result (Some "Assisted")
                     then {| Led.completed := Led.completed c;
                             Led.failed := Led.failed c;
                             Led.assisted := Led.assisted c + value entry |}
                     else {| Led.completed := Led.completed c;
                             Led.failed := Led.failed c + value entry;
                             Led.assisted := Led.assisted c |})
              | None =>
                  Collection.set String.eqb ofGuild dgnName
                    (if optEqb result (Some "Completed")
                     then {| Led.completed := value entry; Led.failed := 0;
                             Led.assisted := 0 |}
                     else if optEqb result (Some "Assisted")
                     then {| Led.completed := 0; Led.failed := 0;
                             Led.assisted := value entry |}
                     else {| Led.completed := 0; Led.failed := value entry;
                             Led.assisted := 0 |})
              end in
            Collection.set optEqb dungeonsLed gId ofGuild
      end
  | _ => dungeonsLed
  end.

(** [getStatsWithDoc(userInfo, guildDoc).dungeonsLed]. *)
Definition getStatsWithDoc_dungeonsLed (dungeonNameOf : option string -> option string)
           (userInfo : IUserInfo) (guildDoc : option IGuildInfo)
  : Collection.t (K := option string) (V := Collection.t (K := string) (V := Led.Count)) :=
  let logInfoToProcess :=
    match guildDoc with
    | Some g => List.filter (fun x => JS.includes (key x) (guildId g)) (loggedInfo userInfo)
    | None => loggedInfo userInfo
    end in
  fold_left (dungeonsLedStep dungeonNameOf) logInfoToProcess [].

End LoggerManager.

(** ** VerifyManager *)
Module VerifyManager.
Import Defs.

Definition NUMBER_OF_STATS : Z := 8.

Definition GUILD_ROLES : list string :=
  ["Founder"; "Leader"; "Officer"; "Member"; "Initiate"].

(** The loop [for (let i = idx; i >= 0; i--)] of [isValidGuildRank], with
    [k = i + 1] iterations left. *)
Fixpoint rankLoop (k : nat) (actual : string) : bool :=
  match k with
  | O => false
  | S i =>
      match nth_error GUILD_ROLES i with
      | Some r => if String.eqb r actual then true else rankLoop i actual
      | None => rankLoop i actual
      end
  end.

Definition isValidGuildRank (minNeeded actual : string) : bool :=
  if String.eqb minNeeded actual then true
  else
    let idx := JS.indexOf GUILD_ROLES minNeeded in
    if idx =? -1 then false
    else rankLoop (S (Z.to_nat idx)) actual.

(** *** Stat tables *)

Definition shortStats : list Stat := [att; def; spd; dex; vit; wis; hp; mp].

Definition longStats : list PAD.LongStat :=
  [PAD.attack; PAD.defense; PAD.speed; PAD.dexterity;
   PAD.vitality; PAD.wisdom; PAD.health; PAD.magic].

Definition SHORT_STAT_TO_LONG (s : Stat) : PAD.LongStat * string :=
  match s with
  | att => (PAD.attack, "Attack")
  | def => (PAD.defense, "Defense")
  | spd => (PAD.speed, "Speed")
  | dex => (PAD.dexterity, "Dexterity")
  | vit => (PAD.vitality, "Vitality")
  | wis => (PAD.wisdom, "Wisdom")
  | hp => (PAD.health, "Health")
  | mp => (PAD.magic, "Magic")
  end.

Definition LONG_STAT_TO_SHORT (l : PAD.LongStat) : Stat :=
  match l with
  | PAD.attack => att
  | PAD.defense => def
  | PAD.speed => spd
  | PAD.dexterity => dex
  | PAD.vitality => vit
  | PAD.wisdom => wis
  | PAD.health => hp
  | PAD.magic => mp
  end.

Definition statEqb (a b : Stat) : bool :=
  match a, b with
  | att, att | def, def | spd, spd | dex, dex
  | vit, vit | wis, wis | hp, hp | mp, mp => true
  | _, _ => false
  end.

Definition DISPLAY_TO_GY_HIST : list (string * string) :=
  [ ("Lost Halls", "Lost Halls completed");
    ("Voids", "Voids completed");
    ("Cultist Hideouts", "Cultist Hideouts completed");
    ("Nests", "Nests completed2");
    ("Shatters", "Shatters completed1");
    ("Tomb of the Ancients", "Tombs completed");
    ("Ocean Trenches", "Ocean Trenches completed");
    ("Parasite Chambers", "Parasite chambers completed4");
    ("Lair of Shaitans", "Lairs of Shaitan completed4");
    ("Puppet Master's Encores", "Puppet Master's Encores completed4");
    ("Cnidarian Reefs", "Cnidarian Reefs completed");
    ("Secluded Thickets", "Secluded Thickets completed");
    ("Cursed Libraries", "Cursed Libraries completed");
    ("Fungal Caverns", "Fungal Caverns completed");
    ("Crystal Caverns", "Crystal Caverns completed");
    ("Lair of Draconis (Hard)", "Lairs of Draconis (hard mode) completed2");
    ("Lair of Draconis (Easy)", "Lairs of Draconis (easy mode) completed1");
    ("Mountain Temples", "Mountain Temples completed2");
    ("Crawling Depths", "Crawling Depths completed1");
    ("Woodland Labyrinths", "Woodland Labyrinths completed1");
    ("Deadwater Docks", "Deadwater Docks completed1");
    ("Ice Cave", "Ice Caves completed1");
    ("Belladonna's Gardens", "Bella Donnas completed3");
    ("Davy Jones' Lockers", "Davy Jones's Lockers completed1");
    ("Battle of the Nexus", "Battle for the Nexuses completed1");
    ("Candyland Hunting Grounds", "Candyland Hunting Grounds completed");
    ("Puppet Master's Theatres", "Puppet Master's Theatres completed1");
    ("Toxic Sewers", "Toxic Sewers completed1");
    ("Haunted Cemetaries", "Haunted Cemeteries completed1");
    ("Mad Labs", "Mad Labs completed1");
    ("Abyss of Demons", "Abysses of Demons completed");
    ("Manor of the Immortals", "Manors of the Immortals completed");
    ("Ancient Ruins", "Ancient Ruins completed");
    ("Undead Lairs", "Undead Lairs completed");
    ("Sprite Worlds", "Sprite Worlds completed");
    ("Snake Pits", "Snake Pits completed");
    ("Cave of a Thousand Treasures", "Caves of a Thousand Treasures completed1");
    ("Magic Woods", "Magic Woods completed");
    ("Hives", "Hives completed1");
    ("Spider Dens", "Spider Dens completed");
    ("Forbidden Jungles", "Forbidden Jungles completed");
    ("Forest Mazes", "Forest Mazes completed1");
    ("Pirate Caves", "Pirate Caves completed") ].

(** *** Results of a requirement check *)

Inductive Conclusion := PASS | TRY_AGAIN | MANUAL | FAIL.

(** What an issue's [value] and [log] texts are rendered from. *)
Inductive DungeonLine :=
| LoggedShort (newAmt needed : Z) (dungeonName : string)
| NoCompletions (display : string)
| NotEnough (total : Z) (display : string).

Inductive IssueData :=
| NoData
| GuildNeeded (inGuild needed : string)
| GuildRankNeeded (inGuild hasRank needRank guildNeeded : string)
| AmountNeeded (has needed : Z)
| StatsMissing (shortfalls : list (Z * Z))
| DungeonsMissing (lines : list DungeonLine)
| ExaltationsOneChar
| ExaltationsMissing (shortfalls : list (Stat * Z)).

Record Issue := { issueKey : string; issueData : IssueData }.

Record IReqCheckResult := {
  resName : string;
  conclusion : Conclusion;
  manualIssues : list Issue;
  fatalIssues : list Issue;
  taIssues : list Issue;
  orig : PAD.IPlayerData
}.

Definition pushManual (r : IReqCheckResult) (i : Issue) : IReqCheckResult :=
  {| resName := resName r; conclusion := conclusion r;
     manualIssues := manualIssues r ++ [i]; fatalIssues := fatalIssues r;
     taIssues := taIssues r; orig := orig r |}.

Definition pushFatal (r : IReqCheckResult) (i : Issue) : IReqCheckResult :=
  {| resName := resName r; conclusion := conclusion r;
     manualIssues := manualIssues r; fatalIssues := fatalIssues r ++ [i];
     taIssues := taIssues r; orig := orig r |}.

Definition pushTa (r : IReqCheckResult) (i : Issue) : IReqCheckResult :=
  {| resName := resName r; conclusion := conclusion r;
     manualIssues := manualIssues r; fatalIssues := fatalIssues r;
     taIssues := taIssues r ++ [i]; orig := orig r |}.

Definition setConclusion (r : IReqCheckResult) (c : Conclusion) : IReqCheckResult :=
  {| resName := resName r; conclusion := c;
     manualIssues := manualIssues r; fatalIssues := fatalIssues r;
     taIssues := taIssues r; orig := orig r |}.

(** *** Awaited collaborators

    What the collaborators answer is read from a [World]; each awaited call
    is appended to the trace. *)

Inductive Lookup :=
| GetOrCreateGuildDoc (guildId : string)
| GetGraveyardSummary (name : string)
| GetUserDoc (name : string)
| GetExaltation (name : string).

Record World := {
  graveyardSummaryOf : string -> option PAD.IGraveyardSummary;
  exaltationOf : string -> option PAD.IExaltation;
  userDocOf : string -> list IUserInfo;
  (** [DungeonUtilities.getDungeonInfo(id, guildDoc)]: the dungeon's name. *)
  dungeonInfoOf : string -> option string
}.

Definition Async (A : Type) : Type := World -> list Lookup -> A * list Lookup.

Definition ret {A} (a : A) : Async A := fun _ t => (a, t).

Definition bind {A B} (c : Async A) (k : A -> Async B) : Async B :=
  fun w t => let '(a, t') := c w t in k a w t'.

Notation "x <- c ;; k" := (bind c (fun x => k))
  (at level 61, c at next level, right associativity).

Definition await {A} (l : Lookup) (answer : World -> A) : Async A :=
  fun w t => (answer w, (t ++ [l])%list).

Definition getOrCreateGuildDoc (guildId : string) : Async unit :=
  await (GetOrCreateGuildDoc guildId) (fun _ => tt).

Definition getGraveyardSummary (name : string) : Async (option PAD.IGraveyardSummary) :=
  await (GetGraveyardSummary name) (fun w => graveyardSummaryOf w name).

Definition getExaltation (name : string) : Async (option PAD.IExaltation) :=
  await (GetExaltation name) (fun w => exaltationOf w name).

Definition getUserDoc (name : string) : Async (list IUserInfo) :=
  await (GetUserDoc name) (fun w => userDocOf w name).

Definition run {A} (c : Async A) (w : World) : A * list Lookup := c w [].

(** Synchronous [DungeonUtilities.getDungeonInfo(id, guildDoc)]. *)
Definition getDungeonInfo (dgnId : string) : Async (option string) :=
  fun w t => (dungeonInfoOf w dgnId, t).

(** *** checkRequirements *)

(** The parameter [section: ISectionInfo | IGuildInfo]. *)
Inductive SectionOrGuild :=
| OfSection (s : ISectionInfo)
| OfGuild (g : IGuildInfo).

Definition propsOf (section : SectionOrGuild) : IVerificationProperties :=
  match section with
  | OfSection s => verificationProperties s
  | OfGuild g => guildVerificationProperties g
  end.

Definition manualChannelOf (section : SectionOrGuild) : string :=
  match section with
  | OfSection s => manualVerificationChannelId s
  | OfGuild g => guildManualVerificationChannelId g
  end.

Definition mkIssue (k : string) (d : IssueData) : Issue :=
  {| issueKey := k; issueData := d |}.

(** Generic requirement: the last-seen location. *)
Definition checkLastSeen (vr : IVerificationRequirements) (resp : PAD.IPlayerData)
           (result : IReqCheckResult) : IReqCheckResult :=
  if (lastSeen_mustBeHidden vr && negb (PAD.lastSeen resp =? "hidden")%string)%bool
  then pushTa result (mkIssue "Last Seen Location is Not Private" NoData)
  else result.

(** The guild block. [Some i]: the fatal issue [i] is pushed, the
    conclusion is set to FAIL and the function returns at once. *)
Definition checkGuild (vr : IVerificationRequirements) (resp : PAD.IPlayerData)
  : option Issue :=
  if guild_checkThis vr then
    if (guildName_checkThis vr
        && negb (JS.toLowerCase (PAD.guild resp)
                 =? JS.toLowerCase (guildName_name vr))%string)%bool
    then Some (mkIssue "Not In Correct Guild"
                       (GuildNeeded (PAD.guild resp) (guildName_name vr)))
    else if guildRank_checkThis vr then
      if guildRank_exact vr then
        if negb (guildRank_minRank vr =? PAD.guildRank resp)%string
        then Some (mkIssue "Not In Correct Guild"
                           (GuildRankNeeded (PAD.guild resp) (PAD.guildRank resp)
                              (guildRank_minRank vr) (guildName_name vr)))
        else None
      else if negb (isValidGuildRank (guildRank_minRank vr) (PAD.guildRank resp))
      then Some (mkIssue "Invalid Guild Rank"
                         (GuildRankNeeded (PAD.guild resp) (PAD.guildRank resp)
                            (guildRank_minRank vr) (guildName_name vr)))
      else None
    else None
  else None.

Definition checkRank (vr : IVerificationRequirements) (resp : PAD.IPlayerData)
           (result : IReqCheckResult) : IReqCheckResult :=
  if (rank_checkThis vr && (PAD.rank resp <? rank_minRank vr))%bool
  then pushManual result
         (mkIssue "Rank Too Low" (AmountNeeded (PAD.rank resp) (rank_minRank vr)))
  else result.

Definition checkAliveFame (vr : IVerificationRequirements) (resp : PAD.IPlayerData)
           (result : IReqCheckResult) : IReqCheckResult :=
  if (aliveFame_checkThis vr && (PAD.fame resp <? aliveFame_minFame vr))%bool
  then pushManual result
         (mkIssue "Alive Fame Too Low"
                  (AmountNeeded (PAD.fame resp) (aliveFame_minFame vr)))
  else result.

(** The inner loop [for (let j = i - 1; j >= 0; j--)], with [k = j + 1]:
    the first lower tier still needed takes the amount. *)
Fixpoint scanDown (neededStats : list Z) (k : nat) (amt : Z) : list Z :=
  match k with
  | O => neededStats
  | S j =>
      if JS.positiveAt neededStats (Z.of_nat j)
      then JS.subAt neededStats (Z.of_nat j) amt
      else scanDown neededStats j amt
  end.

(** One step of either loop over tiers: tier [i] takes the amount if it is
    still needed, otherwise the first needed tier below [i] does. *)
Definition cascade (neededStats : list Z) (i : Z) (amt : Z) : list Z :=
  if JS.positiveAt neededStats i
  then JS.subAt neededStats i amt
  else scanDown neededStats (Z.to_nat i) amt.

(** [for (let i = 0; i < statInfo.length; i++)] over one graveyard row,
    entered at index [i]. *)
Fixpoint pastDeathsRow (neededStats : list Z) (statInfo : list Z) (i : Z) : list Z :=
  match statInfo with
  | [] => neededStats
  | a :: r => pastDeathsRow (cascade neededStats i a) r (i + 1)
  end.

Definition pastDeaths (neededStats : list Z) (gyHist : PAD.IGraveyardSummary) : list Z :=
  fold_left (fun n statInfo => pastDeathsRow n statInfo 0)
            (map PAD.stats (PAD.statsCharacters gyHist)) neededStats.

(** The loop over the characters whose [statsMaxed] is not [-1]:
    [neededStats[t]--] is [cascade] with amount one. *)
Definition liveCharacters (neededStats : list Z) (chars : list PAD.ICharacter) : list Z :=
  fold_left (fun n character => cascade n (PAD.statsMaxed character) 1)
            (List.filter (fun x => negb (PAD.statsMaxed x =? -1)) chars)
            neededStats.

(** The tiers left with a positive need, with what is missing. *)
Fixpoint missingStats (neededStats : list Z) (i : Z) : list (Z * Z) :=
  match neededStats with
  | [] => []
  | v :: r =>
      if v <=? 0 then missingStats r (i + 1)
      else (i, v) :: missingStats r (i + 1)
  end.

Definition neededAfterCharacters (vr : IVerificationRequirements)
           (resp : PAD.IPlayerData) (gyHist : option PAD.IGraveyardSummary) : list Z :=
  let neededStats := characters_statsNeeded vr in
  let neededStats :=
    match gyHist with
    | Some gy => if characters_checkPastDeaths vr then pastDeaths neededStats gy
                 else neededStats
    | None => neededStats
    end in
  liveCharacters neededStats (PAD.characters resp).

Definition checkCharacters (vr : IVerificationRequirements) (resp : PAD.IPlayerData)
           (gyHist : option PAD.IGraveyardSummary)
           (result : IReqCheckResult) : IReqCheckResult :=
  if characters_checkThis vr then
    let neededStats := neededAfterCharacters vr resp gyHist in
    if existsb (fun x => 0 <? x) neededStats
    then pushManual result
           (mkIssue "Stats Requirement Not Fulfilled"
                    (StatsMissing (missingStats neededStats 0)))
    else result
  else result.

(** State of the loop over the logged completions:
    [completionsNeeded], [allPassed], [issues]. *)
Definition BotState : Type := Collection.t (K := string) (V := Z) * bool * list DungeonLine.

(** One iteration of [for (const [dgnId, amt] of loggedInfo)]. An
    [undefined] id names no needed dungeon: the iteration changes nothing
    whatever [getDungeonInfo] answers for it. *)
Definition botStep (info : string -> option string) (st : BotState)
           (entry : option string * Z) : BotState :=
  let '(completionsNeeded, allPassed, issues) := st in
  match fst entry with
  | None => st
  | Some dgnId =>
      match info dgnId with
      | None => st
      | Some dungeonName =>
          match Collection.get String.eqb completionsNeeded dgnId with
          | Some needed =>
              let newAmt := needed - snd entry in
              if newAmt <=? 0
              then (Collection.delete String.eqb completionsNeeded dgnId, allPassed, issues)
              else (completionsNeeded, false,
                    (issues ++ [LoggedShort newAmt needed dungeonName])%list)
          | None => st
          end
      end
  end.

Definition checkBotCompletions (vr : IVerificationRequirements)
           (member : Discord.GuildMember) (resp : PAD.IPlayerData)
           (result : IReqCheckResult) : Async IReqCheckResult :=
  let completionsNeeded :=
    Collection.ofEntries String.eqb
      (map (fun x => (key x, value x)) (graveyardSummary_botCompletions vr)) in
  userDoc <- getUserDoc (PAD.name resp) ;;
  let loggedInfo :=
    match userDoc with
    | [] => []
    | doc :: _ =>
        LoggerManager.getCompletedDungeons doc (Discord.id (Discord.guild member))
    end in
  fun w t =>
    let '(_, allPassed, issues) :=
      fold_left (botStep (dungeonInfoOf w)) loggedInfo (completionsNeeded, true, []) in
    (if allPassed then result
     else pushManual result
            (mkIssue "Dungeon Completion Requirement Not Fulfilled"
                     (DungeonsMissing issues)),
     t).

(** [key in DISPLAY_TO_GY_HIST], then [DISPLAY_TO_GY_HIST[key]], on the
    table's own keys. *)
Definition displayToGyHist (display : string) : option string :=
  option_map snd (List.find (fun e => (fst e =? display)%string) DISPLAY_TO_GY_HIST).

Definition realmEyeStep (gyHist : PAD.IGraveyardSummary) (issues : list DungeonLine)
           (gyStat : IPropertyKeyValuePair string Z) : list DungeonLine :=
  match displayToGyHist (key gyStat) with
  | None => issues
  | Some gyHistKey =>
      match JS.find (fun x => (PAD.achievement x =? gyHistKey)%string)
                    (PAD.properties gyHist) with
      | None => (issues ++ [NoCompletions (key gyStat)])%list
      | Some data =>
          if PAD.total data <? value gyStat
          then (issues ++ [NotEnough (PAD.total data) (key gyStat)])%list
          else issues
      end
  end.

Definition checkRealmEyeCompletions (vr : IVerificationRequirements)
           (gyHist : option PAD.IGraveyardSummary)
           (result : IReqCheckResult) : IReqCheckResult :=
  match gyHist with
  | None => pushTa result (mkIssue "Graveyard History Private" NoData)
  | Some gy =>
      let issues :=
        fold_left (realmEyeStep gy) (graveyardSummary_realmEyeCompletions vr) [] in
      match issues with
      | [] => result
      | _ :: _ =>
          pushManual result
            (mkIssue "Dungeon Completion Requirement Not Fulfilled"
                     (DungeonsMissing issues))
      end
  end.

Definition checkGraveyardSummary (vr : IVerificationRequirements)
           (member : Discord.GuildMember) (resp : PAD.IPlayerData)
           (gyHist : option PAD.IGraveyardSummary)
           (result : IReqCheckResult) : Async IReqCheckResult :=
  if graveyardSummary_checkThis vr then
    if graveyardSummary_useBotCompletions vr
    then checkBotCompletions vr member resp result
    else ret (checkRealmEyeCompletions vr gyHist result)
  else ret result.

(** [neededExalt], an object keyed by the short stat names. *)
Definition NeededExalt : Type := Stat -> Z.

Definition setNeeded (n : NeededExalt) (k : Stat) (v : Z) : NeededExalt :=
  fun s => if statEqb s k then v else n s.

(** The inner loop of the one-character mode: [passed] stays true when no
    stat of the entry leaves a positive rest. *)
Definition passed (neededExalt : NeededExalt) (entry : PAD.IExaltationEntry) : bool :=
  forallb
    (fun longStat =>
       negb (0 <? neededExalt (LONG_STAT_TO_SHORT longStat)
                  - PAD.exaltationStats entry longStat))
    longStats.

(** One-character mode: the first entry that passes zeroes every need and
    ends the loop. *)
Fixpoint onOneCharLoop (neededExalt : NeededExalt)
         (entries : list PAD.IExaltationEntry) : NeededExalt :=
  match entries with
  | [] => neededExalt
  | entry :: r =>
      if passed neededExalt entry then (fun _ => 0)
      else onOneCharLoop neededExalt r
  end.

(** Summing mode: every stat of every entry is subtracted. *)
Definition subtractEntry (neededExalt : NeededExalt) (entry : PAD.IExaltationEntry)
  : NeededExalt :=
  fold_left
    (fun n longStat =>
       let shortenedStat := LONG_STAT_TO_SHORT longStat in
       setNeeded n shortenedStat (n shortenedStat - PAD.exaltationStats entry longStat))
    longStats neededExalt.

Definition neededAfterExaltations (vr : IVerificationRequirements)
           (exaltData : PAD.IExaltation) : NeededExalt :=
  let neededExalt : NeededExalt := fun d => exaltations_minimum vr d in
  if exaltations_onOneChar vr
  then onOneCharLoop neededExalt (PAD.exaltations exaltData)
  else fold_left subtractEntry (PAD.exaltations exaltData) neededExalt.

Definition notMetExaltations (neededExalt : NeededExalt) : list Stat :=
  List.filter (fun x => 0 <? neededExalt x) shortStats.

Definition checkExaltations (vr : IVerificationRequirements) (resp : PAD.IPlayerData)
           (result : IReqCheckResult) : Async IReqCheckResult :=
  if exaltations_checkThis vr then
    exaltData <- getExaltation (PAD.name resp) ;;
    match exaltData with
    | None => ret (pushTa result (mkIssue "Exaltation Information Private" NoData))
    | Some exaltData =>
        let neededExalt := neededAfterExaltations vr exaltData in
        match notMetExaltations neededExalt with
        | [] => ret result
        | notMet =>
            ret (pushManual result
                   (mkIssue "Exaltation Requirement Not Satisfied"
                      (if exaltations_onOneChar vr then ExaltationsOneChar
                       else ExaltationsMissing
                              (map (fun s => (s, neededExalt s)) notMet))))
        end
    end
  else ret result.

(** Assessing the three lists. *)
Definition assess (result : IReqCheckResult) : Conclusion :=
  match fatalIssues result, taIssues result, manualIssues result with
  | _ :: _, _, _ => FAIL
  | [], _ :: _, _ => TRY_AGAIN
  | [], [], _ :: _ => MANUAL
  | [], [], [] => PASS
  end.

Definition isManual (c : Conclusion) : bool :=
  match c with MANUAL => true | _ => false end.

(** A MANUAL conclusion needs a cached manual-verification channel. *)
Definition conclude (member : Discord.GuildMember) (section : SectionOrGuild)
           (result : IReqCheckResult) : IReqCheckResult :=
  let result := setConclusion result (assess result) in
  if (isManual (conclusion result)
      && negb (GuildFgrUtilities.hasCachedChannel
                 (Discord.guild member) (manualChannelOf section)))%bool
  then setConclusion result FAIL
  else result.

Definition checkRequirements (member : Discord.GuildMember) (section : SectionOrGuild)
           (resp : PAD.IPlayerData) : Async IReqCheckResult :=
  _ <- match section with
       | OfGuild _ => ret tt
       | OfSection _ => getOrCreateGuildDoc (Discord.id (Discord.guild member))
       end ;;
  let verifReq := Defs.verifReq (propsOf section) in
  let result :=
    {| resName := PAD.name resp; conclusion := PASS; manualIssues := [];
       fatalIssues := []; taIssues := []; orig := resp |} in
  let result := checkLastSeen verifReq resp result in
  match checkGuild verifReq resp with
  | Some issue => ret (setConclusion (pushFatal result issue) FAIL)
  | None =>
      let result := checkRank verifReq resp result in
      let result := checkAliveFame verifReq resp result in
      gyHist <- getGraveyardSummary (PAD.name resp) ;;
      let result := checkCharacters verifReq resp gyHist result in
      result <- checkGraveyardSummary verifReq member resp gyHist result ;;
      result <- checkExaltations verifReq resp result ;;
      ret (conclude member section result)
  end.

(** *** The verification session of the main section

    [verifyMain], from the point where the code has been generated and the
    message with the Check Profile and Cancel buttons is up: the component
    collector's ["collect"] handler. *)

(** Modelled from the spec: [MongoManager.getMainSection] is defined outside
    the files embedded here. The main scope is the community itself: its
    section carries the guild document's own roles, channels and verification
    properties, under the identifier [MAIN] that [acknowledgeManualVerifyRes]
    tests for. *)
Definition getMainSection (guildDoc : IGuildInfo) : ISectionInfo :=
  {| uniqueIdentifier := "MAIN";
     sectionName := "Main";
     isMainSection := true;
     verifiedRoleId := guildVerifiedRoleId guildDoc;
     manualVerificationChannelId := guildManualVerificationChannelId guildDoc;
     verificationProperties := guildVerificationProperties guildDoc |}.

Inductive Button := CHECK_PROFILE_BUTTON | CANCEL_BUTTON.

(** The custom id of the component that was pressed. *)
Inductive CustomId := CANCEL_ID | CHECK_PROFILE_ID | OtherId (s : string).

Inductive VerifIssue :=
| CodeNotFound
| NameHistoryUnavailable
| RequirementIssues (issues : list Issue).

(** What the verification message shows. *)
Inductive Embed :=
| VerifEmbed (issues : option VerifIssue)
| CanceledEmbed
| CheckingEmbed
| ProfileErrorEmbed
| BlacklistedEmbed (actionId : string)
| FailedEmbed (issues : list Issue)
| SuccessEmbed.

(** The ephemeral replies of [verifySection]. *)
Inductive Reply :=
| ReplyVerified
| ReplyNoName
| ReplyNotFound (ign : string)
| ReplyTryAgain (issues : list Issue)
| ReplyFailed (issues : list Issue)
| ReplyManual (issues : list Issue).

(** What the code sends or changes besides the verification message. A
    message to the failure log is kept as a short tag of what it reports, a
    direct message as whether it was delivered. *)
Inductive Effect :=
| DirectMessage (delivered : bool)
| LogFail (what : string)
| LogSuccess
| HandleManualVerificationCase (checkRes : IReqCheckResult)
| AddIdName (ign : string)
| AddVerifiedRole (roleId : string)
| SetNickname (ign : string)
| InteractionReply (r : Reply)
| DeleteQueueMessage (msgId : string)
| StartModmail.

Record SessionState := {
  collectorEnded : bool;
  msgDeleted : bool;
  msgEmbed : Embed;
  msgComponents : list Button;
  effects : list Effect
}.

(** What is fixed when the proof code is handed out. *)
Record MainSession := {
  sMember : Discord.GuildMember;
  sGuildDoc : IGuildInfo;
  nameToVerify : string;
  code : string;
  allAssociatedNames : list string
}.

Record SessionWorld := {
  (** [tryExecuteAsync(getPlayerInfo)]: [None] on any failure or timeout. *)
  playerInfoOf : string -> option PAD.IPlayerData;
  nameHistoryOf : string -> option PAD.INameHistory;
  (** [UserManager.getAllNames(member.displayName)] *)
  displayNames : list string;
  (** [MongoManager.findIdInIdNameCollection(member.id)] *)
  idNameDocs : list IIdNameInfo;
  (** Whether [GlobalFgrUtilities.sendMsg] reaches the member. *)
  dmDelivered : bool;
  evalWorld : World
}.

(** The wait state: the message as [verifyMain] first sets it up. *)
Definition awaitProof : SessionState :=
  {| collectorEnded := false; msgDeleted := false;
     msgEmbed := VerifEmbed None;
     msgComponents := [CHECK_PROFILE_BUTTON; CANCEL_BUTTON];
     effects := [] |}.

Definition edit (st : SessionState) (e : Embed) (c : list Button) : SessionState :=
  {| collectorEnded := collectorEnded st; msgDeleted := msgDeleted st;
     msgEmbed := e; msgComponents := c; effects := effects st |}.

Definition emit (st : SessionState) (e : Effect) : SessionState :=
  {| collectorEnded := collectorEnded st; msgDeleted := msgDeleted st;
     msgEmbed := msgEmbed st; msgComponents := msgComponents st;
     effects := effects st ++ [e] |}.

Definition stop (st : SessionState) : SessionState :=
  {| collectorEnded := true; msgDeleted := msgDeleted st;
     msgEmbed := msgEmbed st; msgComponents := msgComponents st;
     effects := effects st |}.

Definition deleteMsg (st : SessionState) : SessionState :=
  {| collectorEnded := collectorEnded st; msgDeleted := true;
     msgEmbed := msgEmbed st; msgComponents := msgComponents st;
     effects := effects st |}.

(** The common tail of the three retry branches: the member is messaged,
    and only when that message cannot be delivered does the session end. *)
Definition retry (sw : SessionWorld) (st : SessionState) (issue : VerifIssue)
           (log : string) : SessionState :=
  let st := edit st (VerifEmbed (Some issue)) [CHECK_PROFILE_BUTTON; CANCEL_BUTTON] in
  let st := emit st (DirectMessage (dmDelivered sw)) in
  let st := emit st (LogFail log) in
  if negb (dmDelivered sw)
  then emit (deleteMsg (stop st)) (LogFail "could not message the user")
  else st.

(** The first blacklist entry matching one of the names. *)
Definition blacklisted (guildDoc : IGuildInfo) (names : list string)
  : option IBlacklistedUser :=
  List.find
    (fun blacklistEntry =>
       existsb (fun nameEntry =>
                  (lowercaseIgn blacklistEntry =? JS.toLowerCase nameEntry)%string)
               names)
    (blacklistedUsers guildDoc).

Definition collect (sw : SessionWorld) (s : MainSession) (st : SessionState)
           (customId : CustomId) : SessionState :=
  match customId with
  | CANCEL_ID =>
      stop (emit (edit st CanceledEmbed []) (LogFail "canceled"))
  | _ =>
      let st := edit st CheckingEmbed [] in
      match playerInfoOf sw (nameToVerify s) with
      | None =>
          let st := edit st ProfileErrorEmbed [] in
          let st := emit st (DirectMessage (dmDelivered sw)) in
          let st := emit st (LogFail "profile unreachable") in
          stop st
      | Some requestData =>
          if negb (existsb (fun d => JS.includes d (code s)) (PAD.description requestData))
          then retry sw st CodeNotFound "code not found"
          else
            match nameHistoryOf sw (nameToVerify s) with
            | None => retry sw st NameHistoryUnavailable "name history unreachable"
            | Some nameHistory =>
                match blacklisted (sGuildDoc s)
                        (PAD.name requestData
                           :: PAD.nameHistory nameHistory ++ allAssociatedNames s)%list with
                | Some blacklistEntry =>
                    let st := edit st (BlacklistedEmbed (actionId blacklistEntry)) [] in
                    let st := emit st (DirectMessage (dmDelivered sw)) in
                    let st := emit st (LogFail "blacklisted") in
                    stop st
                | None =>
                    let checkRes :=
                      fst (run (checkRequirements (sMember s)
                                  (OfSection (getMainSection (sGuildDoc s)))
                                  requestData)
                               (evalWorld sw)) in
                    match conclusion checkRes with
                    | FAIL =>
                        let issuesToUse :=
                          match fatalIssues checkRes with
                          | [] => manualIssues checkRes
                          | _ :: _ => fatalIssues checkRes
                          end in
                        let st := edit st (FailedEmbed issuesToUse) [] in
                        let st := emit st (DirectMessage (dmDelivered sw)) in
                        let st := emit st (LogFail "fatal issues") in
                        stop st
                    | TRY_AGAIN =>
                        retry sw st (RequirementIssues (taIssues checkRes)) "minor issues"
                    | MANUAL =>
                        stop (emit st (HandleManualVerificationCase checkRes))
                    | PASS =>
                        let st := stop st in
                        let st := emit st (AddIdName (PAD.name requestData)) in
                        let st := emit st (AddVerifiedRole (guildVerifiedRoleId (sGuildDoc s))) in
                        let st := emit st (SetNickname (PAD.name requestData)) in
                        let st := edit st SuccessEmbed (msgComponents st) in
                        let st := emit st (DirectMessage (dmDelivered sw)) in
                        emit st LogSuccess
                    end
                end
            end
      end
  end.

(** The collector hands an interaction to the handler only while it runs. *)
Definition onInteraction (sw : SessionWorld) (s : MainSession) (st : SessionState)
           (customId : CustomId) : SessionState :=
  if collectorEnded st then st else collect sw s st customId.

(** The session is back in the wait state: the collector runs, the message
    is there and offers both buttons. *)
Definition inAwaitProof (st : SessionState) : bool :=
  (negb (collectorEnded st) && negb (msgDeleted st)
   && match msgComponents st with
      | [CHECK_PROFILE_BUTTON; CANCEL_BUTTON] => true
      | _ => false
      end)%bool.

(** The collector's events: a component interaction of the member, or the
    twenty minutes running out (the ["end"] handler does nothing). *)
Inductive Event := Collect (customId : CustomId) | TimeUp.

Definition step (sw : SessionWorld) (s : MainSession) (st : SessionState)
           (ev : Event) : SessionState :=
  match ev with
  | Collect customId => onInteraction sw s st customId
  | TimeUp => stop st
  end.

(** *** Verification in a section *)

(** [nameToUse] of [verifySection]; [inl] carries what ends the function
    early: [None] for the exception of reading the first name of a document
    without names, [Some r] for a reply. *)
Definition resolveName (sw : SessionWorld) : option Reply + string :=
  match displayNames sw with
  | [] =>
      match idNameDocs sw with
      | [] => inl (Some ReplyNoName)
      | doc :: _ =>
          match rotmgNames doc with
          | [] => inl None
          | ign :: _ => inr ign
          end
      end
  | n :: _ => inr n
  end.

Definition verifySection (sw : SessionWorld) (member : Discord.GuildMember)
           (section : ISectionInfo) : list Effect :=
  if (negb (GuildFgrUtilities.hasCachedRole (Discord.guild member) (verifiedRoleId section))
      || GuildFgrUtilities.memberHasCachedRole member (verifiedRoleId section))%bool
  then []
  else if negb (Defs.checkRequirements (verificationProperties section))
  then [AddVerifiedRole (verifiedRoleId section); InteractionReply ReplyVerified; LogSuccess]
  else
    match resolveName sw with
    | inl None => []
    | inl (Some r) => [InteractionReply r]
    | inr nameToUse =>
        match playerInfoOf sw nameToUse with
        | None => [InteractionReply (ReplyNotFound nameToUse); LogFail "profile unreachable"]
        | Some requestData =>
            let checkRes :=
              fst (run (checkRequirements member (OfSection section) requestData)
                       (evalWorld sw)) in
            match conclusion checkRes with
            | TRY_AGAIN =>
                [InteractionReply (ReplyTryAgain (taIssues checkRes)); LogFail "minor issues"]
            | FAIL =>
                [InteractionReply (ReplyFailed (fatalIssues checkRes)); LogFail "fatal issues"]
            | MANUAL =>
                [HandleManualVerificationCase checkRes;
                 InteractionReply (ReplyManual (manualIssues checkRes))]
            | PASS =>
                [AddVerifiedRole (verifiedRoleId section); InteractionReply ReplyVerified;
                 LogSuccess]
            end
        end
    end.

(** *** Acknowledging a manual verification *)

Definition MANUAL_VERIFY_ACCEPT_ID : string := "accept_manual".
Definition MANUAL_VERIFY_DENY_ID : string := "reject_manual".
Definition MANUAL_VERIFY_MODMAIL_ID : string := "modmail_manual".

Record AckWorld := {
  (** [fetchGuildMember(moderator.guild, userId)] *)
  fetchedMember : option Discord.GuildMember;
  (** [getOrCreateGuildDoc]: the stored document, whose
      [manualVerificationEntries] are the durable entries. *)
  storedGuildDoc : IGuildInfo;
  (** What [ModmailManager.startModmailWithUser] answers. *)
  modmailStarted : bool;
  (** Whether [GlobalFgrUtilities.sendMsg] reaches the member. *)
  ackDmDelivered : bool
}.

Record AckResult := {
  acknowledged : bool;
  entriesAfter : list IManualVerificationEntry;
  ackEffects : list Effect
}.

(** [$pull] with a filter document: every matching entry goes. *)
Definition pull (matches : IManualVerificationEntry -> bool)
           (entries : list IManualVerificationEntry) : list IManualVerificationEntry :=
  List.filter (fun x => negb (matches x)) entries.

(** The section of the entry: the guild section with its identifier, the
    main section for [MAIN], none otherwise. *)
Definition sectionOfEntry (guildDoc : IGuildInfo)
           (manualVerifyRes : IManualVerificationEntry) : option ISectionInfo :=
  match JS.find (fun x => (uniqueIdentifier x =? sectionId manualVerifyRes)%string)
                (guildSections guildDoc) with
  | Some section => Some section
  | None =>
      if negb (sectionId manualVerifyRes =? "MAIN")%string then None
      else Some (getMainSection guildDoc)
  end.

Definition acknowledgeManualVerifyRes (aw : AckWorld)
           (manualVerifyRes : IManualVerificationEntry)
           (moderator : Discord.GuildMember) (responseId : string) : AckResult :=
  let guildDoc := storedGuildDoc aw in
  let entries := manualVerificationEntries guildDoc in
  match fetchedMember aw with
  | None =>
      {| acknowledged := false;
         entriesAfter := pull (fun x => (userId x =? userId manualVerifyRes)%string) entries;
         ackEffects :=
           map (fun x => DeleteQueueMessage (manualVerifyMsgId x))
               (List.filter
                  (fun x => ((userId x =? userId manualVerifyRes)%string
                             && GuildFgrUtilities.hasCachedChannel
                                  (Discord.guild moderator) (manualVerifyChannelId x))%bool)
                  entries) |}
  | Some member =>
      match sectionOfEntry guildDoc manualVerifyRes with
      | None =>
          {| acknowledged := false;
             entriesAfter :=
               pull (fun x => (sectionId x =? sectionId manualVerifyRes)%string) entries;
             ackEffects := [] |}
      | Some section =>
          if negb (GuildFgrUtilities.hasCachedRole
                     (Discord.guild moderator) (verifiedRoleId section))
          then {| acknowledged := false; entriesAfter := entries; ackEffects := [] |}
          else
            let pulled :=
              pull (fun x => ((sectionId x =? sectionId manualVerifyRes)%string
                              && (userId x =? userId manualVerifyRes)%string)%bool)
                   entries in
            if (responseId =? MANUAL_VERIFY_MODMAIL_ID)%string then
              {| acknowledged := modmailStarted aw; entriesAfter := entries;
                 ackEffects := [StartModmail] |}
            else if (responseId =? MANUAL_VERIFY_DENY_ID)%string then
              {| acknowledged := true; entriesAfter := pulled;
                 ackEffects :=
                   [DeleteQueueMessage (manualVerifyMsgId manualVerifyRes);
                    DirectMessage (ackDmDelivered aw); LogFail "denied"] |}
            else if (responseId =? MANUAL_VERIFY_ACCEPT_ID)%string then
              {| acknowledged := true; entriesAfter := pulled;
                 ackEffects :=
                   ([DeleteQueueMessage (manualVerifyMsgId manualVerifyRes);
                     DirectMessage (ackDmDelivered aw); AddVerifiedRole (verifiedRoleId section)]
                    ++ (if isMainSection section
                        then [AddIdName (ign manualVerifyRes);
                              SetNickname (ign manualVerifyRes); LogSuccess]
                        else [LogSuccess]))%list |}
            else {| acknowledged := false; entriesAfter := entries; ackEffects := [] |}
      end
  end.

(** *** The history table read by the requirement text *)



(** *** Entering verification *)

Definition NO_MANUAL_VERIFY_ID : string := "deny".
Definition MANUAL_VERIFY_ID : string := "manual_verify".
Definition MANUAL_EVIDENCE_ID : string := "manual_evidence".

(** The verification kit, as far as the code of this part reads it: the
    manual-verification channel, [None] for [null], and whether there is a
    direct message to edit. *)
Record IVerificationKit := {
  manualVerify : option string;
  kitHasMsg : bool
}.

(** Modelled from the spec: [GuildFgrUtilities.getCachedChannel] is defined
    outside the files embedded here; it gives the channel of that id when the
    guild has one, and [null] otherwise. *)
Definition getCachedChannel (g : Discord.Guild) (channelId : string) : option string :=
  if GuildFgrUtilities.hasCachedChannel g channelId then Some channelId else None.

(** How [verify] ends. *)
Inductive VerifyOutcome :=
| VerificationUnavailable
| UnderManualVerification
| StartedMain
| StartedSection.

(** [verify]; [isOnline] is what [RealmSharperWrapper.isOnline] answers. *)
Definition verify (isOnline : bool) (member : Discord.GuildMember)
           (guildDoc : IGuildInfo) (section : ISectionInfo) : VerifyOutcome :=
  if negb isOnline then VerificationUnavailable
  else
    match JS.find (fun x => ((userId x =? Discord.memberId member)%string
                             && (sectionId x =? uniqueIdentifier section)%string)%bool)
                  (manualVerificationEntries guildDoc) with
    | Some _ => UnderManualVerification
    | None => if isMainSection section then StartedMain else StartedSection
    end.

(** How [verifyInteraction] ends. *)
Inductive InteractionOutcome :=
| Ignored
| CannotMessage
| Entered (kit : IVerificationKit) (o : VerifyOutcome).

(** [verifyInteraction]. [isButton] and [inGuild] are the two tests on the
    interaction, [member] what fetching the guild member gives, [dmOpen]
    whether the test message reaches the member. *)
Definition verifyInteraction (isButton inGuild : bool)
           (member : option Discord.GuildMember) (dmOpen isOnline : bool)
           (guildDoc : IGuildInfo) (section : ISectionInfo) : InteractionOutcome :=
  if negb isButton then Ignored
  else if negb inGuild then Ignored
  else
    match member with
    | None => Ignored
    | Some member =>
        if (negb (GuildFgrUtilities.hasCachedRole (Discord.guild member)
                    (verifiedRoleId section))
            || GuildFgrUtilities.memberHasCachedRole member (verifiedRoleId section))%bool
        then Ignored
        else if (isMainSection section && negb dmOpen)%bool then CannotMessage
        else
          Entered
            {| manualVerify :=
                 getCachedChannel (Discord.guild member) (manualVerificationChannelId section);
               kitHasMsg := isMainSection section |}
            (verify isOnline member guildDoc section)
    end.

(** *** Asking for manual verification *)

(** [sendManualVerifyEmbedAndLog], on the stored entries; [msgId] is the id
    of the message posted to the manual-verification channel. *)
Definition sendManualVerifyEmbedAndLog (member : Discord.GuildMember)
           (checkRes : IReqCheckResult) (verifKit : IVerificationKit)
           (section : ISectionInfo) (msgId : string)
           (entries : list IManualVerificationEntry) : list IManualVerificationEntry :=
  match manualVerify verifKit with
  | None => entries
  | Some channelId =>
      (entries ++ [{| userId := Discord.memberId member;
                      ign := resName checkRes;
                      manualVerifyMsgId := msgId;
                      manualVerifyChannelId := channelId;
                      sectionId := uniqueIdentifier section |}])%list
  end.

(** [handleManualVerificationCase], on the stored entries. [promptShown]
    tells whether the message with the two buttons could be sent or edited,
    [selected] is the custom id of the button pressed within two minutes,
    [None] when none was. *)
Definition handleManualVerificationCase (member : Discord.GuildMember)
           (checkRes : IReqCheckResult) (verifKit : IVerificationKit)
           (section : ISectionInfo) (promptShown : bool) (selected : option string)
           (msgId : string) (entries : list IManualVerificationEntry)
  : list IManualVerificationEntry :=
  if negb promptShown then entries
  else
    match selected with
    | None => entries
    | Some customId =>
        if (customId =? NO_MANUAL_VERIFY_ID)%string then entries
        else sendManualVerifyEmbedAndLog member checkRes verifKit section msgId entries
    end.

(** *** The name a member verifies with *)

(** The loop of [verifyMain] over [matchedNameUserDocs], the documents that
    hold the typed name; the loop reads no more of a document than its
    [currentDiscordId], by which it is given here. It gives [userDoc], [None]
    for [null], and [invalidDocs]. *)
Fixpoint matchedDocsLoop (memberId : string) (matchedNameUserDocs : list string)
         (invalidDocs : Z) : option string * Z :=
  match matchedNameUserDocs with
  | [] => (None, invalidDocs)
  | doc :: rest =>
      if (doc =? memberId)%string then (Some doc, invalidDocs)
      else matchedDocsLoop memberId rest (invalidDocs + 1)
  end.

(** [!userDoc && invalidDocs > 0]: the name has already been registered by
    another user, and the verification stops. *)
Definition nameAlreadyRegistered (memberId : string) (matchedNameUserDocs : list string)
  : bool :=
  let '(userDoc, invalidDocs) := matchedDocsLoop memberId matchedNameUserDocs 0 in
  (match userDoc with None => true | Some _ => false end && (0 <? invalidDocs))%bool.

End VerifyManager.

(** ** Sample policies, profiles and worlds *)
Module Samples.
Import Defs VerifyManager.

(** A policy that checks nothing. *)
Definition nothingChecked : IVerificationRequirements :=
  {| lastSeen_mustBeHidden := false;
     guild_checkThis := false; guildName_checkThis := false; guildName_name := "";
     guildRank_checkThis := false; guildRank_minRank := ""; guildRank_exact := false;
     rank_checkThis := false; rank_minRank := 0;
     aliveFame_checkThis := false; aliveFame_minFame := 0;
     characters_checkThis := false; characters_statsNeeded := [];
     characters_checkPastDeaths := false;
     exaltations_checkThis := false; exaltations_minimum := fun _ => 0;
     exaltations_onOneChar := false;
     graveyardSummary_checkThis := false; graveyardSummary_useBotCompletions := false;
     graveyardSummary_botCompletions := []; graveyardSummary_realmEyeCompletions := [] |}.

Definition requireHidden (vr : IVerificationRequirements) : IVerificationRequirements :=
  {| lastSeen_mustBeHidden := true; guild_checkThis := guild_checkThis vr;
     guildName_checkThis := guildName_checkThis vr;
     guildName_name := guildName_name vr;
     guildRank_checkThis := guildRank_checkThis vr;
     guildRank_minRank := guildRank_minRank vr;
     guildRank_exact := guildRank_exact vr; rank_checkThis := rank_checkThis vr;
     rank_minRank := rank_minRank vr;
     aliveFame_checkThis := aliveFame_checkThis vr;
     aliveFame_minFame := aliveFame_minFame vr;
     characters_checkThis := characters_checkThis vr;
     characters_statsNeeded := characters_statsNeeded vr;
     characters_checkPastDeaths := characters_checkPastDeaths vr;
     exaltations_checkThis := exaltations_checkThis vr;
     exaltations_minimum := exaltations_minimum vr;
     exaltations_onOneChar := exaltations_onOneChar vr;
     graveyardSummary_checkThis := graveyardSummary_checkThis vr;
     graveyardSummary_useBotCompletions := graveyardSummary_useBotCompletions vr;
     graveyardSummary_botCompletions := graveyardSummary_botCompletions vr;
     graveyardSummary_realmEyeCompletions := graveyardSummary_realmEyeCompletions vr |}.

Definition requireGuild (n : string) (vr : IVerificationRequirements)
  : IVerificationRequirements :=
  {| lastSeen_mustBeHidden := lastSeen_mustBeHidden vr; guild_checkThis := true;
     guildName_checkThis := true; guildName_name := n;
     guildRank_checkThis := guildRank_checkThis vr;
     guildRank_minRank := guildRank_minRank vr;
     guildRank_exact := guildRank_exact vr; rank_checkThis := rank_checkThis vr;
     rank_minRank := rank_minRank vr;
     aliveFame_checkThis := aliveFame_checkThis vr;
     aliveFame_minFame := aliveFame_minFame vr;
     characters_checkThis := characters_checkThis vr;
     characters_statsNeeded := characters_statsNeeded vr;
     characters_checkPastDeaths := characters_checkPastDeaths vr;
     exaltations_checkThis := exaltations_checkThis vr;
     exaltations_minimum := exaltations_minimum vr;
     exaltations_onOneChar := exaltations_onOneChar vr;
     graveyardSummary_checkThis := graveyardSummary_checkThis vr;
     graveyardSummary_useBotCompletions := graveyardSummary_useBotCompletions vr;
     graveyardSummary_botCompletions := graveyardSummary_botCompletions vr;
     graveyardSummary_realmEyeCompletions := graveyardSummary_realmEyeCompletions vr |}.

Definition requireRank (n : Z) (vr : IVerificationRequirements)
  : IVerificationRequirements :=
  {| lastSeen_mustBeHidden := lastSeen_mustBeHidden vr;
     guild_checkThis := guild_checkThis vr;
     guildName_checkThis := guildName_checkThis vr;
     guildName_name := guildName_name vr;
     guildRank_checkThis := guildRank_checkThis vr;
     guildRank_minRank := guildRank_minRank vr;
     guildRank_exact := guildRank_exact vr; rank_checkThis := true;
     rank_minRank := n; aliveFame_checkThis := aliveFame_checkThis vr;
     aliveFame_minFame := aliveFame_minFame vr;
     characters_checkThis := characters_checkThis vr;
     characters_statsNeeded := characters_statsNeeded vr;
     characters_checkPastDeaths := characters_checkPastDeaths vr;
     exaltations_checkThis := exaltations_checkThis vr;
     exaltations_minimum := exaltations_minimum vr;
     exaltations_onOneChar := exaltations_onOneChar vr;
     graveyardSummary_checkThis := graveyardSummary_checkThis vr;
     graveyardSummary_useBotCompletions := graveyardSummary_useBotCompletions vr;
     graveyardSummary_botCompletions := graveyardSummary_botCompletions vr;
     graveyardSummary_realmEyeCompletions := graveyardSummary_realmEyeCompletions vr |}.

Definition requireCharacters (needed : list Z) (vr : IVerificationRequirements)
  : IVerificationRequirements :=
  {| lastSeen_mustBeHidden := lastSeen_mustBeHidden vr;
     guild_checkThis := guild_checkThis vr;
     guildName_checkThis := guildName_checkThis vr;
     guildName_name := guildName_name vr;
     guildRank_checkThis := guildRank_checkThis vr;
     guildRank_minRank := guildRank_minRank vr;
     guildRank_exact := guildRank_exact vr; rank_checkThis := rank_checkThis vr;
     rank_minRank := rank_minRank vr;
     aliveFame_checkThis := aliveFame_checkThis vr;
     aliveFame_minFame := aliveFame_minFame vr; characters_checkThis := true;
     characters_statsNeeded := needed;
     characters_checkPastDeaths := characters_checkPastDeaths vr;
     exaltations_checkThis := exaltations_checkThis vr;
     exaltations_minimum := exaltations_minimum vr;
     exaltations_onOneChar := exaltations_onOneChar vr;
     graveyardSummary_checkThis := graveyardSummary_checkThis vr;
     graveyardSummary_useBotCompletions := graveyardSummary_useBotCompletions vr;
     graveyardSummary_botCompletions := graveyardSummary_botCompletions vr;
     graveyardSummary_realmEyeCompletions := graveyardSummary_realmEyeCompletions vr |}.

Definition requireExaltations (minimum : Stat -> Z) (onOneChar : bool)
           (vr : IVerificationRequirements) : IVerificationRequirements :=
  {| lastSeen_mustBeHidden := lastSeen_mustBeHidden vr;
     guild_checkThis := guild_checkThis vr;
     guildName_checkThis := guildName_checkThis vr;
     guildName_name := guildName_name vr;
     guildRank_checkThis := guildRank_checkThis vr;
     guildRank_minRank := guildRank_minRank vr;
     guildRank_exact := guildRank_exact vr; rank_checkThis := rank_checkThis vr;
     rank_minRank := rank_minRank vr;
     aliveFame_checkThis := aliveFame_checkThis vr;
     aliveFame_minFame := aliveFame_minFame vr;
     characters_checkThis := characters_checkThis vr;
     characters_statsNeeded := characters_statsNeeded vr;
     characters_checkPastDeaths := characters_checkPastDeaths vr;
     exaltations_checkThis := true; exaltations_minimum := minimum;
     exaltations_onOneChar := onOneChar;
     graveyardSummary_checkThis := graveyardSummary_checkThis vr;
     graveyardSummary_useBotCompletions := graveyardSummary_useBotCompletions vr;
     graveyardSummary_botCompletions := graveyardSummary_botCompletions vr;
     graveyardSummary_realmEyeCompletions := graveyardSummary_realmEyeCompletions vr |}.

Definition props (flag : bool) (vr : IVerificationRequirements) : IVerificationProperties :=
  {| Defs.checkRequirements := flag; verifReq := vr |}.

(** A guild whose manual-verification channel and verified role exist. *)
Definition staffedGuild : Discord.Guild :=
  {| Discord.id := "guild-1"; Discord.cachedChannels := ["manual-queue"];
     Discord.cachedRoles := ["verified"] |}.

(** The same guild without any channel or role. *)
Definition bareGuild : Discord.Guild :=
  {| Discord.id := "guild-1"; Discord.cachedChannels := []; Discord.cachedRoles := [] |}.

Definition memberOf (g : Discord.Guild) : Discord.GuildMember :=
  {| Discord.memberId := "user-1"; Discord.guild := g; Discord.memberRoles := [] |}.

Definition moderatorOf (g : Discord.Guild) : Discord.GuildMember :=
  {| Discord.memberId := "mod-1"; Discord.guild := g; Discord.memberRoles := ["staff"] |}.

Definition sectionWith (p : IVerificationProperties) : ISectionInfo :=
  {| uniqueIdentifier := "section-1"; sectionName := "Veterans";
     isMainSection := false; verifiedRoleId := "verified";
     manualVerificationChannelId := "manual-queue"; verificationProperties := p |}.

Definition guildDocWith (p : IVerificationProperties)
           (entries : list IManualVerificationEntry) : IGuildInfo :=
  {| guildId := "guild-1"; guildVerifiedRoleId := "verified";
     guildManualVerificationChannelId := "manual-queue";
     guildVerificationProperties := p;
     guildSections := [sectionWith p];
     manualVerificationEntries := entries;
     blacklistedUsers := [] |}.

Definition character (tier : Z) : PAD.ICharacter := {| PAD.statsMaxed := tier |}.

(** A section that asks for rank 10, in a guild with or without its
    manual-verification channel. *)
Definition rank10 : SectionOrGuild :=
  OfSection (sectionWith (props true (requireRank 10 nothingChecked))).

(** A section that asks for membership of the guild Wolves and nothing else;
    [flag] is the master flag [checkRequirements]. *)
Definition wolvesOnly (flag : bool) : IVerificationProperties :=
  props flag (requireGuild "Wolves" nothingChecked).

(** A section that asks for characters of the given tiers. *)
Definition tiers (needed : list Z) : SectionOrGuild :=
  OfSection (sectionWith (props true (requireCharacters needed nothingChecked))).

(** A policy that checks exaltations only. *)
Definition exaltPolicy (minimum : Stat -> Z) (onOneChar : bool)
  : IVerificationRequirements :=
  requireExaltations minimum onOneChar nothingChecked.

Definition exaltSection (minimum : Stat -> Z) (onOneChar : bool) : SectionOrGuild :=
  OfSection (sectionWith (props true (exaltPolicy minimum onOneChar))).

(** A profile without the proof code in its description. *)
Definition bob : PAD.IPlayerData :=
  {| PAD.name := "Bob"; PAD.rank := 50; PAD.fame := 100;
     PAD.guild := "Wolves"; PAD.guildRank := "Member"; PAD.lastSeen := "hidden";
     PAD.characters := []; PAD.description := ["hello"] |}.



(** A world whose only user document has one logged Shatters completion in
    guild-1; every dungeon id is known. *)
Definition loggedWorld : World :=
  {| graveyardSummaryOf := fun _ => None; exaltationOf := fun _ => None;
     userDocOf := fun _ => [{| discordId := "user-1";
                               loggedInfo := [{| key := "R:guild-1:SHATTERS:1";
                                                 value := 1 |}] |}];
     dungeonInfoOf := fun dgnId => Some dgnId |}.

(** Targets by dungeon id: three Shatters and two Nests. *)
Definition loggedTargets : list (IPropertyKeyValuePair string Z) :=
  [{| key := "SHATTERS"; value := 3 |}; {| key := "NEST"; value := 2 |}].

(** A section whose policy enables no check at all. *)
Definition unchecked : SectionOrGuild :=
  OfSection (sectionWith (props true nothingChecked)).

(** A profile of rank 5 in the guild Knights, with the proof code in its
    description. *)
Definition alice (chars : list PAD.ICharacter) : PAD.IPlayerData :=
  {| PAD.name := "Alice"; PAD.rank := 5; PAD.fame := 100;
     PAD.guild := "Knights"; PAD.guildRank := "Member"; PAD.lastSeen := "hidden";
     PAD.characters := chars; PAD.description := ["hello"; "code K3Y"] |}.

Definition exalted (a d : Z) : PAD.IExaltationEntry :=
  {| PAD.exaltationStats :=
       fun l => match l with PAD.attack => a | PAD.defense => d | _ => 0 end |}.

Definition attDef5 : Stat -> Z :=
  fun s => match s with att => 5 | def => 5 | _ => 0 end.

(** A world in which every auxiliary source is unavailable or empty. *)
Definition silentWorld : World :=
  {| graveyardSummaryOf := fun _ => None; exaltationOf := fun _ => None;
     userDocOf := fun _ => []; dungeonInfoOf := fun _ => None |}.

Definition worldWithExaltations (es : list PAD.IExaltationEntry) : World :=
  {| graveyardSummaryOf := fun _ => None;
     exaltationOf := fun _ => Some {| PAD.exaltations := es |};
     userDocOf := fun _ => []; dungeonInfoOf := fun _ => None |}.

Definition sessionWorld (profile : option PAD.IPlayerData) (dm : bool) : SessionWorld :=
  {| playerInfoOf := fun _ => profile;
     nameHistoryOf := fun _ => Some {| PAD.nameHistory := [] |};
     displayNames := ["Alice"]; idNameDocs := [];
     dmDelivered := dm; evalWorld := silentWorld |}.

(** The profile is there, its name history is not. *)
Definition noHistoryWorld (profile : PAD.IPlayerData) : SessionWorld :=
  {| playerInfoOf := fun _ => Some profile;
     nameHistoryOf := fun _ => None;
     displayNames := ["Alice"]; idNameDocs := [];
     dmDelivered := true; evalWorld := silentWorld |}.

Definition mainSession (g : Discord.Guild) (p : IVerificationProperties) : MainSession :=
  {| sMember := memberOf g; sGuildDoc := guildDocWith p [];
     nameToVerify := "Alice"; code := "K3Y"; allAssociatedNames := [] |}.

Definition entryOf (user section : string) : IManualVerificationEntry :=
  {| userId := user; ign := "Alice"; manualVerifyMsgId := "msg-1";
     manualVerifyChannelId := "manual-queue"; sectionId := section |}.

(** The stored document holds one pending entry, of user-1 in section-1;
    [present] tells whether that user is still in the guild. *)
Definition pendingWorld (present : bool) (g : Discord.Guild) : AckWorld :=
  {| fetchedMember := if present then Some (memberOf g) else None;
     storedGuildDoc := guildDocWith (props true nothingChecked)
                                    [entryOf "user-1" "section-1"];
     modmailStarted := true; ackDmDelivered := true |}.

(** A policy that asks for a guild rank, exactly or at least. *)
Definition requireGuildRank (minRank : string) (exact : bool)
           (vr : IVerificationRequirements) : IVerificationRequirements :=
  {| lastSeen_mustBeHidden := lastSeen_mustBeHidden vr; guild_checkThis := true;
     guildName_checkThis := guildName_checkThis vr;
     guildName_name := guildName_name vr; guildRank_checkThis := true;
     guildRank_minRank := minRank; guildRank_exact := exact;
     rank_checkThis := rank_checkThis vr; rank_minRank := rank_minRank vr;
     aliveFame_checkThis := aliveFame_checkThis vr;
     aliveFame_minFame := aliveFame_minFame vr;
     characters_checkThis := characters_checkThis vr;
     characters_statsNeeded := characters_statsNeeded vr;
     characters_checkPastDeaths := characters_checkPastDeaths vr;
     exaltations_checkThis := exaltations_checkThis vr;
     exaltations_minimum := exaltations_minimum vr;
     exaltations_onOneChar := exaltations_onOneChar vr;
     graveyardSummary_checkThis := graveyardSummary_checkThis vr;
     graveyardSummary_useBotCompletions := graveyardSummary_useBotCompletions vr;
     graveyardSummary_botCompletions := graveyardSummary_botCompletions vr;
     graveyardSummary_realmEyeCompletions := graveyardSummary_realmEyeCompletions vr |}.

Definition officers (exact : bool) : SectionOrGuild :=
  OfSection (sectionWith (props true (requireGuildRank "Officer" exact nothingChecked))).

(** A policy whose graveyard check compares the given targets, with the
    logged completions or with the graveyard history. *)
Definition requireCompletions (useBot : bool)
           (targets : list (IPropertyKeyValuePair string Z))
           (vr : IVerificationRequirements) : IVerificationRequirements :=
  {| lastSeen_mustBeHidden := lastSeen_mustBeHidden vr;
     guild_checkThis := guild_checkThis vr;
     guildName_checkThis := guildName_checkThis vr;
     guildName_name := guildName_name vr;
     guildRank_checkThis := guildRank_checkThis vr;
     guildRank_minRank := guildRank_minRank vr;
     guildRank_exact := guildRank_exact vr; rank_checkThis := rank_checkThis vr;
     rank_minRank := rank_minRank vr;
     aliveFame_checkThis := aliveFame_checkThis vr;
     aliveFame_minFame := aliveFame_minFame vr;
     characters_checkThis := characters_checkThis vr;
     characters_statsNeeded := characters_statsNeeded vr;
     characters_checkPastDeaths := characters_checkPastDeaths vr;
     exaltations_checkThis := exaltations_checkThis vr;
     exaltations_minimum := exaltations_minimum vr;
     exaltations_onOneChar := exaltations_onOneChar vr;
     graveyardSummary_checkThis := true;
     graveyardSummary_useBotCompletions := useBot;
     graveyardSummary_botCompletions := targets;
     graveyardSummary_realmEyeCompletions := targets |}.

(** A guild whose verified role exists, without any channel. *)
Definition channellessGuild : Discord.Guild :=
  {| Discord.id := "guild-1"; Discord.cachedChannels := [];
     Discord.cachedRoles := ["verified"] |}.

End Samples.

(** ** Vocabulary of the statements *)
Module Spec.
Import Defs VerifyManager.

(** The evaluator's answer: the result of [checkRequirements] in a world. *)
Definition evaluate (member : Discord.GuildMember) (section : SectionOrGuild)
           (resp : PAD.IPlayerData) (w : World) : IReqCheckResult :=
  fst (run (checkRequirements member section resp) w).

(** The awaited calls of one evaluation, in order. *)
Definition lookups (member : Discord.GuildMember) (section : SectionOrGuild)
           (resp : PAD.IPlayerData) (w : World) : list Lookup :=
  snd (run (checkRequirements member section resp) w).

(** One character meets every per-stat minimum at once. *)
Definition meetsEvery (minimum : Stat -> Z) (entry : PAD.IExaltationEntry) : Prop :=
  forall s : Stat, minimum s <= PAD.exaltationStats entry (fst (SHORT_STAT_TO_LONG s)).

(** The sum of one stat over all characters. *)
Definition totalOf (entries : list PAD.IExaltationEntry) (s : Stat) : Z :=
  fold_right (fun e acc => PAD.exaltationStats e (fst (SHORT_STAT_TO_LONG s)) + acc)
             0 entries.

(** The exaltation requirement is satisfied: no stat is left unmet, so no
    issue is raised for it. *)
Definition exaltationsSatisfied (vr : IVerificationRequirements)
           (exaltData : PAD.IExaltation) : Prop :=
  notMetExaltations (neededAfterExaltations vr exaltData) = [].

(** The result record as [checkRequirements] creates it. *)
Definition freshResult (resp : PAD.IPlayerData) : IReqCheckResult :=
  {| resName := PAD.name resp; conclusion := PASS; manualIssues := [];
     fatalIssues := []; taIssues := []; orig := resp |}.

(** The awaited guild document, when the section is not one itself. *)
Definition prelude (member : Discord.GuildMember) (section : SectionOrGuild)
  : list Lookup :=
  match section with
  | OfGuild _ => []
  | OfSection _ => [GetOrCreateGuildDoc (Discord.id (Discord.guild member))]
  end.

(** [after] is [before] with the count at tier [i] decremented, and nothing
    else changed. *)
Definition decrementedAt (before after : list Z) (i : Z) : Prop :=
  forall j, JS.get after j
            = if j =? i then option_map (fun v => v - 1) (JS.get before j)
              else JS.get before j.

(** The section with its master flag [checkRequirements] set to [flag]. *)
Definition withFlag (flag : bool) (s : ISectionInfo) : ISectionInfo :=
  {| uniqueIdentifier := uniqueIdentifier s; sectionName := sectionName s;
     isMainSection := isMainSection s; verifiedRoleId := verifiedRoleId s;
     manualVerificationChannelId := manualVerificationChannelId s;
     verificationProperties :=
       {| Defs.checkRequirements := flag;
          verifReq := verifReq (verificationProperties s) |} |}.

(** The proof code occurs in a line of the profile's description. *)
Definition codeFound (s : MainSession) (requestData : PAD.IPlayerData) : bool :=
  existsb (fun d => JS.includes d (code s)) (PAD.description requestData).

(** The names the blacklist is searched for. *)
Definition namesToCheck (s : MainSession) (requestData : PAD.IPlayerData)
           (nameHistory : PAD.INameHistory) : list string :=
  (PAD.name requestData :: PAD.nameHistory nameHistory ++ allAssociatedNames s)%list.

(** [a] is [b] with some elements left out. *)
Fixpoint subsequence (a b : list string) : bool :=
  match a, b with
  | [], _ => true
  | _ :: _, [] => false
  | x :: a', y :: b' =>
      if (x =? y)%string then subsequence a' b' else subsequence a b'
  end.

(** The keys of the manual issues and of the try-again issues, in the order
    of the checks that raise them. *)
Definition manualKeys : list string :=
  ["Rank Too Low"; "Alive Fame Too Low"; "Stats Requirement Not Fulfilled";
   "Dungeon Completion Requirement Not Fulfilled";
   "Exaltation Requirement Not Satisfied"].

Definition tryAgainKeys : list string :=
  ["Last Seen Location is Not Private"; "Graveyard History Private";
   "Exaltation Information Private"].

(** No issue, or one issue of the given key; no issue at all for [None]. *)
Definition atMostOne (k : option string) (l : list Issue) : Prop :=
  l = [] \/ exists key d, k = Some key /\ l = [mkIssue key d].

(** [r'] is [r] with at most one manual issue of key [km] and at most one
    try-again issue of key [kt] appended. *)
Definition extends (km kt : option string) (r r' : IReqCheckResult) : Prop :=
  exists lm lt,
    manualIssues r' = (manualIssues r ++ lm)%list /\
    taIssues r' = (taIssues r ++ lt)%list /\
    atMostOne km lm /\ atMostOne kt lt.

(** The total of the needed counts. *)
Definition sumZ (l : list Z) : Z := fold_right Z.add 0 l.

(** The characters the loop over the live characters takes. *)
Definition liveCount (chars : list PAD.ICharacter) : nat :=
  List.length (List.filter (fun x => negb (PAD.statsMaxed x =? -1)) chars).


(** The logged completions that the logged-completions mode reads for a
    profile: those of the first user document of that name, none when there
    is no such document. *)
Definition loggedCompletions (member : Discord.GuildMember) (resp : PAD.IPlayerData)
           (w : World) : Collection.t (K := option string) (V := Z) :=
  match userDocOf w (PAD.name resp) with
  | [] => []
  | doc :: _ => LoggerManager.getCompletedDungeons doc (Discord.id (Discord.guild member))
  end.

(** The needed completions of the policy, as the check sets them up. *)
Definition completionsNeeded (vr : IVerificationRequirements)
  : Collection.t (K := string) (V := Z) :=
  Collection.ofEntries String.eqb
    (map (fun x => (key x, value x)) (graveyardSummary_botCompletions vr)).

(** A logged entry falls short: it is of a known dungeon that the policy
    needs more completions of than were logged. *)
Definition loggedShort (vr : IVerificationRequirements) (w : World)
           (entry : option string * Z) : Prop :=
  exists dgnId dungeonName needed,
    fst entry = Some dgnId /\
    dungeonInfoOf w dgnId = Some dungeonName /\
    Collection.get String.eqb (completionsNeeded vr) dgnId = Some needed /\
    snd entry < needed.

(** Whether a logged entry falls short of what was needed at the start of
    the loop over the logged completions. *)
Definition shortAtStart (info : string -> option string)
           (needed0 : Collection.t (K := string) (V := Z))
           (entry : option string * Z) : bool :=
  match fst entry with
  | None => false
  | Some dgnId =>
      match info dgnId with
      | None => false
      | Some _ =>
          match Collection.get String.eqb needed0 dgnId with
          | Some needed => negb (needed - snd entry <=? 0)
          | None => false
          end
      end
  end.

(** The counter of a key in a user document: the value of the first entry
    of that key, 0 when there is none. *)
Definition counter (id : string) (doc : IUserInfo) : Z :=
  match JS.find (fun x => (key x =? id)%string) (loggedInfo doc) with
  | Some x => value x
  | None => 0
  end.

(** The string has no colon. *)
Fixpoint noColon (s : string) : bool :=
  match s with
  | EmptyString => true
  | String c r => (negb (Ascii.eqb c ":"%char) && noColon r)%bool
  end.

(** A logged key counts as a completion of the dungeon [dgnId] for the guild
    [guildId], the way [getCompletedDungeons] reads it. *)
Definition completionKey (guildId : string) (dgnId : option string) (k : string)
  : bool :=
  (JS.startsWith k ("R:" ++ guildId) && JS.endsWith k "1"
   && LoggerManager.optEqb (nth_error (JS.split k ":"%char) 2) dgnId)%bool.

(** The scope has a place to send manual reviews to. *)
Definition hasManualChannel (member : Discord.GuildMember) (section : SectionOrGuild)
  : bool :=
  GuildFgrUtilities.hasCachedChannel (Discord.guild member) (manualChannelOf section).

Definition hasEntryFor (entries : list IManualVerificationEntry)
           (user section : string) : Prop :=
  exists x, In x entries /\ userId x = user /\ sectionId x = section.

(** The session after a sequence of collector events, each with the world
    it happens in, from the wait state that [verifyMain] sets up. *)
Definition runSession (s : MainSession) (evs : list (SessionWorld * Event))
  : SessionState :=
  fold_left (fun st e => step (fst e) s st (snd e)) evs awaitProof.

(** The effect gives a verified role. *)
Definition isGrant (e : Effect) : bool :=
  match e with
  | AddVerifiedRole _ => true
  | _ => false
  end.

(** The guild document with its manual-verification entries replaced. *)
Definition withEntries (guildDoc : IGuildInfo)
           (entries : list IManualVerificationEntry) : IGuildInfo :=
  {| guildId := guildId guildDoc;
     guildVerifiedRoleId := guildVerifiedRoleId guildDoc;
     guildManualVerificationChannelId := guildManualVerificationChannelId guildDoc;
     guildVerificationProperties := guildVerificationProperties guildDoc;
     guildSections := guildSections guildDoc;
     manualVerificationEntries := entries;
     blacklistedUsers := blacklistedUsers guildDoc |}.

(** The member opted for manual verification: the prompt was shown and a
    button other than Deny was pressed in time. *)
Definition optedIn (promptShown : bool) (selected : option string) : bool :=
  (promptShown
   && match selected with
      | None => false
      | Some customId => negb (customId =? NO_MANUAL_VERIFY_ID)%string
      end)%bool.

(** [verifySection] gives the role: the role exists, the member does not
    have it, and the master flag is off or the profile of the member's name
    is evaluated to PASS. *)
Definition sectionGrants (sw : SessionWorld) (member : Discord.GuildMember)
           (section : ISectionInfo) : Prop :=
  GuildFgrUtilities.hasCachedRole (Discord.guild member) (verifiedRoleId section) = true /\
  GuildFgrUtilities.memberHasCachedRole member (verifiedRoleId section) = false /\
  (Defs.checkRequirements (verificationProperties section) = false \/
   exists nameToUse requestData,
     resolveName sw = inr nameToUse /\
     playerInfoOf sw nameToUse = Some requestData /\
     conclusion (evaluate member (OfSection section) requestData (evalWorld sw)) = PASS).

(** The effect changes nothing about the member: no role, nickname or name
    record, and no direct message. *)
Definition quietEffect (e : Effect) : bool :=
  match e with
  | SetNickname _ | AddIdName _ | DirectMessage _ | AddVerifiedRole _ => false
  | _ => true
  end.

(** The completed runs that the statistics hold for a guild and a dungeon
    name, 0 when they hold none. *)
Definition completedRuns
           (stats : Collection.t (K := option string)
                                 (V := Collection.t (K := string)
                                                    (V := LoggerManager.RunCount)))
           (gId : option string) (dgnName : string) : Z :=
  match Collection.get LoggerManager.optEqb stats gId with
  | Some runs =>
      match Collection.get String.eqb runs dgnName with
      | Some c => LoggerManager.completed c
      | None => 0
      end
  | None => 0
  end.

(** A logged key counts as runs of the dungeon named [dgnName] in the guild
    [gId]: its first field is [R], its second the guild, its third the id of
    a dungeon of that name, and its fourth parses to a number other than
    0. *)
Definition countsFor (dungeonNameOf : option string -> option string)
           (gId : option string) (dgnName : string) (k : string) : bool :=
  let fields := JS.split k ":"%char in
  match nth_error fields 0 with
  | Some type =>
      ((type =? "R")%string
       && LoggerManager.optEqb (nth_error fields 1) gId
       && match dungeonNameOf (nth_error fields 2) with
          | Some n => ((n =? dgnName)%string && negb (n =? "")%string)%bool
          | None => false
          end
       && match LoggerManager.parseInt (nth_error (skipn 3 fields) 0) with
          | Some result => negb (result =? 0)
          | None => false
          end)%bool
  | None => false
  end.

(** The entries that [getStatsWithDoc] processes. *)
Definition logInfoToProcess (userInfo : IUserInfo) (guildDoc : option IGuildInfo)
  : list (IPropertyKeyValuePair string Z) :=
  match guildDoc with
  | Some g => List.filter (fun x => JS.includes (key x) (guildId g)) (loggedInfo userInfo)
  | None => loggedInfo userInfo
  end.

(** No reported count has a failed run. *)
Definition noFailed (runs : Collection.t (K := string) (V := LoggerManager.RunCount))
  : Prop :=
  Forall (fun e => LoggerManager.failed (snd e) = 0) runs.

(** The result that the statistics read from the fourth field of the key of
    a led raid: anything but [Completed] and [Assisted] counts as failed. *)
Definition readResult (result : option string) : LoggerManager.RunResult :=
  if LoggerManager.optEqb result (Some "Completed") then LoggerManager.Complete
  else if LoggerManager.optEqb result (Some "Assisted") then LoggerManager.Assist
  else LoggerManager.Failed.

Definition resultEqb (a b : LoggerManager.RunResult) : bool :=
  match a, b with
  | LoggerManager.Complete, LoggerManager.Complete
  | LoggerManager.Failed, LoggerManager.Failed
  | LoggerManager.Assist, LoggerManager.Assist => true
  | _, _ => false
  end.

(** The field of a count that holds the raids of a result. *)
Definition ledField (result : LoggerManager.RunResult) (c : LoggerManager.Led.Count) : Z :=
  match result with
  | LoggerManager.Complete => LoggerManager.Led.completed c
  | LoggerManager.Failed => LoggerManager.Led.failed c
  | LoggerManager.Assist => LoggerManager.Led.assisted c
  end.

(** The raids of a result that the statistics hold for a guild and a dungeon
    name, 0 when they hold none. *)
Definition ledRaids
           (stats : Collection.t (K := option string)
                                 (V := Collection.t (K := string)
                                                    (V := LoggerManager.Led.Count)))
           (gId : option string) (dgnName : string) (result : LoggerManager.RunResult)
  : Z :=
  match Collection.get LoggerManager.optEqb stats gId with
  | Some leads =>
      match Collection.get String.eqb leads dgnName with
      | Some c => ledField result c
      | None => 0
      end
  | None => 0
  end.

(** A logged key counts as led raids of a result, of the dungeon named
    [dgnName], in the guild [gId]. *)
Definition countsForLed (dungeonNameOf : option string -> option string)
           (gId : option string) (dgnName : string) (result : LoggerManager.RunResult)
           (k : string) : bool :=
  let fields := JS.split k ":"%char in
  match nth_error fields 0 with
  | Some type =>
      ((type =? "L")%string
       && LoggerManager.optEqb (nth_error fields 1) gId
       && match dungeonNameOf (nth_error fields 2) with
          | Some n => ((n =? dgnName)%string && negb (n =? "")%string)%bool
          | None => false
          end
       && resultEqb (readResult (nth_error (skipn 3 fields) 0)) result)%bool
  | None => false
  end.

End Spec.

Import Defs VerifyManager Spec.

(** A rewrite base for what the checks leave alone, and a tactic that
    splits on every test of a check. *)
Create Rewrite HintDb issues.

Ltac split_tests :=
  repeat match goal with
         | |- context [if ?c then _ else _] => destruct c
         | |- context [match ?x with _ => _ end] => destruct x
         end.

(** Takes a statement of [extends] apart, into the empty and the one-issue
    case of each list. *)
Ltac use_extends H :=
  let Hk1 := fresh "Hk" in
  let Hk2 := fresh "Hk" in
  destruct H as (?lm & ?lt & ?Hm & ?Ht
                 & [-> | (?k & ?d & Hk1 & ->)] & [-> | (?k & ?d & Hk2 & ->)]);
  try discriminate Hk1; try discriminate Hk2;
  try (injection Hk1 as <-); try (injection Hk2 as <-).

(** Splits on every comparison of two strings. *)
Ltac rank_cases :=
  repeat match goal with
         | |- context [String.eqb ?a ?b] => destruct (String.eqb_spec a b); subst
         | H : context [String.eqb ?a ?b] |- _ => destruct (String.eqb_spec a b); subst
         end.

Lemma indexOf_absent (arr : list string) (x : string) :
  ~ In x arr -> JS.indexOf arr x = -1.
Proof.
  induction arr as [|y r IH]; intro H; simpl; [reflexivity|].
  destruct (String.eqb_spec y x) as [->|_].
  - exfalso. apply H. now left.
  - rewrite IH; [reflexivity|]. intro Hin. apply H. now right.
Qed.

(** C10: a rank always satisfies itself as floor, even outside the five-rank
    ordering; a floor outside the ordering is satisfied by nothing else. *)
Theorem isValidGuildRank_refl_and_unknown_floor :
  (forall r : string, isValidGuildRank r r = true) /\
  (forall floor actual : string,
      ~ In floor GUILD_ROLES -> actual <> floor ->
      isValidGuildRank floor actual = false).
Proof.
  split.
  - intro r. unfold isValidGuildRank. now rewrite String.eqb_refl.
  - intros floor actual Hout Hne. unfold isValidGuildRank.
    destruct (String.eqb_spec floor actual) as [->|_]; [congruence|].
    now rewrite (indexOf_absent _ _ Hout).
Qed.

Lemma isValidGuildRank_witness :
  isValidGuildRank "Recruit" "Recruit" = true /\
  isValidGuildRank "Recruit" "Member" = false.
Proof.
  split.
  - apply (proj1 isValidGuildRank_refl_and_unknown_floor).
  - apply (proj2 isValidGuildRank_refl_and_unknown_floor).
    + cbn. intros [H|[H|[H|[H|[H|[]]]]]]; discriminate H.
    + discriminate.
Defined.

(** ** The shape of one evaluation *)

Section Evaluation.
Variables (member : Discord.GuildMember) (section : SectionOrGuild)
          (resp : PAD.IPlayerData) (w : World).

Lemma checkRequirements_unfold :
  run (checkRequirements member section resp) w =
  let vr := verifReq (propsOf section) in
  let prelude := prelude member section in
  let r0 := checkLastSeen vr resp (freshResult resp) in
  match checkGuild vr resp with
  | Some issue => (setConclusion (pushFatal r0 issue) FAIL, prelude)
  | None =>
      let gyHist := graveyardSummaryOf w (PAD.name resp) in
      let r1 := checkCharacters vr resp gyHist
                  (checkAliveFame vr resp (checkRank vr resp r0)) in
      let p2 := checkGraveyardSummary vr member resp gyHist r1 w
                  (prelude ++ [GetGraveyardSummary (PAD.name resp)])%list in
      let p3 := checkExaltations vr resp (fst p2) w (snd p2) in
      (conclude member section (fst p3), snd p3)
  end.
Proof.
  unfold run, checkRequirements, bind, ret, getOrCreateGuildDoc,
    getGraveyardSummary, await, prelude, freshResult.
  destruct section; cbn [app];
    destruct (checkGuild _ resp); try reflexivity;
    repeat match goal with
           | |- context [let '(_, _) := ?p in _] => rewrite (surjective_pairing p)
           end; reflexivity.
Qed.

End Evaluation.

(** ** What each check leaves alone *)

Lemma checkLastSeen_fatal vr resp r :
  fatalIssues (checkLastSeen vr resp r) = fatalIssues r.
Proof. unfold checkLastSeen. split_tests; reflexivity. Qed.

Lemma checkLastSeen_manual vr resp r :
  manualIssues (checkLastSeen vr resp r) = manualIssues r.
Proof. unfold checkLastSeen. split_tests; reflexivity. Qed.

Lemma checkRank_fatal vr resp r :
  fatalIssues (checkRank vr resp r) = fatalIssues r.
Proof. unfold checkRank. split_tests; reflexivity. Qed.

Lemma checkAliveFame_fatal vr resp r :
  fatalIssues (checkAliveFame vr resp r) = fatalIssues r.
Proof. unfold checkAliveFame. split_tests; reflexivity. Qed.

Lemma checkCharacters_fatal vr resp gy r :
  fatalIssues (checkCharacters vr resp gy r) = fatalIssues r.
Proof. unfold checkCharacters. split_tests; reflexivity. Qed.

Lemma checkRealmEyeCompletions_fatal vr gy r :
  fatalIssues (checkRealmEyeCompletions vr gy r) = fatalIssues r.
Proof. unfold checkRealmEyeCompletions. split_tests; reflexivity. Qed.

Lemma checkBotCompletions_fatal vr member resp r w t :
  fatalIssues (fst (checkBotCompletions vr member resp r w t)) = fatalIssues r.
Proof.
  unfold checkBotCompletions, bind, getUserDoc, await.
  destruct (fold_left _ _ _) as [[c allPassed] issues].
  destruct allPassed; reflexivity.
Qed.

Lemma checkBotCompletions_trace vr member resp r w t :
  snd (checkBotCompletions vr member resp r w t) = (t ++ [GetUserDoc (PAD.name resp)])%list.
Proof.
  unfold checkBotCompletions, bind, getUserDoc, await.
  destruct (fold_left _ _ _) as [[c allPassed] issues]. reflexivity.
Qed.

Lemma checkGraveyardSummary_fatal vr member resp gy r w t :
  fatalIssues (fst (checkGraveyardSummary vr member resp gy r w t)) = fatalIssues r.
Proof.
  unfold checkGraveyardSummary, ret.
  destruct (graveyardSummary_checkThis vr); [|reflexivity].
  destruct (graveyardSummary_useBotCompletions vr).
  - apply checkBotCompletions_fatal.
  - apply checkRealmEyeCompletions_fatal.
Qed.

Lemma checkGraveyardSummary_trace vr member resp gy r w t :
  snd (checkGraveyardSummary vr member resp gy r w t) =
  (t ++ if (graveyardSummary_checkThis vr && graveyardSummary_useBotCompletions vr)%bool
        then [GetUserDoc (PAD.name resp)] else [])%list.
Proof.
  unfold checkGraveyardSummary, ret.
  destruct (graveyardSummary_checkThis vr); cbn [andb snd];
    [|now rewrite app_nil_r].
  destruct (graveyardSummary_useBotCompletions vr); cbn [snd].
  - apply checkBotCompletions_trace.
  - now rewrite app_nil_r.
Qed.

Lemma checkExaltations_fatal vr resp r w t :
  fatalIssues (fst (checkExaltations vr resp r w t)) = fatalIssues r.
Proof.
  unfold checkExaltations, bind, ret, getExaltation, await.
  destruct (exaltations_checkThis vr); [|reflexivity].
  destruct (exaltationOf w (PAD.name resp)); [|reflexivity].
  destruct (notMetExaltations _); reflexivity.
Qed.

Lemma checkExaltations_trace vr resp r w t :
  snd (checkExaltations vr resp r w t) =
  (t ++ if exaltations_checkThis vr then [GetExaltation (PAD.name resp)] else [])%list.
Proof.
  unfold checkExaltations, bind, ret, getExaltation, await.
  destruct (exaltations_checkThis vr); [|now rewrite app_nil_r].
  destruct (exaltationOf w (PAD.name resp)); [|reflexivity].
  destruct (notMetExaltations _); reflexivity.
Qed.

#[local] Hint Rewrite checkLastSeen_fatal checkLastSeen_manual checkRank_fatal
  checkAliveFame_fatal checkCharacters_fatal checkGraveyardSummary_fatal
  checkExaltations_fatal : issues.

(** The lists of a concluded result are those it was concluded from. *)
Lemma conclude_lists member section r :
  fatalIssues (conclude member section r) = fatalIssues r /\
  taIssues (conclude member section r) = taIssues r /\
  manualIssues (conclude member section r) = manualIssues r.
Proof. unfold conclude. split_tests; repeat split; reflexivity. Qed.

Lemma assess_conclude member section r :
  assess (conclude member section r) = assess r.
Proof.
  destruct (conclude_lists member section r) as (Hf & Ht & Hm).
  unfold assess. now rewrite Hf, Ht, Hm.
Qed.

Lemma conclusion_conclude member section r :
  conclusion (conclude member section r) =
  if (isManual (assess r)
      && negb (GuildFgrUtilities.hasCachedChannel
                 (Discord.guild member) (manualChannelOf section)))%bool
  then FAIL else assess r.
Proof. unfold conclude. cbn [conclusion setConclusion]. split_tests; reflexivity. Qed.

(** Every evaluation ends in one of two ways: at the guild block, with one
    fatal issue, or at the end, concluded from lists without fatal issue. *)
Lemma evaluate_cases member section resp w :
  (exists issue,
      checkGuild (verifReq (propsOf section)) resp = Some issue /\
      evaluate member section resp w =
      setConclusion
        (pushFatal (checkLastSeen (verifReq (propsOf section)) resp (freshResult resp)) issue)
        FAIL /\
      lookups member section resp w = prelude member section) \/
  (exists r,
      checkGuild (verifReq (propsOf section)) resp = None /\
      evaluate member section resp w = conclude member section r /\
      fatalIssues r = []).
Proof.
  unfold evaluate, lookups. rewrite checkRequirements_unfold. cbv zeta.
  destruct (checkGuild _ resp) as [issue|].
  - left. exists issue. repeat split.
  - right. eexists. split; [reflexivity|]. split; [reflexivity|].
    autorewrite with issues. reflexivity.
Qed.

(** ** Verdicts *)

(** C7: a result whose lists resolve to MANUAL is concluded FAIL when the
    scope has no manual-verification channel and MANUAL when it has one; a
    result resolving to PASS, TRY_AGAIN or FAIL keeps that verdict. *)
Theorem manual_needs_channel member section resp w :
  (assess (evaluate member section resp w) = MANUAL ->
   hasManualChannel member section = false ->
   conclusion (evaluate member section resp w) = FAIL) /\
  (assess (evaluate member section resp w) = MANUAL ->
   hasManualChannel member section = true ->
   conclusion (evaluate member section resp w) = MANUAL) /\
  (assess (evaluate member section resp w) <> MANUAL ->
   conclusion (evaluate member section resp w) = assess (evaluate member section resp w)).
Proof.
  unfold hasManualChannel.
  destruct (evaluate_cases member section resp w)
    as [(issue & _ & -> & _) | (r & _ & -> & _)].
  - assert (Ha : forall r0, assess (setConclusion (pushFatal r0 issue) FAIL) = FAIL).
    { intro r0. unfold assess. cbn. destruct (fatalIssues r0); reflexivity. }
    rewrite Ha. repeat split; intros; try discriminate; reflexivity.
  - rewrite assess_conclude, conclusion_conclude.
    repeat split.
    + intros -> ->. reflexivity.
    + intros -> ->. reflexivity.
    + intro Hne. destruct (assess r); try reflexivity. congruence.
Qed.

Lemma manual_needs_channel_witness :
  conclusion (evaluate (Samples.memberOf Samples.bareGuild) Samples.rank10
                       (Samples.alice []) Samples.silentWorld) = FAIL /\
  conclusion (evaluate (Samples.memberOf Samples.staffedGuild) Samples.rank10
                       (Samples.alice []) Samples.silentWorld) = MANUAL /\
  conclusion (evaluate (Samples.memberOf Samples.bareGuild) Samples.unchecked
                       (Samples.alice []) Samples.silentWorld) = PASS.
Proof.
  split; [|split].
  - apply (proj1 (manual_needs_channel (Samples.memberOf Samples.bareGuild) Samples.rank10
                    (Samples.alice []) Samples.silentWorld)); reflexivity.
  - apply (proj1 (proj2 (manual_needs_channel (Samples.memberOf Samples.staffedGuild)
                           Samples.rank10 (Samples.alice []) Samples.silentWorld)));
      reflexivity.
  - apply (proj2 (proj2 (manual_needs_channel (Samples.memberOf Samples.bareGuild)
                           Samples.unchecked (Samples.alice []) Samples.silentWorld))).
    discriminate.
Defined.

(** C3, as stated, fails: a profile of rank 5 against a minimum of 10, in a
    guild without manual-verification channel, has no fatal and no try-again
    issue and one manual issue, and its verdict is FAIL, not MANUAL. *)
Lemma verdict_precedence_counterexample :
  fatalIssues (evaluate (Samples.memberOf Samples.bareGuild) Samples.rank10
                        (Samples.alice []) Samples.silentWorld) = [] /\
  taIssues (evaluate (Samples.memberOf Samples.bareGuild) Samples.rank10
                     (Samples.alice []) Samples.silentWorld) = [] /\
  manualIssues (evaluate (Samples.memberOf Samples.bareGuild) Samples.rank10
                         (Samples.alice []) Samples.silentWorld)
  = [mkIssue "Rank Too Low" (AmountNeeded 5 10)] /\
  conclusion (evaluate (Samples.memberOf Samples.bareGuild) Samples.rank10
                       (Samples.alice []) Samples.silentWorld) = FAIL.
Proof. repeat split. Qed.

(** C3, amended: FATAL before TRY_AGAIN before MANUAL before PASS, where a
    result with manual issues only is MANUAL if the scope has a
    manual-verification channel and FAIL if it has none. *)
Theorem verdict_precedence member section resp w :
  (fatalIssues (evaluate member section resp w) <> [] ->
   conclusion (evaluate member section resp w) = FAIL) /\
  (fatalIssues (evaluate member section resp w) = [] ->
   taIssues (evaluate member section resp w) <> [] ->
   conclusion (evaluate member section resp w) = TRY_AGAIN) /\
  (fatalIssues (evaluate member section resp w) = [] ->
   taIssues (evaluate member section resp w) = [] ->
   manualIssues (evaluate member section resp w) <> [] ->
   conclusion (evaluate member section resp w)
   = if hasManualChannel member section then MANUAL else FAIL) /\
  (fatalIssues (evaluate member section resp w) = [] ->
   taIssues (evaluate member section resp w) = [] ->
   manualIssues (evaluate member section resp w) = [] ->
   conclusion (evaluate member section resp w) = PASS).
Proof.
  unfold hasManualChannel.
  destruct (evaluate_cases member section resp w)
    as [(issue & _ & -> & _) | (r & _ & -> & _)].
  - cbn [fatalIssues setConclusion pushFatal conclusion].
    repeat split; intros; try reflexivity;
      match goal with
      | H : (_ ++ [_])%list = [] |- _ => destruct (app_cons_not_nil _ _ _ (eq_sym H))
      end.
  - destruct (conclude_lists member section r) as (-> & -> & ->).
    rewrite conclusion_conclude. unfold assess.
    destruct (fatalIssues r), (taIssues r), (manualIssues r);
      repeat split; intros; try congruence; try reflexivity.
    cbn. now destruct (GuildFgrUtilities.hasCachedChannel _ _).
Qed.

Lemma verdict_precedence_witness :
  conclusion (evaluate (Samples.memberOf Samples.staffedGuild)
                (OfSection (Samples.sectionWith (Samples.wolvesOnly true)))
                (Samples.alice []) Samples.silentWorld) = FAIL /\
  conclusion (evaluate (Samples.memberOf Samples.staffedGuild)
                (Samples.exaltSection Samples.attDef5 true)
                (Samples.alice []) Samples.silentWorld) = TRY_AGAIN /\
  conclusion (evaluate (Samples.memberOf Samples.staffedGuild) Samples.rank10
                       (Samples.alice []) Samples.silentWorld) = MANUAL /\
  conclusion (evaluate (Samples.memberOf Samples.staffedGuild) Samples.unchecked
                       (Samples.alice []) Samples.silentWorld) = PASS.
Proof.
  split; [|split; [|split]].
  - apply (proj1 (verdict_precedence (Samples.memberOf Samples.staffedGuild)
                    (OfSection (Samples.sectionWith (Samples.wolvesOnly true)))
                    (Samples.alice []) Samples.silentWorld)).
    discriminate.
  - apply (proj1 (proj2 (verdict_precedence (Samples.memberOf Samples.staffedGuild)
                           (Samples.exaltSection Samples.attDef5 true)
                           (Samples.alice []) Samples.silentWorld)));
      [reflexivity | discriminate].
  - apply (proj1 (proj2 (proj2 (verdict_precedence
             (Samples.memberOf Samples.staffedGuild) Samples.rank10
             (Samples.alice []) Samples.silentWorld))));
      [reflexivity | reflexivity | discriminate].
  - apply (proj2 (proj2 (proj2 (verdict_precedence
             (Samples.memberOf Samples.staffedGuild) Samples.unchecked
             (Samples.alice []) Samples.silentWorld))));
      reflexivity.
Defined.

(** ** The guild block *)

(** C4: with the guild check and its guild-name check enabled, a profile
    whose guild differs from the required one, case ignored, gets exactly one
    fatal issue and the verdict FAIL, and the evaluation stops there: no
    manual issue is raised whatever the rank, fame and characters are, and
    neither the graveyard summary, nor the exaltations, nor the logged
    completions are asked for. *)
Theorem guild_name_mismatch_short_circuits member section resp w :
  guild_checkThis (verifReq (propsOf section)) = true ->
  guildName_checkThis (verifReq (propsOf section)) = true ->
  JS.toLowerCase (PAD.guild resp)
  <> JS.toLowerCase (guildName_name (verifReq (propsOf section))) ->
  conclusion (evaluate member section resp w) = FAIL /\
  fatalIssues (evaluate member section resp w)
  = [mkIssue "Not In Correct Guild"
             (GuildNeeded (PAD.guild resp) (guildName_name (verifReq (propsOf section))))] /\
  manualIssues (evaluate member section resp w) = [] /\
  taIssues (evaluate member section resp w)
  = taIssues (checkLastSeen (verifReq (propsOf section)) resp (freshResult resp)) /\
  lookups member section resp w = prelude member section.
Proof.
  intros Hg Hn Hne.
  unfold evaluate, lookups. rewrite checkRequirements_unfold. cbv zeta.
  unfold checkGuild. rewrite Hg, Hn. cbn [andb].
  destruct (String.eqb_spec (JS.toLowerCase (PAD.guild resp))
              (JS.toLowerCase (guildName_name (verifReq (propsOf section)))))
    as [Heq|_]; [contradiction|].
  cbn [negb fst snd conclusion setConclusion fatalIssues manualIssues taIssues pushFatal].
  rewrite checkLastSeen_fatal, checkLastSeen_manual.
  repeat split.
Qed.

Lemma guild_name_mismatch_witness :
  conclusion (evaluate (Samples.memberOf Samples.staffedGuild)
                (OfSection (Samples.sectionWith (Samples.wolvesOnly true)))
                (Samples.alice []) Samples.silentWorld) = FAIL /\
  lookups (Samples.memberOf Samples.staffedGuild)
          (OfSection (Samples.sectionWith (Samples.wolvesOnly true)))
          (Samples.alice []) Samples.silentWorld
  = [GetOrCreateGuildDoc "guild-1"].
Proof.
  pose proof (guild_name_mismatch_short_circuits
                (Samples.memberOf Samples.staffedGuild)
                (OfSection (Samples.sectionWith (Samples.wolvesOnly true)))
                (Samples.alice []) Samples.silentWorld
                eq_refl eq_refl) as H.
  assert (Hne : JS.toLowerCase "Knights" <> JS.toLowerCase "Wolves")
    by (vm_compute; discriminate).
  destruct (H Hne) as (Hc & _ & _ & _ & Hl). split; [exact Hc | exact Hl].
Defined.

(** ** Awaited lookups *)

(** C8, as stated, fails: under a policy that enables no check at all the
    graveyard summary is asked for all the same. *)
Lemma lazy_lookups_counterexample :
  characters_checkThis Samples.nothingChecked = false /\
  characters_checkPastDeaths Samples.nothingChecked = false /\
  graveyardSummary_checkThis Samples.nothingChecked = false /\
  lookups (Samples.memberOf Samples.staffedGuild) Samples.unchecked
          (Samples.alice []) Samples.silentWorld
  = [GetOrCreateGuildDoc "guild-1"; GetGraveyardSummary "Alice"].
Proof. repeat split. Qed.

(** C8, amended: the exaltations are asked for only if the exaltation check
    is enabled, and the logged completions only if the graveyard check is
    enabled in its logged-completions mode; the graveyard summary is asked
    for in every evaluation that gets past the guild block, whichever checks
    are enabled, and in no other. *)
Theorem lookups_of_an_evaluation member section resp w :
  (forall n, In (GetExaltation n) (lookups member section resp w) ->
             exaltations_checkThis (verifReq (propsOf section)) = true) /\
  (forall n, In (GetUserDoc n) (lookups member section resp w) ->
             graveyardSummary_checkThis (verifReq (propsOf section)) = true /\
             graveyardSummary_useBotCompletions (verifReq (propsOf section)) = true) /\
  (forall n, In (GetGraveyardSummary n) (lookups member section resp w) <->
             n = PAD.name resp /\ checkGuild (verifReq (propsOf section)) resp = None).
Proof.
  assert (Hp : forall l, In l (prelude member section) ->
                         exists g, l = GetOrCreateGuildDoc g).
  { unfold prelude. destruct section; cbn; intros l H; [|tauto].
    destruct H as [<-|[]]. eauto. }
  unfold lookups. rewrite checkRequirements_unfold. cbv zeta.
  destruct (checkGuild _ resp) as [issue|]; cbn [snd].
  - repeat split; intros;
      try match goal with
          | H : In _ (prelude _ _) |- _ => destruct (Hp _ H) as [g Hg]; discriminate Hg
          end.
    destruct H as [_ H]. discriminate H.
  - rewrite checkExaltations_trace, checkGraveyardSummary_trace.
    repeat split; intros;
      repeat match goal with
             | H : In _ (_ ++ _)%list |- _ => apply in_app_or in H; destruct H as [H|H]
             | H : In _ (prelude _ _) |- _ => destruct (Hp _ H) as [g Hg]; discriminate Hg
             | H : In _ [_] |- _ => destruct H as [H|[]]
             end;
      try discriminate;
      repeat match goal with
             | H : In _ (if ?c then _ else _) |- _ => destruct c eqn:?; cbn in H
             | H : _ \/ False |- _ => destruct H as [H|[]]
             | H : False |- _ => destruct H
             | H : (_ && _)%bool = true |- _ => apply andb_prop in H; destruct H
             end;
      try discriminate; try congruence; try reflexivity.
    destruct H as [-> _].
    apply in_or_app. left. apply in_or_app. left. apply in_or_app. right. now left.
Qed.

Lemma lookups_of_an_evaluation_witness :
  exaltations_checkThis (Samples.exaltPolicy Samples.attDef5 true) = true /\
  In (GetGraveyardSummary "Alice")
     (lookups (Samples.memberOf Samples.staffedGuild) Samples.unchecked
              (Samples.alice []) Samples.silentWorld).
Proof.
  split.
  - apply (proj1 (lookups_of_an_evaluation
             (Samples.memberOf Samples.staffedGuild)
             (Samples.exaltSection Samples.attDef5 true)
             (Samples.alice []) Samples.silentWorld) "Alice").
    cbn. tauto.
  - apply (proj2 (proj2 (lookups_of_an_evaluation
             (Samples.memberOf Samples.staffedGuild) Samples.unchecked
             (Samples.alice []) Samples.silentWorld))).
    split; reflexivity.
Defined.

(** ** The cascading match of character tiers *)

Section Cascade.

Lemma get_of_nat {A} (l : list A) (j : nat) : JS.get l (Z.of_nat j) = nth_error l j.
Proof.
  unfold JS.get. destruct (Z.ltb_spec (Z.of_nat j) 0); [lia|].
  now rewrite Nat2Z.id.
Qed.

Lemma nth_subAtNat (l : list Z) (i : nat) (a : Z) (j : nat) :
  nth_error (JS.subAtNat l i a) j
  = if Nat.eqb j i then option_map (fun v => v - a) (nth_error l j)
    else nth_error l j.
Proof.
  revert i j. induction l as [|v r IH]; intros i j.
  - destruct i, j; cbn; try reflexivity; now destruct (Nat.eqb _ _).
  - destruct i, j; cbn; try reflexivity. apply IH.
Qed.

Lemma get_subAt (l : list Z) (i a j : Z) :
  0 <= i ->
  JS.get (JS.subAt l i a) j
  = if j =? i then option_map (fun v => v - a) (JS.get l j) else JS.get l j.
Proof.
  intro Hi. unfold JS.subAt, JS.get.
  destruct (Z.ltb_spec i 0); [lia|].
  destruct (Z.ltb_spec j 0).
  - now destruct (Z.eqb_spec j i).
  - rewrite nth_subAtNat.
    destruct (Z.eqb_spec j i) as [->|Hne].
    + now rewrite Nat.eqb_refl.
    + destruct (Nat.eqb_spec (Z.to_nat j) (Z.to_nat i)); [lia|reflexivity].
Qed.

(** Scanning down from [k] stops at the highest tier below [k] that is
    still needed. *)
Lemma scanDown_first (l : list Z) (a : Z) (k j : nat) :
  (j < k)%nat ->
  JS.positiveAt l (Z.of_nat j) = true ->
  (forall i, (j < i < k)%nat -> JS.positiveAt l (Z.of_nat i) = false) ->
  scanDown l k a = JS.subAt l (Z.of_nat j) a.
Proof.
  induction k as [|k IH]; intros Hlt Hpos Hgap; [lia|].
  cbn [scanDown].
  destruct (Nat.eq_dec j k) as [->|Hne].
  - now rewrite Hpos.
  - rewrite (Hgap k) by lia. apply IH; [lia|assumption|].
    intros i Hi. apply Hgap. lia.
Qed.

Lemma scanDown_none (l : list Z) (a : Z) (k : nat) :
  (forall i, (i < k)%nat -> JS.positiveAt l (Z.of_nat i) = false) ->
  scanDown l k a = l.
Proof.
  induction k as [|k IH]; intro Hnone; [reflexivity|].
  cbn [scanDown]. rewrite (Hnone k) by lia. apply IH. intros i Hi. apply Hnone. lia.
Qed.

(** Scanning down from [k] never touches a tier at or above [k]. *)
Lemma scanDown_above (l : list Z) (a : Z) (k : nat) (j : Z) :
  Z.of_nat k <= j -> JS.get (scanDown l k a) j = JS.get l j.
Proof.
  induction k as [|k IH]; intro Hj; [reflexivity|].
  cbn [scanDown]. destruct (JS.positiveAt l (Z.of_nat k)).
  - rewrite get_subAt by lia. destruct (Z.eqb_spec j (Z.of_nat k)); [lia|reflexivity].
  - apply IH. lia.
Qed.

Lemma positiveAt_in_range (l : list Z) (i : Z) :
  JS.positiveAt l i = true -> 0 <= i.
Proof.
  unfold JS.positiveAt, JS.get. destruct (Z.ltb_spec i 0); [discriminate|lia].
Qed.

End Cascade.

(** C5: a character of tier [T] decrements the need at [T] when that is
    positive; otherwise it decrements the first positive need found scanning
    down from [T - 1] to [0]; otherwise it changes nothing; it never changes
    the need of a tier above its own. The loop takes the characters whose
    [statsMaxed] is not [-1], in order. One tier-3 character satisfies a
    single need at tier 2; one tier-0 character leaves a need at tier 1,
    which is reported as a manual issue. *)
Theorem cascading_tier_match :
  (forall needed T,
      JS.positiveAt needed T = true ->
      decrementedAt needed (cascade needed T 1) T) /\
  (forall needed T j,
      0 <= j < T ->
      JS.positiveAt needed T = false ->
      JS.positiveAt needed j = true ->
      (forall i, j < i < T -> JS.positiveAt needed i = false) ->
      decrementedAt needed (cascade needed T 1) j) /\
  (forall needed T,
      JS.positiveAt needed T = false ->
      (forall j, 0 <= j < T -> JS.positiveAt needed j = false) ->
      cascade needed T 1 = needed) /\
  (forall needed T j,
      T < j -> JS.get (cascade needed T 1) j = JS.get needed j) /\
  (forall needed c chars,
      liveCharacters needed (c :: chars)
      = if PAD.statsMaxed c =? -1 then liveCharacters needed chars
        else liveCharacters (cascade needed (PAD.statsMaxed c) 1) chars) /\
  liveCharacters [0; 0; 1; 0; 0; 0; 0; 0] [Samples.character 3]
  = [0; 0; 0; 0; 0; 0; 0; 0] /\
  manualIssues (evaluate (Samples.memberOf Samples.staffedGuild)
                  (Samples.tiers [0; 0; 1; 0; 0; 0; 0; 0])
                  (Samples.alice [Samples.character 3]) Samples.silentWorld) = [] /\
  liveCharacters [0; 1; 0; 0; 0; 0; 0; 0] [Samples.character 0]
  = [0; 1; 0; 0; 0; 0; 0; 0] /\
  manualIssues (evaluate (Samples.memberOf Samples.staffedGuild)
                  (Samples.tiers [0; 1; 0; 0; 0; 0; 0; 0])
                  (Samples.alice [Samples.character 0]) Samples.silentWorld)
  = [mkIssue "Stats Requirement Not Fulfilled" (StatsMissing [(1, 1)])].
Proof.
  repeat match goal with |- _ /\ _ => split end; try reflexivity.
  - intros needed T Hpos j. unfold cascade. rewrite Hpos.
    apply get_subAt. now apply (positiveAt_in_range needed).
  - intros needed T j Hj HT Hpos Hgap k. unfold cascade. rewrite HT.
    rewrite (scanDown_first needed 1 (Z.to_nat T) (Z.to_nat j)).
    + rewrite Z2Nat.id by lia. apply get_subAt. lia.
    + lia.
    + now rewrite Z2Nat.id by lia.
    + intros i Hi. apply Hgap. lia.
  - intros needed T HT Hnone. unfold cascade. rewrite HT.
    apply scanDown_none. intros i Hi. apply Hnone. lia.
  - intros needed T j Hj. unfold cascade.
    destruct (JS.positiveAt needed T) eqn:Hpos.
    + rewrite get_subAt by now apply (positiveAt_in_range needed).
      destruct (Z.eqb_spec j T); [lia|reflexivity].
    + destruct (Z.ltb_spec j 0) as [Hneg|Hnn].
      * unfold JS.get. now rewrite (proj2 (Z.ltb_lt j 0) Hneg).
      * apply scanDown_above. lia.
  - intros needed c chars. unfold liveCharacters. cbn [List.filter].
    destruct (PAD.statsMaxed c =? -1); reflexivity.
Qed.

Lemma cascading_tier_match_witness :
  decrementedAt [0; 2; 0; 0] (cascade [0; 2; 0; 0] 1 1) 1 /\
  decrementedAt [0; 2; 0; 0] (cascade [0; 2; 0; 0] 3 1) 1 /\
  cascade [0; 0; 0; 5] 2 1 = [0; 0; 0; 5] /\
  JS.get (cascade [1; 0; 0; 5] 2 1) 3 = JS.get [1; 0; 0; 5] 3.
Proof.
  destruct cascading_tier_match as (Hat & Hbelow & Hnone & Hup & _).
  split; [apply Hat; reflexivity|].
  split; [apply Hbelow; [lia | reflexivity | reflexivity |]|].
  - intros i Hi. assert (i = 2) as -> by lia. reflexivity.
  - split; [apply Hnone; [reflexivity|]|apply Hup; lia].
    intros j Hj. assert (j = 0 \/ j = 1) as [-> | ->] by lia; reflexivity.
Defined.

(** ** Exaltations *)

Section Exaltations.

Lemma long_short_long (l : PAD.LongStat) :
  fst (SHORT_STAT_TO_LONG (LONG_STAT_TO_SHORT l)) = l.
Proof. now destruct l. Qed.

Lemma short_long_short (s : Stat) :
  LONG_STAT_TO_SHORT (fst (SHORT_STAT_TO_LONG s)) = s.
Proof. now destruct s. Qed.

Lemma longStats_complete (l : PAD.LongStat) : In l longStats.
Proof. destruct l; cbn; tauto. Qed.

Lemma shortStats_complete (s : Stat) : In s shortStats.
Proof. destruct s; cbn; tauto. Qed.

Lemma passed_meetsEvery (needed : NeededExalt) (e : PAD.IExaltationEntry) :
  passed needed e = true <-> meetsEvery needed e.
Proof.
  unfold passed, meetsEvery. rewrite forallb_forall. split.
  - intros H s. specialize (H _ (longStats_complete (fst (SHORT_STAT_TO_LONG s)))).
    rewrite short_long_short in H.
    destruct (Z.ltb_spec 0 (needed s - PAD.exaltationStats e (fst (SHORT_STAT_TO_LONG s))));
      [discriminate|lia].
  - intros H l _. specialize (H (LONG_STAT_TO_SHORT l)). rewrite long_short_long in H.
    destruct (Z.ltb_spec 0 (needed (LONG_STAT_TO_SHORT l) - PAD.exaltationStats e l));
      [lia|reflexivity].
Qed.

Lemma notMet_nil (needed : NeededExalt) :
  notMetExaltations needed = [] <-> forall s, needed s <= 0.
Proof.
  unfold notMetExaltations. split.
  - intros H s. pose proof (shortStats_complete s) as Hin.
    destruct (Z.ltb_spec 0 (needed s)) as [Hpos|]; [|assumption].
    assert (Hf : In s (List.filter (fun x => 0 <? needed x) shortStats)).
    { apply filter_In. split; [assumption|]. now apply Z.ltb_lt. }
    rewrite H in Hf. destruct Hf.
  - intro H. induction shortStats as [|s r IH]; [reflexivity|].
    cbn. destruct (Z.ltb_spec 0 (needed s)); [specialize (H s); lia|exact IH].
Qed.

(** The one-character loop either finds a character that passes, and zeroes
    every need, or leaves the minimums as they are. *)
Lemma onOneCharLoop_cases (needed : NeededExalt) (entries : list PAD.IExaltationEntry) :
  ((exists e, In e entries /\ passed needed e = true) /\
   forall s, onOneCharLoop needed entries s = 0) \/
  ((forall e, In e entries -> passed needed e = false) /\
   forall s, onOneCharLoop needed entries s = needed s).
Proof.
  induction entries as [|e r IH]; cbn [onOneCharLoop].
  - right. split; [intros e []|reflexivity].
  - destruct (passed needed e) eqn:Hp.
    + left. split; [exists e; split; [now left|assumption]|reflexivity].
    + destruct IH as [[(e' & Hin & Hp') Hz] | [Hnone Hs]].
      * left. split; [exists e'; split; [now right|assumption]|assumption].
      * right. split; [|assumption]. intros e' [<-|Hin]; [assumption|now apply Hnone].
Qed.

Lemma subtractEntry_at (needed : NeededExalt) (e : PAD.IExaltationEntry) (s : Stat) :
  subtractEntry needed e s = needed s - PAD.exaltationStats e (fst (SHORT_STAT_TO_LONG s)).
Proof. destruct s; reflexivity. Qed.

Lemma subtractAll_at (entries : list PAD.IExaltationEntry) (needed : NeededExalt) (s : Stat) :
  fold_left subtractEntry entries needed s = needed s - totalOf entries s.
Proof.
  revert needed. induction entries as [|e r IH]; intro needed; cbn [fold_left totalOf fold_right].
  - lia.
  - rewrite IH, subtractEntry_at. fold (totalOf r s). lia.
Qed.

End Exaltations.

(** C6, as stated, fails: with the one-character mode set, no minimum
    positive and no character at all, the requirement is satisfied (the
    verdict is PASS) although no single character meets the minimums. *)
Lemma one_character_iff_counterexample :
  exaltationsSatisfied (Samples.exaltPolicy (fun _ => 0) true) {| PAD.exaltations := [] |} /\
  conclusion (evaluate (Samples.memberOf Samples.staffedGuild)
                (Samples.exaltSection (fun _ => 0) true)
                (Samples.alice []) (Samples.worldWithExaltations [])) = PASS /\
  ~ (exists e, In e (PAD.exaltations {| PAD.exaltations := [] |})
               /\ meetsEvery (fun _ => 0) e).
Proof.
  split; [reflexivity|]. split; [reflexivity|].
  intros (e & [] & _).
Qed.

(** C6, amended: in the one-character mode the requirement is satisfied if
    and only if some single character meets every per-stat minimum at once,
    or no minimum is positive; sums across characters never count there.
    Without that mode it is satisfied if and only if every minimum is reached
    by the sum over all characters. Whether it is satisfied decides whether
    the check raises its manual issue. *)
Theorem exaltation_modes vr exaltData :
  (exaltations_onOneChar vr = true ->
   (exaltationsSatisfied vr exaltData <->
    (exists e, In e (PAD.exaltations exaltData)
               /\ meetsEvery (exaltations_minimum vr) e)
    \/ (forall s, exaltations_minimum vr s <= 0))) /\
  (exaltations_onOneChar vr = false ->
   (exaltationsSatisfied vr exaltData <->
    forall s, exaltations_minimum vr s <= totalOf (PAD.exaltations exaltData) s)) /\
  (forall resp r w t,
      exaltations_checkThis vr = true ->
      exaltationOf w (PAD.name resp) = Some exaltData ->
      (manualIssues (fst (checkExaltations vr resp r w t)) = manualIssues r
       <-> exaltationsSatisfied vr exaltData)) /\
  ~ exaltationsSatisfied (Samples.exaltPolicy Samples.attDef5 true)
      {| PAD.exaltations := [Samples.exalted 5 0; Samples.exalted 0 5] |} /\
  exaltationsSatisfied (Samples.exaltPolicy Samples.attDef5 true)
    {| PAD.exaltations := [Samples.exalted 5 0; Samples.exalted 5 5] |} /\
  exaltationsSatisfied (Samples.exaltPolicy Samples.attDef5 false)
    {| PAD.exaltations := [Samples.exalted 5 0; Samples.exalted 0 5] |}.
Proof.
  unfold exaltationsSatisfied.
  repeat match goal with |- _ /\ _ => split end; try reflexivity; try discriminate.
  - intro Hone. unfold neededAfterExaltations. rewrite Hone, notMet_nil.
    change (fun d => exaltations_minimum vr d) with (exaltations_minimum vr).
    destruct (onOneCharLoop_cases (exaltations_minimum vr)
                (PAD.exaltations exaltData)) as [[(e & Hin & Hp) Hz] | [Hnone Hs]].
    + split.
      * intros _. left. exists e. split; [assumption|]. now apply passed_meetsEvery.
      * intros _ s. rewrite Hz. lia.
    + split.
      * intro Hle. right. intro s. rewrite <- Hs. apply Hle.
      * intros [(e & Hin & Hm) | Hle].
        -- apply passed_meetsEvery in Hm. specialize (Hnone e Hin).
           unfold NeededExalt in *. congruence.
        -- intro s. rewrite Hs. apply Hle.
  - intro Hsum. unfold neededAfterExaltations. rewrite Hsum, notMet_nil.
    change (fun d => exaltations_minimum vr d) with (exaltations_minimum vr).
    split; intros H s; specialize (H s); rewrite subtractAll_at in *; lia.
  - intros resp r w t Hc Hw.
    unfold checkExaltations, bind, ret, getExaltation, await. rewrite Hc, Hw.
    destruct (notMetExaltations (neededAfterExaltations vr exaltData)) as [|s l];
      cbn [fst manualIssues pushManual].
    + tauto.
    + split; [|discriminate]. intro H.
      apply (f_equal (@List.length Issue)) in H. rewrite length_app in H. cbn in H. lia.
Qed.

Lemma exaltation_modes_witness :
  exaltationsSatisfied (Samples.exaltPolicy Samples.attDef5 true)
    {| PAD.exaltations := [Samples.exalted 1 9; Samples.exalted 6 7] |} /\
  exaltationsSatisfied (Samples.exaltPolicy Samples.attDef5 false)
    {| PAD.exaltations := [Samples.exalted 2 1; Samples.exalted 3 4] |} /\
  exaltationsSatisfied (Samples.exaltPolicy Samples.attDef5 true)
    {| PAD.exaltations := [Samples.exalted 5 5] |}.
Proof.
  split; [|split].
  - apply (proj1 (exaltation_modes (Samples.exaltPolicy Samples.attDef5 true)
             {| PAD.exaltations := [Samples.exalted 1 9; Samples.exalted 6 7] |}));
      [reflexivity|].
    left. exists (Samples.exalted 6 7). split; [right; now left|].
    intros []; vm_compute; discriminate.
  - apply (proj1 (proj2 (exaltation_modes (Samples.exaltPolicy Samples.attDef5 false)
             {| PAD.exaltations := [Samples.exalted 2 1; Samples.exalted 3 4] |})));
      [reflexivity|].
    intros []; vm_compute; discriminate.
  - apply (proj1 (proj1 (proj2 (proj2 (exaltation_modes
                                         (Samples.exaltPolicy Samples.attDef5 true)
                                         {| PAD.exaltations := [Samples.exalted 5 5] |})))
                        (Samples.alice []) (freshResult (Samples.alice []))
                        (Samples.worldWithExaltations [Samples.exalted 5 5]) []
                        eq_refl eq_refl)).
    reflexivity.
Defined.

(** ** Manual-verification entries *)

Lemma pull_In matches entries x :
  In x (pull matches entries) <-> In x entries /\ matches x = false.
Proof.
  unfold pull. rewrite filter_In. now rewrite negb_true_iff.
Qed.

(** C9, as stated, fails: the scope has no verified role and the user has
    left the guild; the acknowledgement is refused, yet the entry is gone. *)
Lemma missing_role_counterexample :
  GuildFgrUtilities.hasCachedRole Samples.bareGuild "verified" = false /\
  manualVerificationEntries (storedGuildDoc (Samples.pendingWorld false Samples.bareGuild))
  = [Samples.entryOf "user-1" "section-1"] /\
  acknowledged (acknowledgeManualVerifyRes (Samples.pendingWorld false Samples.bareGuild)
                  (Samples.entryOf "user-1" "section-1")
                  (Samples.moderatorOf Samples.bareGuild) MANUAL_VERIFY_ACCEPT_ID) = false /\
  entriesAfter (acknowledgeManualVerifyRes (Samples.pendingWorld false Samples.bareGuild)
                  (Samples.entryOf "user-1" "section-1")
                  (Samples.moderatorOf Samples.bareGuild) MANUAL_VERIFY_ACCEPT_ID) = [].
Proof. repeat split. Qed.

(** C9, amended: while the subject user is still in the guild, a disposition
    for an entry whose section has no valid verified role is refused and
    leaves the stored entries as they are; when the user has left, it is
    refused and all entries of that user are removed. An accept or a deny
    that is acknowledged removes exactly the entries of that user in that
    section. *)
Theorem acknowledgement_and_entries aw entry moderator responseId :
  (forall member section,
      fetchedMember aw = Some member ->
      sectionOfEntry (storedGuildDoc aw) entry = Some section ->
      GuildFgrUtilities.hasCachedRole (Discord.guild moderator) (verifiedRoleId section)
      = false ->
      acknowledged (acknowledgeManualVerifyRes aw entry moderator responseId) = false /\
      entriesAfter (acknowledgeManualVerifyRes aw entry moderator responseId)
      = manualVerificationEntries (storedGuildDoc aw)) /\
  (fetchedMember aw = None ->
   acknowledged (acknowledgeManualVerifyRes aw entry moderator responseId) = false /\
   forall x, In x (entriesAfter (acknowledgeManualVerifyRes aw entry moderator responseId))
             <-> In x (manualVerificationEntries (storedGuildDoc aw))
                 /\ userId x <> userId entry) /\
  (responseId = MANUAL_VERIFY_ACCEPT_ID \/ responseId = MANUAL_VERIFY_DENY_ID ->
   acknowledged (acknowledgeManualVerifyRes aw entry moderator responseId) = true ->
   ~ hasEntryFor (entriesAfter (acknowledgeManualVerifyRes aw entry moderator responseId))
       (userId entry) (sectionId entry) /\
   forall x, In x (entriesAfter (acknowledgeManualVerifyRes aw entry moderator responseId))
             <-> In x (manualVerificationEntries (storedGuildDoc aw))
                 /\ ~ (userId x = userId entry /\ sectionId x = sectionId entry)).
Proof.
  repeat match goal with |- _ /\ _ => split end.
  - intros member section Hm Hs Hr.
    unfold acknowledgeManualVerifyRes. now rewrite Hm, Hs, Hr.
  - intro Hm. unfold acknowledgeManualVerifyRes. rewrite Hm. cbn [entriesAfter].
    split; [reflexivity|].
    intro x. rewrite pull_In.
    destruct (String.eqb_spec (userId x) (userId entry)); intuition congruence.
  - intros Hid Hack.
    assert (Hpulled :
              entriesAfter (acknowledgeManualVerifyRes aw entry moderator responseId)
              = pull (fun x => ((sectionId x =? sectionId entry)%string
                                && (userId x =? userId entry)%string)%bool)
                     (manualVerificationEntries (storedGuildDoc aw))).
    { revert Hack. unfold acknowledgeManualVerifyRes.
      destruct (fetchedMember aw); [|discriminate].
      destruct (sectionOfEntry _ _); [|discriminate].
      destruct (negb _); [discriminate|].
      destruct Hid as [-> | ->]; reflexivity. }
    rewrite Hpulled.
    assert (Hin : forall x,
               In x (pull (fun x => ((sectionId x =? sectionId entry)%string
                                     && (userId x =? userId entry)%string)%bool)
                          (manualVerificationEntries (storedGuildDoc aw)))
               <-> In x (manualVerificationEntries (storedGuildDoc aw))
                   /\ ~ (userId x = userId entry /\ sectionId x = sectionId entry)).
    { intro x. rewrite pull_In.
      destruct (String.eqb_spec (sectionId x) (sectionId entry));
        destruct (String.eqb_spec (userId x) (userId entry));
        cbn [andb]; intuition congruence. }
    split; [|exact Hin].
    intros (x & Hx & Hu & Hs). apply Hin in Hx. tauto.
Qed.

Lemma acknowledgement_and_entries_witness :
  entriesAfter (acknowledgeManualVerifyRes (Samples.pendingWorld true Samples.bareGuild)
                  (Samples.entryOf "user-1" "section-1")
                  (Samples.moderatorOf Samples.bareGuild) MANUAL_VERIFY_ACCEPT_ID)
  = [Samples.entryOf "user-1" "section-1"] /\
  acknowledged (acknowledgeManualVerifyRes (Samples.pendingWorld false Samples.bareGuild)
                  (Samples.entryOf "user-1" "section-1")
                  (Samples.moderatorOf Samples.bareGuild) MANUAL_VERIFY_ACCEPT_ID)
  = false /\
  ~ hasEntryFor
      (entriesAfter (acknowledgeManualVerifyRes (Samples.pendingWorld true Samples.staffedGuild)
                       (Samples.entryOf "user-1" "section-1")
                       (Samples.moderatorOf Samples.staffedGuild) MANUAL_VERIFY_DENY_ID))
      "user-1" "section-1".
Proof.
  split; [|split].
  - apply (proj1 (acknowledgement_and_entries (Samples.pendingWorld true Samples.bareGuild)
                    (Samples.entryOf "user-1" "section-1")
                    (Samples.moderatorOf Samples.bareGuild) MANUAL_VERIFY_ACCEPT_ID)
                 (Samples.memberOf Samples.bareGuild)
                 (Samples.sectionWith (Samples.props true Samples.nothingChecked)));
      reflexivity.
  - apply (proj1 (proj2 (acknowledgement_and_entries
                           (Samples.pendingWorld false Samples.bareGuild)
                           (Samples.entryOf "user-1" "section-1")
                           (Samples.moderatorOf Samples.bareGuild) MANUAL_VERIFY_ACCEPT_ID))).
    reflexivity.
  - apply (proj2 (proj2 (acknowledgement_and_entries
                           (Samples.pendingWorld true Samples.staffedGuild)
                           (Samples.entryOf "user-1" "section-1")
                           (Samples.moderatorOf Samples.staffedGuild) MANUAL_VERIFY_DENY_ID)));
      [right; reflexivity | reflexivity].
Defined.

(** ** The master flag *)

(** C1: the code at the failing input. With the master flag off and the
    guild Wolves required, a profile of the guild Knights is evaluated all the
    same in the main section: the evaluator never reads the flag, and
    [verifyMain] calls it without reading it either, so the verdict is FAIL
    with one fatal issue and the session ends on the failure embed. In a
    section, the same policy and profile are verified without evaluation. *)
Theorem master_flag_off_main_section :
  Defs.checkRequirements (Samples.wolvesOnly false) = false /\
  (forall member flag s resp w,
      run (checkRequirements member (OfSection (withFlag flag s)) resp) w
      = run (checkRequirements member (OfSection s) resp) w) /\
  conclusion (evaluate (Samples.memberOf Samples.staffedGuild)
                (OfSection (getMainSection
                              (Samples.guildDocWith (Samples.wolvesOnly false) [])))
                (Samples.alice []) Samples.silentWorld) = FAIL /\
  fatalIssues (evaluate (Samples.memberOf Samples.staffedGuild)
                 (OfSection (getMainSection
                               (Samples.guildDocWith (Samples.wolvesOnly false) [])))
                 (Samples.alice []) Samples.silentWorld)
  = [mkIssue "Not In Correct Guild" (GuildNeeded "Knights" "Wolves")] /\
  onInteraction (Samples.sessionWorld (Some (Samples.alice [])) true)
                (Samples.mainSession Samples.staffedGuild (Samples.wolvesOnly false))
                awaitProof CHECK_PROFILE_ID
  = {| collectorEnded := true; msgDeleted := false;
       msgEmbed := FailedEmbed
                     [mkIssue "Not In Correct Guild" (GuildNeeded "Knights" "Wolves")];
       msgComponents := [];
       effects := [DirectMessage true; LogFail "fatal issues"] |} /\
  verifySection (Samples.sessionWorld (Some (Samples.alice [])) true)
                (Samples.memberOf Samples.staffedGuild)
                (Samples.sectionWith (Samples.wolvesOnly false))
  = [AddVerifiedRole "verified"; InteractionReply ReplyVerified; LogSuccess].
Proof.
  repeat match goal with |- _ /\ _ => split end; reflexivity.
Qed.

(** ** The checking step of the main session *)

Lemma assess_try_again r :
  fatalIssues r = [] -> taIssues r <> [] -> assess r = TRY_AGAIN.
Proof.
  unfold assess. intros -> Hta. destruct (taIssues r); [congruence|reflexivity].
Qed.

Lemma checkExaltations_ta vr resp r w t :
  exists more, taIssues (fst (checkExaltations vr resp r w t)) = (taIssues r ++ more)%list.
Proof.
  unfold checkExaltations, bind, ret, getExaltation, await.
  destruct (exaltations_checkThis vr); [|exists []; now rewrite app_nil_r].
  destruct (exaltationOf w (PAD.name resp)); [|eexists; reflexivity].
  destruct (notMetExaltations _); exists []; now rewrite app_nil_r.
Qed.

(** An enabled auxiliary source that is unavailable makes the verdict
    TRY_AGAIN, once the guild block is passed. *)
Lemma unavailable_source_try_again member section resp w :
  checkGuild (verifReq (propsOf section)) resp = None ->
  (exaltations_checkThis (verifReq (propsOf section)) = true /\
   exaltationOf w (PAD.name resp) = None)
  \/ (graveyardSummary_checkThis (verifReq (propsOf section)) = true /\
      graveyardSummary_useBotCompletions (verifReq (propsOf section)) = false /\
      graveyardSummaryOf w (PAD.name resp) = None) ->
  conclusion (evaluate member section resp w) = TRY_AGAIN.
Proof.
  intros Hguild Hsrc. unfold evaluate. rewrite checkRequirements_unfold. cbv zeta.
  rewrite Hguild. cbn [fst]. rewrite conclusion_conclude.
  match goal with
  | |- context [assess ?r] =>
      assert (Ha : assess r = TRY_AGAIN); [|now rewrite Ha]
  end.
  apply assess_try_again.
  - autorewrite with issues. reflexivity.
  - destruct Hsrc as [[Hc Hw] | (Hc & Hb & Hw)].
    + unfold checkExaltations at 1, bind, ret, getExaltation, await.
      rewrite Hc, Hw. cbn [fst taIssues pushTa].
      intro H. destruct (app_cons_not_nil _ _ _ (eq_sym H)).
    + match goal with
      | |- taIssues (fst (checkExaltations ?a ?b ?c ?d ?e)) <> [] =>
          destruct (checkExaltations_ta a b c d e) as [more ->]
      end.
      unfold checkGraveyardSummary, ret. rewrite Hc, Hb, Hw.
      cbn [fst checkRealmEyeCompletions taIssues pushTa].
      intro H. apply app_eq_nil in H. destruct H as [H _].
      destruct (app_cons_not_nil _ _ _ (eq_sym H)).
Qed.

(** C2, as stated, fails: when the profile cannot be obtained, the collector
    is stopped and the message loses its buttons; the session is over, and a
    further press of Check Profile does nothing. *)
Lemma unobtainable_snapshot_counterexample :
  playerInfoOf (Samples.sessionWorld None true) "Alice" = None /\
  onInteraction (Samples.sessionWorld None true)
                (Samples.mainSession Samples.staffedGuild
                   (Samples.props true Samples.nothingChecked))
                awaitProof CHECK_PROFILE_ID
  = {| collectorEnded := true; msgDeleted := false; msgEmbed := ProfileErrorEmbed;
       msgComponents := [];
       effects := [DirectMessage true; LogFail "profile unreachable"] |} /\
  inAwaitProof
    (onInteraction (Samples.sessionWorld None true)
                   (Samples.mainSession Samples.staffedGuild
                      (Samples.props true Samples.nothingChecked))
                   awaitProof CHECK_PROFILE_ID) = false /\
  step (Samples.sessionWorld (Some (Samples.alice [])) true)
       (Samples.mainSession Samples.staffedGuild (Samples.props true Samples.nothingChecked))
       (onInteraction (Samples.sessionWorld None true)
                      (Samples.mainSession Samples.staffedGuild
                         (Samples.props true Samples.nothingChecked))
                      awaitProof CHECK_PROFILE_ID)
       (Collect CHECK_PROFILE_ID)
  = onInteraction (Samples.sessionWorld None true)
                  (Samples.mainSession Samples.staffedGuild
                     (Samples.props true Samples.nothingChecked))
                  awaitProof CHECK_PROFILE_ID.
Proof. repeat split. Qed.

Lemma retry_back_to_wait sw st issue log :
  collectorEnded st = false -> msgDeleted st = false -> dmDelivered sw = true ->
  inAwaitProof (retry sw st issue log) = true /\
  msgEmbed (retry sw st issue log) = VerifEmbed (Some issue).
Proof.
  intros Hc Hd Hdm. unfold retry, inAwaitProof. rewrite Hdm.
  cbn. now rewrite Hc, Hd.
Qed.

(** C2, amended: in the checking step, an unobtainable profile ends the
    session: the error embed is shown, the buttons are removed and the
    collector is stopped. When the profile is there and the member can be
    messaged, a missing proof code, an unavailable name history, or a verdict
    TRY_AGAIN are reported on the verification embed and the session is back
    in the wait state with both buttons; TRY_AGAIN is the verdict whenever an
    enabled exaltation or graveyard-history source is unavailable and the
    guild block is passed. *)
Theorem checking_step_outcomes sw s st customId :
  customId <> CANCEL_ID ->
  collectorEnded st = false ->
  msgDeleted st = false ->
  (playerInfoOf sw (nameToVerify s) = None ->
   collectorEnded (onInteraction sw s st customId) = true /\
   msgComponents (onInteraction sw s st customId) = [] /\
   msgEmbed (onInteraction sw s st customId) = ProfileErrorEmbed /\
   inAwaitProof (onInteraction sw s st customId) = false) /\
  (forall requestData,
      playerInfoOf sw (nameToVerify s) = Some requestData ->
      dmDelivered sw = true ->
      (codeFound s requestData = false ->
       inAwaitProof (onInteraction sw s st customId) = true /\
       msgEmbed (onInteraction sw s st customId) = VerifEmbed (Some CodeNotFound)) /\
      (codeFound s requestData = true ->
       nameHistoryOf sw (nameToVerify s) = None ->
       inAwaitProof (onInteraction sw s st customId) = true /\
       msgEmbed (onInteraction sw s st customId)
       = VerifEmbed (Some NameHistoryUnavailable)) /\
      (forall nameHistory,
          codeFound s requestData = true ->
          nameHistoryOf sw (nameToVerify s) = Some nameHistory ->
          blacklisted (sGuildDoc s) (namesToCheck s requestData nameHistory) = None ->
          conclusion (evaluate (sMember s) (OfSection (getMainSection (sGuildDoc s)))
                               requestData (evalWorld sw)) = TRY_AGAIN ->
          inAwaitProof (onInteraction sw s st customId) = true /\
          msgEmbed (onInteraction sw s st customId)
          = VerifEmbed
              (Some (RequirementIssues
                       (taIssues (evaluate (sMember s)
                                    (OfSection (getMainSection (sGuildDoc s)))
                                    requestData (evalWorld sw))))))) /\
  (forall member section resp w,
      checkGuild (verifReq (propsOf section)) resp = None ->
      (exaltations_checkThis (verifReq (propsOf section)) = true /\
       exaltationOf w (PAD.name resp) = None)
      \/ (graveyardSummary_checkThis (verifReq (propsOf section)) = true /\
          graveyardSummary_useBotCompletions (verifReq (propsOf section)) = false /\
          graveyardSummaryOf w (PAD.name resp) = None) ->
      conclusion (evaluate member section resp w) = TRY_AGAIN).
Proof.
  intros Hid Hc Hd.
  assert (Hcollect : onInteraction sw s st customId
                     = collect sw s st CHECK_PROFILE_ID).
  { unfold onInteraction. rewrite Hc. destruct customId; [congruence | reflexivity..]. }
  rewrite Hcollect. clear Hcollect.
  split; [|split].
  - intro Hnone. unfold collect. rewrite Hnone. repeat split.
  - intros requestData Hsome Hdm. unfold collect, codeFound, namesToCheck, evaluate.
    rewrite Hsome.
    assert (Hst : collectorEnded (edit st CheckingEmbed []) = false /\
                  msgDeleted (edit st CheckingEmbed []) = false) by (split; assumption).
    destruct Hst as [Hc' Hd'].
    split; [|split].
    + intros ->. cbn [negb]. now apply retry_back_to_wait.
    + intros -> ->. cbn [negb]. now apply retry_back_to_wait.
    + intros nameHistory -> -> -> ->. cbn [negb]. now apply retry_back_to_wait.
  - intros member section resp w. apply unavailable_source_try_again.
Qed.

Lemma checking_step_outcomes_witness :
  collectorEnded
    (onInteraction (Samples.sessionWorld None true)
                   (Samples.mainSession Samples.staffedGuild
                      (Samples.props true Samples.nothingChecked))
                   awaitProof CHECK_PROFILE_ID) = true /\
  inAwaitProof
    (onInteraction (Samples.sessionWorld (Some Samples.bob) true)
                   (Samples.mainSession Samples.staffedGuild
                      (Samples.props true Samples.nothingChecked))
                   awaitProof CHECK_PROFILE_ID) = true /\
  inAwaitProof
    (onInteraction (Samples.noHistoryWorld (Samples.alice []))
                   (Samples.mainSession Samples.staffedGuild
                      (Samples.props true Samples.nothingChecked))
                   awaitProof CHECK_PROFILE_ID) = true /\
  inAwaitProof
    (onInteraction (Samples.sessionWorld (Some (Samples.alice [])) true)
                   (Samples.mainSession Samples.staffedGuild
                      (Samples.props true (Samples.exaltPolicy Samples.attDef5 true)))
                   awaitProof CHECK_PROFILE_ID) = true /\
  conclusion (evaluate (Samples.memberOf Samples.staffedGuild)
                (Samples.exaltSection Samples.attDef5 true)
                (Samples.alice []) Samples.silentWorld) = TRY_AGAIN.
Proof.
  assert (Hid : CHECK_PROFILE_ID <> CANCEL_ID) by discriminate.
  split; [|split; [|split; [|split]]].
  - apply (proj1 (checking_step_outcomes (Samples.sessionWorld None true)
                    (Samples.mainSession Samples.staffedGuild
                       (Samples.props true Samples.nothingChecked))
                    awaitProof CHECK_PROFILE_ID Hid eq_refl eq_refl)).
    reflexivity.
  - apply (proj1 (proj1 (proj2 (checking_step_outcomes
                                  (Samples.sessionWorld (Some Samples.bob) true)
                                  (Samples.mainSession Samples.staffedGuild
                                     (Samples.props true Samples.nothingChecked))
                                  awaitProof CHECK_PROFILE_ID Hid eq_refl eq_refl))
                        Samples.bob eq_refl eq_refl)).
    reflexivity.
  - apply (proj1 (proj2 (proj1 (proj2 (checking_step_outcomes
                                         (Samples.noHistoryWorld (Samples.alice []))
                                         (Samples.mainSession Samples.staffedGuild
                                            (Samples.props true Samples.nothingChecked))
                                         awaitProof CHECK_PROFILE_ID Hid eq_refl eq_refl))
                               (Samples.alice []) eq_refl eq_refl)));
      reflexivity.
  - apply (proj2 (proj2 (proj1 (proj2 (checking_step_outcomes
                                         (Samples.sessionWorld (Some (Samples.alice [])) true)
                                         (Samples.mainSession Samples.staffedGuild
                                            (Samples.props true
                                               (Samples.exaltPolicy Samples.attDef5 true)))
                                         awaitProof CHECK_PROFILE_ID Hid eq_refl eq_refl))
                               (Samples.alice []) eq_refl eq_refl))
                 {| PAD.nameHistory := [] |});
      reflexivity.
  - apply (proj2 (proj2 (checking_step_outcomes (Samples.sessionWorld None true)
                           (Samples.mainSession Samples.staffedGuild
                              (Samples.props true Samples.nothingChecked))
                           awaitProof CHECK_PROFILE_ID Hid eq_refl eq_refl))).
    + reflexivity.
    + left. split; reflexivity.
Defined.

(** * Further properties of the code *)

(** ** The order of guild ranks *)

Lemma isValidGuildRank_positions (floor actual : string) :
  In floor GUILD_ROLES ->
  (isValidGuildRank floor actual = true <->
   0 <= JS.indexOf GUILD_ROLES actual <= JS.indexOf GUILD_ROLES floor).
Proof.
  intro Hin. cbn in Hin.
  destruct Hin as [<-|[<-|[<-|[<-|[<-|[]]]]]];
    split; intro H; cbv -[String.eqb Z.le] in *; rank_cases;
      try reflexivity; try discriminate; try lia; try congruence.
Qed.

Lemma isValidGuildRank_outside (floor actual : string) :
  ~ In floor GUILD_ROLES -> isValidGuildRank floor actual = true -> floor = actual.
Proof.
  intros Hout H. unfold isValidGuildRank in H.
  destruct (String.eqb_spec floor actual); [assumption|].
  now rewrite (indexOf_absent _ _ Hout) in H.
Qed.

Lemma indexOf_roles_inj (a b : string) :
  0 <= JS.indexOf GUILD_ROLES a -> JS.indexOf GUILD_ROLES a = JS.indexOf GUILD_ROLES b ->
  a = b.
Proof.
  cbn -[String.eqb]. rank_cases; cbn -[String.eqb]; intros;
    try reflexivity; try lia; try congruence.
Qed.

Lemma indexOf_roles_in (a : string) :
  0 <= JS.indexOf GUILD_ROLES a -> In a GUILD_ROLES.
Proof.
  cbn -[String.eqb]. rank_cases; cbn -[String.eqb]; intros; try lia; tauto.
Qed.

Lemma isValidGuildRank_refl_aux (r : string) : isValidGuildRank r r = true.
Proof. unfold isValidGuildRank. now rewrite String.eqb_refl. Qed.

Lemma in_roles_dec (a : string) : In a GUILD_ROLES \/ ~ In a GUILD_ROLES.
Proof.
  destruct (in_dec string_dec a GUILD_ROLES); [now left|now right].
Qed.

(** X1: for a floor of the ordering, a rank is good exactly when it is in
    the ordering at the floor's position or before it (Founder first); in
    particular a rank outside the ordering is good for no floor of the
    ordering. *)
Theorem guild_rank_at_least (floor actual : string) :
  In floor GUILD_ROLES ->
  (isValidGuildRank floor actual = true <->
   0 <= JS.indexOf GUILD_ROLES actual <= JS.indexOf GUILD_ROLES floor).
Proof. apply isValidGuildRank_positions. Qed.

Lemma guild_rank_at_least_witness :
  isValidGuildRank "Officer" "Leader" = true /\
  (isValidGuildRank "Officer" "Member" = true -> False).
Proof.
  assert (Hin : In "Officer" GUILD_ROLES) by (cbn; tauto).
  split.
  - apply (proj2 (guild_rank_at_least "Officer" "Leader" Hin)). cbn. lia.
  - intro H. apply (proj1 (guild_rank_at_least "Officer" "Member" Hin)) in H.
    cbn in H. lia.
Defined.

(** X2: being good for a floor is an order on rank strings: it is
    transitive and antisymmetric on all strings, and any two ranks of the
    ordering are comparable. *)
Theorem guild_rank_order :
  (forall a b c, isValidGuildRank a b = true -> isValidGuildRank b c = true ->
                 isValidGuildRank a c = true) /\
  (forall a b, isValidGuildRank a b = true -> isValidGuildRank b a = true -> a = b) /\
  (forall a b, In a GUILD_ROLES -> In b GUILD_ROLES ->
               isValidGuildRank a b = true \/ isValidGuildRank b a = true).
Proof.
  split; [|split].
  - intros a b c Hab Hbc. destruct (in_roles_dec a) as [Ha|Ha].
    + apply (isValidGuildRank_positions a b Ha) in Hab.
      assert (Hb : In b GUILD_ROLES) by (apply indexOf_roles_in; lia).
      apply (isValidGuildRank_positions b c Hb) in Hbc.
      apply (isValidGuildRank_positions a c Ha). lia.
    + now rewrite (isValidGuildRank_outside a b Ha Hab).
  - intros a b Hab Hba. destruct (in_roles_dec a) as [Ha|Ha].
    + apply (isValidGuildRank_positions a b Ha) in Hab.
      assert (Hb : In b GUILD_ROLES) by (apply indexOf_roles_in; lia).
      apply (isValidGuildRank_positions b a Hb) in Hba.
      apply indexOf_roles_inj; lia.
    + exact (isValidGuildRank_outside a b Ha Hab).
  - intros a b Ha Hb.
    assert (Hia : 0 <= JS.indexOf GUILD_ROLES a).
    { apply (isValidGuildRank_positions a a Ha). apply isValidGuildRank_refl_aux. }
    assert (Hib : 0 <= JS.indexOf GUILD_ROLES b).
    { apply (isValidGuildRank_positions b b Hb). apply isValidGuildRank_refl_aux. }
    destruct (Z.le_ge_cases (JS.indexOf GUILD_ROLES a) (JS.indexOf GUILD_ROLES b)).
    + right. apply (isValidGuildRank_positions b a Hb). lia.
    + left. apply (isValidGuildRank_positions a b Ha). lia.
Qed.

Lemma guild_rank_order_witness :
  isValidGuildRank "Initiate" "Leader" = true /\
  ("Member" = "Member") /\
  (isValidGuildRank "Member" "Officer" = true \/ isValidGuildRank "Officer" "Member" = true).
Proof.
  destruct guild_rank_order as (Htrans & Hanti & Htotal).
  split; [|split].
  - apply (Htrans "Initiate" "Member" "Leader"); reflexivity.
  - apply Hanti; reflexivity.
  - apply Htotal; cbn; tauto.
Defined.

(** ** The lists of one evaluation *)

Section IssueLists.

Lemma extends_refl km kt r : extends km kt r r.
Proof.
  exists [], []. rewrite !app_nil_r. repeat split; now left.
Qed.

Lemma extends_manual km kt r d : extends (Some km) kt r (pushManual r (mkIssue km d)).
Proof.
  exists [mkIssue km d], []. rewrite app_nil_r.
  repeat split; [right; now exists km, d | now left].
Qed.

Lemma extends_ta km kt r d : extends km (Some kt) r (pushTa r (mkIssue kt d)).
Proof.
  exists [], [mkIssue kt d]. rewrite app_nil_r.
  repeat split; [now left | right; now exists kt, d].
Qed.

Lemma checkLastSeen_extends vr resp r :
  extends None (Some "Last Seen Location is Not Private") r (checkLastSeen vr resp r).
Proof.
  unfold checkLastSeen. destruct (_ && _)%bool; [apply extends_ta|apply extends_refl].
Qed.

Lemma checkRank_extends vr resp r :
  extends (Some "Rank Too Low") None r (checkRank vr resp r).
Proof.
  unfold checkRank. destruct (_ && _)%bool; [apply extends_manual|apply extends_refl].
Qed.

Lemma checkAliveFame_extends vr resp r :
  extends (Some "Alive Fame Too Low") None r (checkAliveFame vr resp r).
Proof.
  unfold checkAliveFame. destruct (_ && _)%bool; [apply extends_manual|apply extends_refl].
Qed.

Lemma checkCharacters_extends vr resp gy r :
  extends (Some "Stats Requirement Not Fulfilled") None r (checkCharacters vr resp gy r).
Proof.
  unfold checkCharacters. destruct (characters_checkThis vr); [|apply extends_refl].
  destruct (existsb _ _); [apply extends_manual|apply extends_refl].
Qed.

Lemma checkGraveyardSummary_extends vr member resp gy r w t :
  extends (Some "Dungeon Completion Requirement Not Fulfilled")
          (Some "Graveyard History Private")
          r (fst (checkGraveyardSummary vr member resp gy r w t)).
Proof.
  unfold checkGraveyardSummary, ret.
  destruct (graveyardSummary_checkThis vr); [|apply extends_refl].
  destruct (graveyardSummary_useBotCompletions vr).
  - unfold checkBotCompletions, bind, getUserDoc, await.
    destruct (fold_left _ _ _) as [[c allPassed] issues].
    destruct allPassed; [apply extends_refl|apply extends_manual].
  - cbn [fst]. unfold checkRealmEyeCompletions. destruct gy; [|apply extends_ta].
    destruct (fold_left _ _ _); [apply extends_refl|apply extends_manual].
Qed.

Lemma checkExaltations_extends vr resp r w t :
  extends (Some "Exaltation Requirement Not Satisfied")
          (Some "Exaltation Information Private")
          r (fst (checkExaltations vr resp r w t)).
Proof.
  unfold checkExaltations, bind, ret, getExaltation, await.
  destruct (exaltations_checkThis vr); [|apply extends_refl].
  destruct (exaltationOf w (PAD.name resp)); [|apply extends_ta].
  destruct (notMetExaltations _); [apply extends_refl|apply extends_manual].
Qed.

Lemma checkGuild_key vr resp issue :
  checkGuild vr resp = Some issue ->
  issueKey issue = "Not In Correct Guild" \/ issueKey issue = "Invalid Guild Rank".
Proof.
  unfold checkGuild. intro H.
  repeat match type of H with
         | context [if ?c then _ else _] => destruct c
         end; inversion H; cbn; tauto.
Qed.

End IssueLists.

(** X3: every evaluation reports each kind of issue at most once and in the
    order of the checks: the keys of its manual issues, and of its try-again
    issues, are the fixed key lists with some keys left out. There is at most
    one fatal issue, it comes from the guild block, and a result with a fatal
    issue has no manual issue. *)
Theorem issue_kinds_once_in_order member section resp w :
  subsequence (map issueKey (manualIssues (evaluate member section resp w))) manualKeys
  = true /\
  subsequence (map issueKey (taIssues (evaluate member section resp w))) tryAgainKeys
  = true /\
  (fatalIssues (evaluate member section resp w) = [] \/
   exists issue,
     fatalIssues (evaluate member section resp w) = [issue] /\
     (issueKey issue = "Not In Correct Guild" \/ issueKey issue = "Invalid Guild Rank") /\
     manualIssues (evaluate member section resp w) = []).
Proof.
  unfold evaluate. rewrite checkRequirements_unfold. cbv zeta.
  pose proof (checkLastSeen_extends (verifReq (propsOf section)) resp (freshResult resp))
    as H0.
  destruct (checkGuild _ resp) as [issue|] eqn:Hguild; cbn [fst].
  - cbn [manualIssues taIssues fatalIssues setConclusion pushFatal].
    rewrite checkLastSeen_fatal. use_extends H0; rewrite Hm, Ht; cbn;
      (repeat split; try reflexivity; right; exists issue;
       repeat split; try reflexivity; exact (checkGuild_key _ resp issue Hguild)).
  - match goal with
    | |- context [conclude ?m ?sec ?r] =>
        destruct (conclude_lists m sec r) as (-> & -> & ->)
    end.
    autorewrite with issues.
    match goal with
    | |- context [checkExaltations ?vr ?rs ?r ?w ?t] =>
        pose proof (checkExaltations_extends vr rs r w t) as H5
    end.
    match goal with
    | |- context [checkGraveyardSummary ?vr ?m ?rs ?gy ?r ?w ?t] =>
        pose proof (checkGraveyardSummary_extends vr m rs gy r w t) as H4
    end.
    match goal with
    | |- context [checkCharacters ?vr ?rs ?gy ?r] =>
        pose proof (checkCharacters_extends vr rs gy r) as H3
    end.
    match goal with
    | |- context [checkAliveFame ?vr ?rs ?r] =>
        pose proof (checkAliveFame_extends vr rs r) as H2
    end.
    match goal with
    | |- context [checkRank ?vr ?rs ?r] =>
        pose proof (checkRank_extends vr rs r) as H1
    end.
    use_extends H5; rewrite Hm, Ht; clear Hm Ht;
      use_extends H4; rewrite Hm, Ht; clear Hm Ht;
      use_extends H3; rewrite Hm, Ht; clear Hm Ht;
      use_extends H2; rewrite Hm, Ht; clear Hm Ht;
      use_extends H1; rewrite Hm, Ht; clear Hm Ht;
      use_extends H0; rewrite Hm, Ht; clear Hm Ht;
      cbn; repeat split; try reflexivity; now left.
Qed.

(** X4: the verdict tells what the lists hold. PASS: no issue at all.
    TRY_AGAIN: no fatal issue and some try-again issue. MANUAL: manual issues
    only, and a manual-verification channel to send them to. FAIL: a fatal
    issue, or manual issues only and no such channel. *)
Theorem verdict_explains_lists member section resp w :
  (conclusion (evaluate member section resp w) = PASS ->
   fatalIssues (evaluate member section resp w) = [] /\
   taIssues (evaluate member section resp w) = [] /\
   manualIssues (evaluate member section resp w) = []) /\
  (conclusion (evaluate member section resp w) = TRY_AGAIN ->
   fatalIssues (evaluate member section resp w) = [] /\
   taIssues (evaluate member section resp w) <> []) /\
  (conclusion (evaluate member section resp w) = MANUAL ->
   fatalIssues (evaluate member section resp w) = [] /\
   taIssues (evaluate member section resp w) = [] /\
   manualIssues (evaluate member section resp w) <> [] /\
   hasManualChannel member section = true) /\
  (conclusion (evaluate member section resp w) = FAIL ->
   fatalIssues (evaluate member section resp w) <> [] \/
   (fatalIssues (evaluate member section resp w) = [] /\
    taIssues (evaluate member section resp w) = [] /\
    manualIssues (evaluate member section resp w) <> [] /\
    hasManualChannel member section = false)).
Proof.
  unfold hasManualChannel.
  destruct (evaluate_cases member section resp w)
    as [(issue & _ & -> & _) | (r & _ & -> & _)].
  - cbn [conclusion setConclusion fatalIssues pushFatal].
    repeat split; try discriminate.
    intros _. left. intro H. destruct (app_cons_not_nil _ _ _ (eq_sym H)).
  - destruct (conclude_lists member section r) as (-> & -> & ->).
    rewrite conclusion_conclude. unfold assess.
    destruct (fatalIssues r), (taIssues r), (manualIssues r);
      cbn [isManual andb];
      destruct (GuildFgrUtilities.hasCachedChannel _ _); cbn [negb];
      repeat split; try discriminate; try reflexivity; intros _;
      try (left; discriminate);
      right; repeat split; discriminate.
Qed.

Lemma verdict_explains_lists_witness :
  manualIssues (evaluate (Samples.memberOf Samples.staffedGuild) Samples.unchecked
                         (Samples.alice []) Samples.silentWorld) = [] /\
  taIssues (evaluate (Samples.memberOf Samples.staffedGuild)
              (Samples.exaltSection Samples.attDef5 true)
              (Samples.alice []) Samples.silentWorld) <> [] /\
  hasManualChannel (Samples.memberOf Samples.staffedGuild) Samples.rank10 = true /\
  (fatalIssues (evaluate (Samples.memberOf Samples.bareGuild) Samples.rank10
                         (Samples.alice []) Samples.silentWorld) <> [] \/
   (fatalIssues (evaluate (Samples.memberOf Samples.bareGuild) Samples.rank10
                          (Samples.alice []) Samples.silentWorld) = [] /\
    taIssues (evaluate (Samples.memberOf Samples.bareGuild) Samples.rank10
                       (Samples.alice []) Samples.silentWorld) = [] /\
    manualIssues (evaluate (Samples.memberOf Samples.bareGuild) Samples.rank10
                           (Samples.alice []) Samples.silentWorld) <> [] /\
    hasManualChannel (Samples.memberOf Samples.bareGuild) Samples.rank10 = false)).
Proof.
  split; [|split; [|split]].
  - apply (proj1 (verdict_explains_lists (Samples.memberOf Samples.staffedGuild)
                    Samples.unchecked (Samples.alice []) Samples.silentWorld)).
    reflexivity.
  - apply (proj1 (proj2 (verdict_explains_lists (Samples.memberOf Samples.staffedGuild)
                           (Samples.exaltSection Samples.attDef5 true)
                           (Samples.alice []) Samples.silentWorld))).
    reflexivity.
  - apply (proj1 (proj2 (proj2 (verdict_explains_lists
                                  (Samples.memberOf Samples.staffedGuild) Samples.rank10
                                  (Samples.alice []) Samples.silentWorld)))).
    reflexivity.
  - apply (proj2 (proj2 (proj2 (verdict_explains_lists
                                  (Samples.memberOf Samples.bareGuild) Samples.rank10
                                  (Samples.alice []) Samples.silentWorld)))).
    reflexivity.
Defined.

(** X5: a guild-rank failure stops the evaluation like a guild-name failure
    does. With the guild check and its rank check enabled and the guild name
    passing, a rank other than the required one (exact mode), or a rank that
    is not good for the floor (at-least mode), gives the verdict FAIL with
    one fatal issue, no manual issue, and no graveyard, exaltation or
    logged-completions lookup. *)
Theorem guild_rank_mismatch_short_circuits member section resp w :
  guild_checkThis (verifReq (propsOf section)) = true ->
  (guildName_checkThis (verifReq (propsOf section)) = false \/
   JS.toLowerCase (PAD.guild resp)
   = JS.toLowerCase (guildName_name (verifReq (propsOf section)))) ->
  guildRank_checkThis (verifReq (propsOf section)) = true ->
  (if guildRank_exact (verifReq (propsOf section))
   then guildRank_minRank (verifReq (propsOf section)) <> PAD.guildRank resp
   else isValidGuildRank (guildRank_minRank (verifReq (propsOf section)))
                         (PAD.guildRank resp) = false) ->
  conclusion (evaluate member section resp w) = FAIL /\
  (exists issue,
      fatalIssues (evaluate member section resp w) = [issue] /\
      issueKey issue = if guildRank_exact (verifReq (propsOf section))
                       then "Not In Correct Guild" else "Invalid Guild Rank") /\
  manualIssues (evaluate member section resp w) = [] /\
  lookups member section resp w = prelude member section.
Proof.
  intros Hg Hname Hr Hbad.
  unfold evaluate, lookups. rewrite checkRequirements_unfold. cbv zeta.
  assert (Hguild : exists issue,
             checkGuild (verifReq (propsOf section)) resp = Some issue /\
             issueKey issue = if guildRank_exact (verifReq (propsOf section))
                              then "Not In Correct Guild" else "Invalid Guild Rank").
  { unfold checkGuild. rewrite Hg, Hr.
    assert (Hn : (guildName_checkThis (verifReq (propsOf section))
                  && negb (JS.toLowerCase (PAD.guild resp)
                           =? JS.toLowerCase (guildName_name (verifReq (propsOf section))))%string)%bool
                 = false).
    { destruct Hname as [-> | ->]; [reflexivity|].
      rewrite String.eqb_refl. apply andb_false_r. }
    rewrite Hn.
    destruct (guildRank_exact (verifReq (propsOf section))).
    - destruct (String.eqb_spec (guildRank_minRank (verifReq (propsOf section)))
                  (PAD.guildRank resp)); [contradiction|].
      eexists. split; reflexivity.
    - rewrite Hbad. eexists. split; reflexivity. }
  destruct Hguild as (issue & -> & Hkey).
  cbn [fst snd conclusion setConclusion fatalIssues manualIssues pushFatal].
  rewrite checkLastSeen_fatal, checkLastSeen_manual.
  repeat split. exists issue. split; [reflexivity|exact Hkey].
Qed.

Lemma guild_rank_mismatch_witness :
  conclusion (evaluate (Samples.memberOf Samples.staffedGuild) (Samples.officers false)
                       (Samples.alice []) Samples.silentWorld) = FAIL /\
  conclusion (evaluate (Samples.memberOf Samples.staffedGuild) (Samples.officers true)
                       (Samples.alice []) Samples.silentWorld) = FAIL.
Proof.
  split.
  - apply (guild_rank_mismatch_short_circuits
             (Samples.memberOf Samples.staffedGuild) (Samples.officers false)
             (Samples.alice []) Samples.silentWorld);
      [reflexivity | left; reflexivity | reflexivity | reflexivity].
  - apply (guild_rank_mismatch_short_circuits
             (Samples.memberOf Samples.staffedGuild) (Samples.officers true)
             (Samples.alice []) Samples.silentWorld);
      [reflexivity | left; reflexivity | reflexivity | cbn; discriminate].
Defined.

(** ** What a PASS means *)

Section Pass.

Lemma extends_nil km kt r r' :
  extends km kt r r' -> manualIssues r' = [] -> taIssues r' = [] ->
  manualIssues r = [] /\ taIssues r = [].
Proof.
  intros (lm & lt & Hm & Ht & _) Hm' Ht'. rewrite Hm in Hm'. rewrite Ht in Ht'.
  apply app_eq_nil in Hm'. apply app_eq_nil in Ht'. tauto.
Qed.

Lemma snoc_not_nil {A} (l : list A) (x : A) : (l ++ [x])%list <> [].
Proof. intro H. destruct (app_cons_not_nil _ _ _ (eq_sym H)). Qed.

Lemma checkLastSeen_quiet vr resp r :
  taIssues (checkLastSeen vr resp r) = [] ->
  lastSeen_mustBeHidden vr = true -> PAD.lastSeen resp = "hidden".
Proof.
  unfold checkLastSeen. intros H Hm. rewrite Hm in H. cbn [andb] in H.
  destruct (String.eqb_spec (PAD.lastSeen resp) "hidden"); [assumption|].
  cbn in H. destruct (snoc_not_nil _ _ H).
Qed.

Lemma checkRank_quiet vr resp r :
  manualIssues (checkRank vr resp r) = [] ->
  rank_checkThis vr = true -> rank_minRank vr <= PAD.rank resp.
Proof.
  unfold checkRank. intros H Hc. rewrite Hc in H. cbn [andb] in H.
  destruct (Z.ltb_spec (PAD.rank resp) (rank_minRank vr)); [|assumption].
  cbn in H. destruct (snoc_not_nil _ _ H).
Qed.

Lemma checkAliveFame_quiet vr resp r :
  manualIssues (checkAliveFame vr resp r) = [] ->
  aliveFame_checkThis vr = true -> aliveFame_minFame vr <= PAD.fame resp.
Proof.
  unfold checkAliveFame. intros H Hc. rewrite Hc in H. cbn [andb] in H.
  destruct (Z.ltb_spec (PAD.fame resp) (aliveFame_minFame vr)); [|assumption].
  cbn in H. destruct (snoc_not_nil _ _ H).
Qed.

Lemma checkCharacters_quiet vr resp gy r :
  manualIssues (checkCharacters vr resp gy r) = [] ->
  characters_checkThis vr = true ->
  Forall (fun v => v <= 0) (neededAfterCharacters vr resp gy).
Proof.
  unfold checkCharacters. intros H Hc. rewrite Hc in H.
  destruct (existsb (fun x => 0 <? x) (neededAfterCharacters vr resp gy)) eqn:He.
  - cbn in H. destruct (snoc_not_nil _ _ H).
  - apply Forall_forall. intros v Hv.
    destruct (Z.ltb_spec 0 v) as [Hpos|]; [|assumption].
    assert (Ht : existsb (fun x => 0 <? x) (neededAfterCharacters vr resp gy) = true).
    { apply existsb_exists. exists v. split; [assumption|now apply Z.ltb_lt]. }
    congruence.
Qed.

Lemma checkGraveyardSummary_quiet vr member resp gy r w t :
  taIssues (fst (checkGraveyardSummary vr member resp gy r w t)) = [] ->
  graveyardSummary_checkThis vr = true ->
  graveyardSummary_useBotCompletions vr = false ->
  gy <> None.
Proof.
  unfold checkGraveyardSummary, ret. intros H Hc Hb. rewrite Hc, Hb in H.
  cbn [fst] in H. unfold checkRealmEyeCompletions in H.
  destruct gy; [discriminate|]. cbn in H. destruct (snoc_not_nil _ _ H).
Qed.

Lemma checkExaltations_quiet vr resp r w t :
  manualIssues r = [] ->
  manualIssues (fst (checkExaltations vr resp r w t)) = [] ->
  taIssues (fst (checkExaltations vr resp r w t)) = [] ->
  exaltations_checkThis vr = true ->
  exists exaltData,
    exaltationOf w (PAD.name resp) = Some exaltData /\
    exaltationsSatisfied vr exaltData.
Proof.
  unfold checkExaltations, bind, ret, getExaltation, await, exaltationsSatisfied.
  intros Hr Hm Ht Hc. rewrite Hc in Hm, Ht.
  destruct (exaltationOf w (PAD.name resp)) as [exaltData|].
  - exists exaltData. split; [reflexivity|].
    destruct (notMetExaltations (neededAfterExaltations vr exaltData)); [reflexivity|].
    cbn in Hm. destruct (snoc_not_nil _ _ Hm).
  - cbn in Ht. destruct (snoc_not_nil _ _ Ht).
Qed.

Lemma checkGuild_passed vr resp :
  checkGuild vr resp = None ->
  guild_checkThis vr = true ->
  (guildName_checkThis vr = true ->
   JS.toLowerCase (PAD.guild resp) = JS.toLowerCase (guildName_name vr)) /\
  (guildRank_checkThis vr = true ->
   if guildRank_exact vr then guildRank_minRank vr = PAD.guildRank resp
   else isValidGuildRank (guildRank_minRank vr) (PAD.guildRank resp) = true).
Proof.
  unfold checkGuild. intros H Hg. rewrite Hg in H.
  destruct (guildName_checkThis vr).
  - destruct (String.eqb_spec (JS.toLowerCase (PAD.guild resp))
                (JS.toLowerCase (guildName_name vr))); [|discriminate].
    cbn [andb negb] in H. split; [intros _; assumption|].
    intro Hr. rewrite Hr in H. destruct (guildRank_exact vr).
    + destruct (String.eqb_spec (guildRank_minRank vr) (PAD.guildRank resp));
        [assumption|discriminate].
    + destruct (isValidGuildRank _ _); [reflexivity|discriminate].
  - cbn [andb] in H. split; [discriminate|].
    intro Hr. rewrite Hr in H. destruct (guildRank_exact vr).
    + destruct (String.eqb_spec (guildRank_minRank vr) (PAD.guildRank resp));
        [assumption|discriminate].
    + destruct (isValidGuildRank _ _); [reflexivity|discriminate].
Qed.

End Pass.

(** X6: a PASS is sound for every enabled check that decides by itself: the
    last-seen location is hidden if that is required, the guild name and
    rank are as required, rank and alive fame reach their minimums, no tier
    is left with a positive need, the exaltations were available and
    satisfy the minimums, and in the graveyard-history mode the graveyard was
    available. *)
Theorem pass_is_sound member section resp w :
  conclusion (evaluate member section resp w) = PASS ->
  (lastSeen_mustBeHidden (verifReq (propsOf section)) = true ->
   PAD.lastSeen resp = "hidden") /\
  (guild_checkThis (verifReq (propsOf section)) = true ->
   guildName_checkThis (verifReq (propsOf section)) = true ->
   JS.toLowerCase (PAD.guild resp)
   = JS.toLowerCase (guildName_name (verifReq (propsOf section)))) /\
  (guild_checkThis (verifReq (propsOf section)) = true ->
   guildRank_checkThis (verifReq (propsOf section)) = true ->
   if guildRank_exact (verifReq (propsOf section))
   then guildRank_minRank (verifReq (propsOf section)) = PAD.guildRank resp
   else isValidGuildRank (guildRank_minRank (verifReq (propsOf section)))
                         (PAD.guildRank resp) = true) /\
  (rank_checkThis (verifReq (propsOf section)) = true ->
   rank_minRank (verifReq (propsOf section)) <= PAD.rank resp) /\
  (aliveFame_checkThis (verifReq (propsOf section)) = true ->
   aliveFame_minFame (verifReq (propsOf section)) <= PAD.fame resp) /\
  (characters_checkThis (verifReq (propsOf section)) = true ->
   Forall (fun v => v <= 0)
          (neededAfterCharacters (verifReq (propsOf section)) resp
             (graveyardSummaryOf w (PAD.name resp)))) /\
  (exaltations_checkThis (verifReq (propsOf section)) = true ->
   exists exaltData,
     exaltationOf w (PAD.name resp) = Some exaltData /\
     exaltationsSatisfied (verifReq (propsOf section)) exaltData) /\
  (graveyardSummary_checkThis (verifReq (propsOf section)) = true ->
   graveyardSummary_useBotCompletions (verifReq (propsOf section)) = false ->
   graveyardSummaryOf w (PAD.name resp) <> None).
Proof.
  unfold evaluate. rewrite checkRequirements_unfold. cbv zeta.
  destruct (checkGuild _ resp) as [issue|] eqn:Hguild; cbn [fst]; [discriminate|].
  rewrite conclusion_conclude. intro Hpass.
  match type of Hpass with
  | context [assess ?r] => remember r as r5 eqn:E5; assert (Ha : assess r5 = PASS)
  end.
  { destruct (isManual (assess r5) && _)%bool; [discriminate|assumption]. }
  clear Hpass.
  assert (Hlists : manualIssues r5 = [] /\ taIssues r5 = []).
  { unfold assess in Ha.
    destruct (fatalIssues r5), (taIssues r5), (manualIssues r5);
      try discriminate; split; reflexivity. }
  destruct Hlists as [Hm5 Ht5]. subst r5.
  match type of Hm5 with
  | context [checkExaltations ?vr ?rs ?r ?w0 ?t] =>
      pose proof (checkExaltations_extends vr rs r w0 t) as H5;
      destruct (extends_nil _ _ _ _ H5 Hm5 Ht5) as [Hm4 Ht4]
  end.
  match type of Hm4 with
  | context [checkGraveyardSummary ?vr ?m ?rs ?gy ?r ?w0 ?t] =>
      pose proof (checkGraveyardSummary_extends vr m rs gy r w0 t) as H4;
      destruct (extends_nil _ _ _ _ H4 Hm4 Ht4) as [Hm3 Ht3]
  end.
  match type of Hm3 with
  | context [checkCharacters ?vr ?rs ?gy ?r] =>
      pose proof (checkCharacters_extends vr rs gy r) as H3;
      destruct (extends_nil _ _ _ _ H3 Hm3 Ht3) as [Hm2 Ht2]
  end.
  match type of Hm2 with
  | context [checkAliveFame ?vr ?rs ?r] =>
      pose proof (checkAliveFame_extends vr rs r) as H2;
      destruct (extends_nil _ _ _ _ H2 Hm2 Ht2) as [Hm1 Ht1]
  end.
  match type of Hm1 with
  | context [checkRank ?vr ?rs ?r] =>
      pose proof (checkRank_extends vr rs r) as H1;
      destruct (extends_nil _ _ _ _ H1 Hm1 Ht1) as [Hm0 Ht0]
  end.
  repeat match goal with |- _ /\ _ => split end.
  - now apply (checkLastSeen_quiet _ _ _ Ht0).
  - intro Hg. now apply (checkGuild_passed _ _ Hguild Hg).
  - intro Hg. now apply (checkGuild_passed _ _ Hguild Hg).
  - now apply (checkRank_quiet _ _ _ Hm1).
  - now apply (checkAliveFame_quiet _ _ _ Hm2).
  - now apply (checkCharacters_quiet _ _ _ _ Hm3).
  - now apply (checkExaltations_quiet _ _ _ _ _ Hm4 Hm5 Ht5).
  - now apply (checkGraveyardSummary_quiet _ _ _ _ _ _ _ Ht4).
Qed.

Lemma pass_is_sound_witness :
  exists exaltData,
    exaltationOf (Samples.worldWithExaltations [Samples.exalted 5 5]) "Alice"
    = Some exaltData /\
    exaltationsSatisfied (Samples.exaltPolicy Samples.attDef5 true) exaltData.
Proof.
  apply (proj1 (proj2 (proj2 (proj2 (proj2 (proj2 (proj2
           (pass_is_sound (Samples.memberOf Samples.staffedGuild)
              (Samples.exaltSection Samples.attDef5 true) (Samples.alice [])
              (Samples.worldWithExaltations [Samples.exalted 5 5]) eq_refl)))))))).
  reflexivity.
Defined.

(** ** Counting in the cascading match *)

Section Counting.

Lemma positiveAt_nth (l : list Z) (j : Z) :
  JS.positiveAt l j = true ->
  exists v, 0 <= j /\ nth_error l (Z.to_nat j) = Some v /\ 0 < v.
Proof.
  unfold JS.positiveAt, JS.get. destruct (Z.ltb_spec j 0); [discriminate|].
  destruct (nth_error l (Z.to_nat j)) as [v|]; [|discriminate].
  intro Hv. exists v. repeat split; [lia|now apply Z.ltb_lt].
Qed.

Lemma subAtNat_facts (l : list Z) (i : nat) (v : Z) :
  nth_error l i = Some v -> 0 < v ->
  sumZ (JS.subAtNat l i 1) = sumZ l - 1 /\
  Forall2 Z.le (JS.subAtNat l i 1) l /\
  (Forall (fun x => 0 <= x) l -> Forall (fun x => 0 <= x) (JS.subAtNat l i 1)).
Proof.
  revert i. induction l as [|x r IH]; intros i Hn Hv.
  - destruct i; discriminate.
  - destruct i as [|i]; cbn in Hn.
    + inversion Hn; subst. cbn. repeat split.
      * lia.
      * constructor; [lia|]. clear. induction r; constructor; [lia|assumption].
      * intro H. inversion H; subst. constructor; [lia|assumption].
    + destruct (IH i Hn Hv) as (Hs & Hle & Hnn). cbn. repeat split.
      * unfold sumZ in *. lia.
      * constructor; [lia|assumption].
      * intro H. inversion H; subst. constructor; [assumption|now apply Hnn].
Qed.

Lemma scanDown_cases (l : list Z) (k : nat) (a : Z) :
  (scanDown l k a = l /\ forall j, (j < k)%nat -> JS.positiveAt l (Z.of_nat j) = false) \/
  (exists j, (j < k)%nat /\ JS.positiveAt l (Z.of_nat j) = true /\
             scanDown l k a = JS.subAt l (Z.of_nat j) a).
Proof.
  induction k as [|k IH]; cbn [scanDown].
  - left. split; [reflexivity|]. intros j Hj. lia.
  - destruct (JS.positiveAt l (Z.of_nat k)) eqn:Hk.
    + right. exists k. repeat split; [lia|assumption].
    + destruct IH as [[He Hnone] | (j & Hj & Hp & He)].
      * left. split; [assumption|]. intros j Hj.
        destruct (Nat.eq_dec j k) as [->|]; [assumption|apply Hnone; lia].
      * right. exists j. repeat split; [lia|assumption|assumption].
Qed.

(** A step leaves the needs alone, when tier [T] and all tiers below need
    nothing, or takes one from a tier at or below [T] that needs some. *)
Lemma cascade_cases (l : list Z) (T a : Z) :
  (cascade l T a = l /\ forall j, 0 <= j <= T -> JS.positiveAt l j = false) \/
  (exists j, 0 <= j <= T /\ JS.positiveAt l j = true /\ cascade l T a = JS.subAt l j a).
Proof.
  unfold cascade. destruct (JS.positiveAt l T) eqn:HT.
  - right. exists T. destruct (positiveAt_nth _ _ HT) as (v & H0 & _).
    repeat split; [assumption|lia|assumption].
  - destruct (scanDown_cases l (Z.to_nat T) a) as [[He Hnone] | (j & Hj & Hp & He)].
    + left. split; [assumption|]. intros j Hj.
      destruct (Z.eq_dec j T) as [->|]; [assumption|].
      rewrite <- (Z2Nat.id j) by lia. apply Hnone. lia.
    + right. exists (Z.of_nat j). repeat split; [lia|lia|assumption|assumption].
Qed.

Lemma cascade_one_facts (l : list Z) (T : Z) :
  Forall (fun x => 0 <= x) l ->
  Forall (fun x => 0 <= x) (cascade l T 1) /\
  Forall2 Z.le (cascade l T 1) l /\
  sumZ l - 1 <= sumZ (cascade l T 1) <= sumZ l.
Proof.
  intro Hnn.
  assert (Hrefl : Forall2 Z.le l l) by (clear; induction l; constructor; [lia|assumption]).
  destruct (cascade_cases l T 1) as [[-> _] | (j & Hj & Hp & ->)].
  - repeat split; try assumption; lia.
  - destruct (positiveAt_nth _ _ Hp) as (v & H0 & Hn & Hv).
    unfold JS.subAt. destruct (Z.ltb_spec j 0); [lia|].
    destruct (subAtNat_facts l (Z.to_nat j) v Hn Hv) as (Hs & Hle & Hk).
    repeat split; [now apply Hk|assumption|lia|lia].
Qed.

Lemma Forall2_le_trans (a b c : list Z) :
  Forall2 Z.le a b -> Forall2 Z.le b c -> Forall2 Z.le a c.
Proof.
  intro Hab. revert c. induction Hab; intros c Hc; inversion Hc; subst; constructor;
    [lia|auto].
Qed.

Lemma live_fold_facts (cs : list PAD.ICharacter) (l : list Z) :
  Forall (fun x => 0 <= x) l ->
  Forall (fun x => 0 <= x)
         (fold_left (fun n c => cascade n (PAD.statsMaxed c) 1) cs l) /\
  Forall2 Z.le (fold_left (fun n c => cascade n (PAD.statsMaxed c) 1) cs l) l /\
  sumZ l - Z.of_nat (List.length cs)
  <= sumZ (fold_left (fun n c => cascade n (PAD.statsMaxed c) 1) cs l).
Proof.
  revert l. induction cs as [|c cs IH]; intros l Hnn; cbn [fold_left List.length].
  - repeat split; [assumption| |lia].
    clear. induction l; constructor; [lia|assumption].
  - destruct (cascade_one_facts l (PAD.statsMaxed c) Hnn) as (Hnn' & Hle & Hs).
    destruct (IH _ Hnn') as (H1 & H2 & H3).
    repeat split; [assumption|now apply (Forall2_le_trans _ _ _ H2)|lia].
Qed.

Lemma positive_total (l : list Z) :
  Forall (fun x => 0 <= x) l -> 0 < sumZ l -> existsb (fun x => 0 <? x) l = true.
Proof.
  induction 1 as [|x r Hx Hr IH]; cbn; intro Hs; [lia|].
  destruct (Z.ltb_spec 0 x); [reflexivity|]. apply IH. unfold sumZ in *. lia.
Qed.

End Counting.

(** X7: the loop over the live characters never raises a need and never
    makes one negative, and [n] characters take at most [n] off the total of
    the needs. So when the needs add up to more than there are live
    characters, some tier is left with a positive need, which is what raises
    the stats issue. *)
Theorem live_characters_count needed chars :
  Forall (fun x => 0 <= x) needed ->
  Forall (fun x => 0 <= x) (liveCharacters needed chars) /\
  Forall2 Z.le (liveCharacters needed chars) needed /\
  sumZ needed - Z.of_nat (liveCount chars) <= sumZ (liveCharacters needed chars) /\
  (Z.of_nat (liveCount chars) < sumZ needed ->
   existsb (fun x => 0 <? x) (liveCharacters needed chars) = true).
Proof.
  intro Hnn. unfold liveCharacters, liveCount.
  destruct (live_fold_facts
              (List.filter (fun x => negb (PAD.statsMaxed x =? -1)) chars) needed Hnn)
    as (H1 & H2 & H3).
  repeat split; try assumption.
  intro Hlt. apply positive_total; [assumption|lia].
Qed.

Lemma live_characters_count_witness :
  existsb (fun x => 0 <? x)
          (liveCharacters [1; 0; 2] [Samples.character 2; Samples.character (-1);
                                     Samples.character 2]) = true.
Proof.
  assert (Hnn : Forall (fun x => 0 <= x) [1; 0; 2])
    by (repeat constructor; lia).
  apply (proj2 (proj2 (proj2 (live_characters_count [1; 0; 2]
           [Samples.character 2; Samples.character (-1); Samples.character 2] Hnn)))).
  cbn. lia.
Defined.

Section TopTier.

Lemma sumZ_nonneg (l : list Z) : Forall (fun x => 0 <= x) l -> 0 <= sumZ l.
Proof. induction 1; cbn; [lia|unfold sumZ in *; lia]. Qed.

Lemma nothing_needed (l : list Z) :
  Forall (fun x => 0 <= x) l -> sumZ l <= 0 -> Forall (fun v => v <= 0) l.
Proof.
  induction 1 as [|x r Hx Hr IH]; intro Hs; constructor.
  - pose proof (sumZ_nonneg r Hr). cbn in Hs. unfold sumZ in *. lia.
  - apply IH. pose proof (sumZ_nonneg r Hr). cbn in Hs. unfold sumZ in *. lia.
Qed.

Lemma some_tier_needed (l : list Z) :
  Forall (fun x => 0 <= x) l -> 0 < sumZ l ->
  exists j, (j < List.length l)%nat /\ JS.positiveAt l (Z.of_nat j) = true.
Proof.
  induction 1 as [|x r Hx Hr IH]; cbn; intro Hs; [lia|].
  destruct (Z.ltb_spec 0 x) as [Hpos|Hz].
  - exists 0%nat. split; [lia|]. unfold JS.positiveAt. cbn. now apply Z.ltb_lt.
  - destruct IH as (j & Hj & Hp); [unfold sumZ in *; lia|].
    exists (S j). split; [lia|].
    unfold JS.positiveAt in *. rewrite get_of_nat in *. exact Hp.
Qed.

(** A character of the top tier takes one off the total whenever anything
    is needed. *)
Lemma top_tier_takes_one (l : list Z) (T : Z) :
  Forall (fun x => 0 <= x) l -> 0 < sumZ l -> Z.of_nat (List.length l) - 1 <= T ->
  sumZ (cascade l T 1) = sumZ l - 1.
Proof.
  intros Hnn Hs HT.
  destruct (some_tier_needed l Hnn Hs) as (j0 & Hj0 & Hp0).
  destruct (cascade_cases l T 1) as [[_ Hnone] | (j & Hj & Hp & ->)].
  - rewrite Hnone in Hp0 by lia. discriminate.
  - destruct (positiveAt_nth _ _ Hp) as (v & H0 & Hn & Hv).
    unfold JS.subAt. destruct (Z.ltb_spec j 0); [lia|].
    now destruct (subAtNat_facts l (Z.to_nat j) v Hn Hv) as (-> & _).
Qed.

Lemma top_tier_fold (cs : list PAD.ICharacter) (l : list Z) :
  Forall (fun x => 0 <= x) l ->
  Forall (fun c => Z.of_nat (List.length l) - 1 <= PAD.statsMaxed c) cs ->
  sumZ l <= Z.of_nat (List.length cs) ->
  Forall (fun v => v <= 0) (fold_left (fun n c => cascade n (PAD.statsMaxed c) 1) cs l).
Proof.
  revert l. induction cs as [|c cs IH]; intros l Hnn Htop Hs; cbn [fold_left].
  - now apply nothing_needed.
  - inversion Htop as [|? ? Hc Hcs]; subst.
    destruct (cascade_one_facts l (PAD.statsMaxed c) Hnn) as (Hnn' & Hle & Hb).
    pose proof (Forall2_length Hle) as Hlen.
    apply IH; [assumption| |].
    + rewrite Hlen. assumption.
    + cbn [List.length] in Hs. destruct (Z_lt_le_dec 0 (sumZ l)) as [Hpos|Hz].
      * rewrite (top_tier_takes_one l (PAD.statsMaxed c) Hnn Hpos Hc). lia.
      * pose proof (sumZ_nonneg _ Hnn'). lia.
Qed.

End TopTier.

(** X8: characters of the top tier count for any tier. When every live
    character has a tier at or above the last tier of the needed array, and
    there are at least as many live characters as the needs add up to, no
    tier is left with a positive need. *)
Theorem top_tier_characters_suffice needed chars :
  Forall (fun x => 0 <= x) needed ->
  (forall c, In c chars -> PAD.statsMaxed c <> -1 ->
             Z.of_nat (List.length needed) - 1 <= PAD.statsMaxed c) ->
  sumZ needed <= Z.of_nat (liveCount chars) ->
  Forall (fun v => v <= 0) (liveCharacters needed chars) /\
  existsb (fun x => 0 <? x) (liveCharacters needed chars) = false.
Proof.
  intros Hnn Htop Hs.
  assert (H : Forall (fun v => v <= 0) (liveCharacters needed chars)).
  { unfold liveCharacters, liveCount in *. apply top_tier_fold; try assumption.
    apply Forall_forall. intros c Hc. apply filter_In in Hc. destruct Hc as [Hin Hf].
    apply Htop; [assumption|].
    destruct (Z.eqb_spec (PAD.statsMaxed c) (-1)); [discriminate|assumption]. }
  split; [assumption|].
  destruct (existsb _ _) eqn:He; [|reflexivity].
  apply existsb_exists in He. destruct He as (v & Hv & Hpos).
  rewrite Forall_forall in H. specialize (H v Hv). apply Z.ltb_lt in Hpos. lia.
Qed.

Lemma top_tier_characters_suffice_witness :
  existsb (fun x => 0 <? x)
          (liveCharacters [1; 0; 2] [Samples.character 8; Samples.character 2;
                                     Samples.character (-1); Samples.character 8])
  = false.
Proof.
  assert (Hnn : Forall (fun x => 0 <= x) [1; 0; 2]) by (repeat constructor; lia).
  apply (top_tier_characters_suffice [1; 0; 2]
           [Samples.character 8; Samples.character 2;
            Samples.character (-1); Samples.character 8] Hnn).
  - intros c [<-|[<-|[<-|[<-|[]]]]] Hne; cbn in *; lia.
  - cbn. lia.
Defined.

(** ** Exaltations: order and strictness *)

Section ExaltationOrder.

Lemma one_char_satisfied (minimum : NeededExalt) (entries : list PAD.IExaltationEntry) :
  notMetExaltations (onOneCharLoop minimum entries) = [] <->
  (exists e, In e entries /\ meetsEvery minimum e) \/ (forall s, minimum s <= 0).
Proof.
  rewrite notMet_nil.
  destruct (onOneCharLoop_cases minimum entries) as [[(e & Hin & Hp) Hz] | [Hnone Hs]].
  - split.
    + intros _. left. exists e. split; [assumption|]. now apply passed_meetsEvery.
    + intros _ s. rewrite Hz. lia.
  - split.
    + intro Hle. right. intro s. rewrite <- Hs. apply Hle.
    + intros [(e & Hin & Hm) | Hle].
      * apply passed_meetsEvery in Hm. specialize (Hnone e Hin). congruence.
      * intro s. rewrite Hs. apply Hle.
Qed.

Lemma summed_satisfied (minimum : NeededExalt) (entries : list PAD.IExaltationEntry) :
  notMetExaltations (fold_left subtractEntry entries minimum) = [] <->
  forall s, minimum s <= totalOf entries s.
Proof.
  rewrite notMet_nil.
  split; intros H s; specialize (H s); rewrite subtractAll_at in *; lia.
Qed.

Lemma totalOf_perm (a b : list PAD.IExaltationEntry) (s : Stat) :
  Permutation a b -> totalOf a s = totalOf b s.
Proof.
  induction 1; cbn; unfold totalOf in *; cbn; lia.
Qed.

Lemma totalOf_member (entries : list PAD.IExaltationEntry) (e : PAD.IExaltationEntry)
      (s : Stat) :
  (forall x l, In x entries -> 0 <= PAD.exaltationStats x l) ->
  In e entries ->
  PAD.exaltationStats e (fst (SHORT_STAT_TO_LONG s)) <= totalOf entries s.
Proof.
  induction entries as [|x r IH]; intros Hnn Hin; [destruct Hin|].
  cbn. fold (totalOf r s).
  assert (Hr : 0 <= totalOf r s).
  { clear IH Hin. induction r as [|y r IHr]; cbn; [lia|]. fold (totalOf r s).
    assert (0 <= PAD.exaltationStats y (fst (SHORT_STAT_TO_LONG s)))
      by (apply Hnn; right; now left).
    assert (0 <= totalOf r s).
    { apply IHr. intros z l [<-|Hz]; apply Hnn; [now left|right; now right]. }
    lia. }
  destruct Hin as [<-|Hin].
  - lia.
  - assert (0 <= PAD.exaltationStats x (fst (SHORT_STAT_TO_LONG s)))
      by (apply Hnn; now left).
    assert (PAD.exaltationStats e (fst (SHORT_STAT_TO_LONG s)) <= totalOf r s).
    { apply IH; [|assumption]. intros z l Hz. apply Hnn. now right. }
    lia.
Qed.

End ExaltationOrder.

(** X9: the order in which the profile lists its characters does not
    matter to the exaltation check: in either mode, the requirement is
    satisfied for a list of characters exactly when it is for any
    rearrangement of that list. *)
Theorem exaltations_ignore_order vr entries entries' :
  Permutation entries entries' ->
  (exaltationsSatisfied vr {| PAD.exaltations := entries |} <->
   exaltationsSatisfied vr {| PAD.exaltations := entries' |}).
Proof.
  intro Hperm. unfold exaltationsSatisfied, neededAfterExaltations. cbn [PAD.exaltations].
  change (fun d => exaltations_minimum vr d) with (exaltations_minimum vr).
  destruct (exaltations_onOneChar vr).
  - rewrite !one_char_satisfied. split.
    + intros [(e & Hin & Hm) | Hz]; [left; exists e; split; [|assumption]|now right].
      now apply (Permutation_in _ Hperm).
    + intros [(e & Hin & Hm) | Hz]; [left; exists e; split; [|assumption]|now right].
      now apply (Permutation_in _ (Permutation_sym Hperm)).
  - rewrite !summed_satisfied.
    split; intros H s; specialize (H s);
      rewrite (totalOf_perm _ _ s Hperm) in *; assumption.
Qed.

Lemma exaltations_ignore_order_witness :
  exaltationsSatisfied (Samples.exaltPolicy Samples.attDef5 true)
    {| PAD.exaltations := [Samples.exalted 5 5; Samples.exalted 0 1] |}.
Proof.
  apply (proj1 (exaltations_ignore_order (Samples.exaltPolicy Samples.attDef5 true)
                  [Samples.exalted 0 1; Samples.exalted 5 5]
                  [Samples.exalted 5 5; Samples.exalted 0 1]
                  (perm_swap _ _ []))).
  reflexivity.
Defined.

(** X10: the one-character mode is the stricter one. When no exaltation
    amount is negative, characters that satisfy the minimums in the
    one-character mode satisfy the same minimums in the summing mode. *)
Theorem one_character_mode_is_stricter vr1 vr2 exaltData :
  exaltations_onOneChar vr1 = true ->
  exaltations_onOneChar vr2 = false ->
  (forall s, exaltations_minimum vr2 s = exaltations_minimum vr1 s) ->
  (forall e l, In e (PAD.exaltations exaltData) -> 0 <= PAD.exaltationStats e l) ->
  exaltationsSatisfied vr1 exaltData ->
  exaltationsSatisfied vr2 exaltData.
Proof.
  intros H1 H2 Hmin Hnn. unfold exaltationsSatisfied, neededAfterExaltations.
  rewrite H1, H2.
  change (fun d => exaltations_minimum vr1 d) with (exaltations_minimum vr1).
  change (fun d => exaltations_minimum vr2 d) with (exaltations_minimum vr2).
  rewrite one_char_satisfied, summed_satisfied.
  assert (Htot : forall s, 0 <= totalOf (PAD.exaltations exaltData) s).
  { intro s. induction (PAD.exaltations exaltData) as [|x r IH]; cbn; [lia|].
    fold (totalOf r s).
    assert (0 <= PAD.exaltationStats x (fst (SHORT_STAT_TO_LONG s)))
      by (apply Hnn; now left).
    assert (0 <= totalOf r s) by (apply IH; intros e l He; apply Hnn; now right).
    lia. }
  intros [(e & Hin & Hm) | Hz] s; rewrite Hmin.
  - pose proof (totalOf_member _ e s Hnn Hin). specialize (Hm s). lia.
  - specialize (Hz s). specialize (Htot s). lia.
Qed.

Lemma one_character_mode_is_stricter_witness :
  exaltationsSatisfied (Samples.exaltPolicy Samples.attDef5 false)
    {| PAD.exaltations := [Samples.exalted 0 1; Samples.exalted 5 5] |}.
Proof.
  apply (one_character_mode_is_stricter
           (Samples.exaltPolicy Samples.attDef5 true)
           (Samples.exaltPolicy Samples.attDef5 false)
           {| PAD.exaltations := [Samples.exalted 0 1; Samples.exalted 5 5] |});
    try reflexivity.
  intros e l [<-|[<-|[]]]; destruct l; cbn; lia.
Defined.

(** ** Completions in the graveyard history *)

Section GraveyardHistory.




End GraveyardHistory.



(** ** Logged completions *)

Section Collections.

Lemma optEqb_spec (a b : option string) : reflect (a = b) (LoggerManager.optEqb a b).
Proof.
  destruct a as [x|], b as [y|]; cbn; try (constructor; congruence).
  destruct (String.eqb_spec x y); constructor; congruence.
Qed.

Lemma set_keys {V} (c : Collection.t (K := option string) (V := V))
      (k : option string) (v : V) :
  NoDup (map fst c) -> NoDup (map fst (Collection.set LoggerManager.optEqb c k v)) /\
  (forall k', In k' (map fst (Collection.set LoggerManager.optEqb c k v)) <->
              k' = k \/ In k' (map fst c)).
Proof.
  induction c as [|[k0 v0] r IH]; intro Hnd; cbn.
  - split; [repeat constructor; intros []|]. intro k'. intuition congruence.
  - inversion Hnd as [|? ? Hnotin Hr]; subst.
    destruct (optEqb_spec k0 k) as [->|Hne]; cbn.
    + split; [assumption|]. intro k'. cbn. intuition congruence.
    + destruct (IH Hr) as [Hnd' Hin']. split.
      * constructor; [|assumption]. intro Hin. apply Hin' in Hin.
        destruct Hin as [->|Hin]; [congruence|contradiction].
      * intro k'. cbn. rewrite Hin'. intuition congruence.
Qed.

(** The logged completions have one entry for a dungeon id. *)
Lemma getCompletedDungeons_keys (doc : IUserInfo) (guildId : string) :
  NoDup (map fst (LoggerManager.getCompletedDungeons doc guildId)).
Proof.
  unfold LoggerManager.getCompletedDungeons.
  generalize (List.filter
                (fun x => (JS.startsWith (key x) ("R:" ++ guildId)
                           && JS.endsWith (key x) "1")%bool) (loggedInfo doc)).
  intro data.
  assert (Hgen : forall c : Collection.t (K := option string) (V := Z),
             NoDup (map fst c) ->
             NoDup (map fst
                      (fold_left
                         (fun res dgn =>
                            Collection.set LoggerManager.optEqb res
                              (nth_error (JS.split (key dgn) ":"%char) 2) (value dgn))
                         data c))).
  { induction data as [|d data IH]; intros c Hc; cbn [fold_left]; [assumption|].
    apply IH. now apply set_keys. }
  apply Hgen. constructor.
Qed.

Lemma get_delete (c : Collection.t (K := string) (V := Z)) (k k' : string) :
  k <> k' ->
  Collection.get String.eqb (Collection.delete String.eqb c k) k'
  = Collection.get String.eqb c k'.
Proof.
  intro Hne. unfold Collection.get, Collection.delete.
  induction c as [|[k0 v0] r IH]; cbn; [reflexivity|].
  destruct (String.eqb_spec k0 k) as [->|Hk]; cbn.
  - destruct (String.eqb_spec k k'); [contradiction|]. exact IH.
  - destruct (String.eqb_spec k0 k'); [reflexivity|exact IH].
Qed.

End Collections.

Section BotLoop.
Variables (info : string -> option string)
          (needed0 : Collection.t (K := string) (V := Z)).

(** Deleting a fulfilled need never changes what a later entry is compared
    with, for the logged ids are distinct. *)
Lemma botLoop_allPassed (logged : list (option string * Z)) :
  NoDup (map fst logged) ->
  forall cn allPassed issues,
    (forall dgnId, In (Some dgnId) (map fst logged) ->
                   Collection.get String.eqb cn dgnId
                   = Collection.get String.eqb needed0 dgnId) ->
    snd (fst (fold_left (botStep info) logged (cn, allPassed, issues)))
    = (allPassed && negb (existsb (shortAtStart info needed0) logged))%bool.
Proof.
  induction logged as [|[k amt] logged IH]; intros Hnd cn allPassed issues Hinv.
  - cbn. now rewrite andb_true_r.
  - inversion Hnd as [|? ? Hnotin Hrest]; subst. cbn [fold_left existsb].
    assert (Hkeep : forall dgnId, In (Some dgnId) (map fst logged) ->
                                  Collection.get String.eqb cn dgnId
                                  = Collection.get String.eqb needed0 dgnId).
    { intros d Hd. apply Hinv. now right. }
    unfold botStep at 2, shortAtStart at 1. cbn [fst snd].
    destruct k as [dgnId|]; [|rewrite (IH Hrest _ _ _ Hkeep); reflexivity].
    destruct (info dgnId) as [dungeonName|];
      [|rewrite (IH Hrest _ _ _ Hkeep); reflexivity].
    rewrite <- (Hinv dgnId) by now left.
    destruct (Collection.get String.eqb cn dgnId) as [needed|];
      [|rewrite (IH Hrest _ _ _ Hkeep); reflexivity].
    destruct (needed - amt <=? 0).
    + rewrite (IH Hrest); [reflexivity|].
      intros d Hd. rewrite get_delete; [now apply Hkeep|].
      intros ->. contradiction.
    + rewrite (IH Hrest _ _ _ Hkeep). cbn. now rewrite andb_false_r.
Qed.

End BotLoop.

Lemma shortAtStart_loggedShort vr w entry :
  shortAtStart (dungeonInfoOf w) (completionsNeeded vr) entry = true <->
  loggedShort vr w entry.
Proof.
  unfold shortAtStart, loggedShort. split.
  - destruct (fst entry) as [dgnId|]; [|discriminate].
    destruct (dungeonInfoOf w dgnId) as [dungeonName|] eqn:Hi; [|discriminate].
    destruct (Collection.get String.eqb (completionsNeeded vr) dgnId) as [needed|] eqn:Hg;
      [|discriminate].
    intro H. exists dgnId, dungeonName, needed. repeat split; try assumption.
    destruct (Z.leb_spec (needed - snd entry) 0); [discriminate|lia].
  - intros (dgnId & dungeonName & needed & -> & -> & -> & Hlt).
    destruct (Z.leb_spec (needed - snd entry) 0); [lia|reflexivity].
Qed.

(** X12: in the logged-completions mode the check raises its manual issue
    exactly when some logged entry falls short: an entry of a known dungeon
    of which the policy needs more completions than the entry holds. What was
    never logged is never held against the member: without a user document,
    or without an entry for a needed dungeon, nothing is raised for it. The
    check raises no try-again issue. *)
Theorem logged_completions_check vr member resp r w t :
  (manualIssues (fst (checkBotCompletions vr member resp r w t)) = manualIssues r <->
   forall entry, In entry (loggedCompletions member resp w) -> ~ loggedShort vr w entry) /\
  (userDocOf w (PAD.name resp) = [] ->
   manualIssues (fst (checkBotCompletions vr member resp r w t)) = manualIssues r) /\
  taIssues (fst (checkBotCompletions vr member resp r w t)) = taIssues r.
Proof.
  assert (Hnd : NoDup (map fst (loggedCompletions member resp w))).
  { unfold loggedCompletions. destruct (userDocOf w (PAD.name resp)); [constructor|].
    apply getCompletedDungeons_keys. }
  pose proof (botLoop_allPassed (dungeonInfoOf w) (completionsNeeded vr)
                (loggedCompletions member resp w) Hnd (completionsNeeded vr) true []
                (fun _ _ => eq_refl)) as Hloop.
  assert (Hres : exists issues,
             fst (checkBotCompletions vr member resp r w t)
             = if negb (existsb (shortAtStart (dungeonInfoOf w) (completionsNeeded vr))
                                (loggedCompletions member resp w))
               then r
               else pushManual r
                      (mkIssue "Dungeon Completion Requirement Not Fulfilled"
                               (DungeonsMissing issues))).
  { unfold checkBotCompletions, bind, getUserDoc, await.
    fold (completionsNeeded vr). cbn [fst snd].
    fold (loggedCompletions member resp w).
    cbn [andb] in Hloop. rewrite <- Hloop.
    destruct (fold_left _ _ _) as [[c allPassed] issues]. cbn [fst snd].
    exists issues. now destruct allPassed. }
  destruct Hres as [issues Hres]. rewrite Hres.
  assert (Hex : existsb (shortAtStart (dungeonInfoOf w) (completionsNeeded vr))
                        (loggedCompletions member resp w) = false <->
                forall entry, In entry (loggedCompletions member resp w) ->
                              ~ loggedShort vr w entry).
  { split.
    - intros He entry Hin Hs. apply shortAtStart_loggedShort in Hs.
      assert (Ht : existsb (shortAtStart (dungeonInfoOf w) (completionsNeeded vr))
                           (loggedCompletions member resp w) = true)
        by (apply existsb_exists; now exists entry).
      congruence.
    - intro H. destruct (existsb _ _) eqn:He; [|reflexivity].
      apply existsb_exists in He. destruct He as (entry & Hin & Hs).
      apply shortAtStart_loggedShort in Hs. destruct (H entry Hin Hs). }
  split; [|split].
  - destruct (existsb _ _) eqn:He; cbn [negb].
    + split.
      * intro H. cbn in H. exfalso.
        apply (f_equal (@List.length Issue)) in H. rewrite length_app in H. cbn in H. lia.
      * intro H. apply Hex in H. discriminate.
    + split; [intros _; now apply Hex|reflexivity].
  - intro Hnone. unfold loggedCompletions. rewrite Hnone. reflexivity.
  - now destruct (negb _).
Qed.

Lemma logged_completions_check_witness :
  manualIssues (fst (checkBotCompletions
                       (Samples.requireCompletions true Samples.loggedTargets
                          Samples.nothingChecked)
                       (Samples.memberOf Samples.staffedGuild) (Samples.alice [])
                       (freshResult (Samples.alice [])) Samples.silentWorld [])) = [] /\
  ~ (forall entry,
        In entry (loggedCompletions (Samples.memberOf Samples.staffedGuild)
                    (Samples.alice []) Samples.loggedWorld) ->
        ~ loggedShort (Samples.requireCompletions true Samples.loggedTargets
                         Samples.nothingChecked) Samples.loggedWorld entry).
Proof.
  split.
  - apply (proj1 (proj2 (logged_completions_check
             (Samples.requireCompletions true Samples.loggedTargets Samples.nothingChecked)
             (Samples.memberOf Samples.staffedGuild) (Samples.alice [])
             (freshResult (Samples.alice [])) Samples.silentWorld []))).
    reflexivity.
  - intro H.
    apply (proj2 (proj1 (logged_completions_check
             (Samples.requireCompletions true Samples.loggedTargets Samples.nothingChecked)
             (Samples.memberOf Samples.staffedGuild) (Samples.alice [])
             (freshResult (Samples.alice [])) Samples.loggedWorld []))) in H.
    vm_compute in H. discriminate H.
Defined.

(** ** The logged counters *)
Section Strings.

Lemma prefix_app (p s : string) : String.prefix p (p ++ s) = true.
Proof.
  induction p as [|c p IH]; cbn; [now destruct s|].
  destruct (ascii_dec c c) as [_|Hne]; [exact IH|now destruct Hne].
Qed.

Lemma append_assoc (a b c : string) : (a ++ b) ++ c = a ++ (b ++ c).
Proof. induction a as [|x a IH]; cbn; [reflexivity|now rewrite IH]. Qed.

Lemma endsWith_refl (p : string) : JS.endsWith p p = true.
Proof. destruct p; cbn; [reflexivity|]. now rewrite Ascii.eqb_refl, String.eqb_refl. Qed.

Lemma endsWith_app (s p : string) : JS.endsWith (s ++ p) p = true.
Proof.
  induction s as [|c s IH]; [apply endsWith_refl|].
  cbn [append JS.endsWith]. rewrite IH. now destruct (String.eqb _ _).
Qed.

(** A string that ends in a character other than ["1"] does not end with
    ["1"]. *)
Lemma endsWith_other (s : string) (c : ascii) :
  c <> "1"%char -> JS.endsWith (s ++ String c "") "1" = false.
Proof.
  intro Hc. induction s as [|x s IH].
  - cbn. destruct (Ascii.eqb_spec c "1"); [contradiction|reflexivity].
  - cbn [append JS.endsWith]. rewrite IH.
    destruct (String.eqb_spec (String x (s ++ String c "")) "1") as [Heq|]; [|reflexivity].
    exfalso. injection Heq as _ Heq. destruct s; discriminate Heq.
Qed.

Lemma noColon_app (a b : string) :
  noColon (a ++ b) = (noColon a && noColon b)%bool.
Proof.
  induction a as [|c a IH]; cbn; [reflexivity|]. rewrite IH. now rewrite andb_assoc.
Qed.

Lemma splitAux_last (s acc : string) :
  noColon s = true -> JS.splitAux ":" s acc = [acc ++ s].
Proof.
  revert acc. induction s as [|c s IH]; intros acc H; cbn in *.
  - f_equal. clear. induction acc; cbn; congruence.
  - apply andb_prop in H. destruct H as [Hc Hs].
    destruct (Ascii.eqb c ":"); [discriminate|].
    rewrite (IH _ Hs). now rewrite append_assoc.
Qed.

Lemma splitAux_field (s r acc : string) :
  noColon s = true ->
  JS.splitAux ":" (s ++ String ":" r) acc = (acc ++ s) :: JS.splitAux ":" r "".
Proof.
  revert acc. induction s as [|c s IH]; intros acc H; cbn in *.
  - f_equal. clear. induction acc; cbn; congruence.
  - apply andb_prop in H. destruct H as [Hc Hs].
    destruct (Ascii.eqb c ":"); [discriminate|].
    rewrite (IH _ Hs). now rewrite append_assoc.
Qed.

(** The fields of the key of a run. *)
Lemma split_runKey (guildId dgnId : string) (completed : bool) :
  noColon guildId = true -> noColon dgnId = true ->
  JS.split (LoggerManager.runKey guildId dgnId completed) ":"
  = ["R"; guildId; dgnId; if completed then "1" else "0"].
Proof.
  intros Hg Hd. unfold JS.split, LoggerManager.runKey.
  change ("R:" ++ guildId ++ ":" ++ dgnId ++ ":" ++ (if completed then "1" else "0"))
    with ("R" ++ String ":" (guildId ++ String ":" (dgnId ++ String ":"
            (if completed then "1" else "0")))).
  rewrite splitAux_field by reflexivity.
  rewrite splitAux_field by assumption.
  rewrite splitAux_field by assumption.
  rewrite splitAux_last by now destruct completed.
  reflexivity.
Qed.

End Strings.

Section Counters.
Import LoggerManager.

Variables (memberId id : string) (amt : Z).

Lemma incFirst_keys (l : list (IPropertyKeyValuePair string Z)) :
  map key (incFirst id amt l) = map key l.
Proof.
  induction l as [|x r IH]; cbn; [reflexivity|].
  destruct (String.eqb_spec (key x) id); cbn; congruence.
Qed.

Lemma existsb_key (l : list (IPropertyKeyValuePair string Z)) :
  existsb (fun x => (key x =? id)%string) l = true <-> In id (map key l).
Proof.
  rewrite existsb_exists, in_map_iff.
  split; intros (x & H1 & H2); exists x.
  - apply String.eqb_eq in H2. tauto.
  - rewrite H1, String.eqb_refl. tauto.
Qed.

(** The update keeps the keys of a document apart. *)
Lemma update_keys (doc : IUserInfo) :
  NoDup (map key (loggedInfo doc)) ->
  NoDup (map key (loggedInfo (internalUpdateLoggedInfo memberId id amt doc))).
Proof.
  intro Hnd. unfold internalUpdateLoggedInfo.
  destruct (negb _); [assumption|].
  destruct (existsb _ _) eqn:He; cbn [loggedInfo].
  - now rewrite incFirst_keys.
  - rewrite map_app. cbn. apply NoDup_app; [assumption|repeat constructor; intros []|].
    intros k Hk [<-|[]]. apply existsb_key in Hk. congruence.
Qed.

(** The counter of [id] grows by [amt]; no other counter changes. *)
Lemma update_counter (doc : IUserInfo) (k : string) :
  discordId doc = memberId ->
  counter k (internalUpdateLoggedInfo memberId id amt doc)
  = counter k doc + (if (k =? id)%string then amt else 0).
Proof.
  intro Hm. unfold internalUpdateLoggedInfo, counter, JS.find.
  rewrite Hm, String.eqb_refl. cbn [negb].
  destruct (existsb _ _) eqn:He; cbn [loggedInfo].
  - induction (loggedInfo doc) as [|x r IH]; cbn in *; [discriminate|].
    destruct (String.eqb_spec (key x) id) as [Hx|Hx]; cbn.
    + rewrite Hx. destruct (String.eqb_spec id k) as [<-|Hk].
      * now rewrite String.eqb_refl.
      * destruct (String.eqb_spec k id); [congruence|]. lia.
    + destruct (String.eqb_spec (key x) k) as [Hxk|Hxk].
      * destruct (String.eqb_spec k id); [congruence|]. lia.
      * now apply IH.
  - induction (loggedInfo doc) as [|x r IH]; cbn in *.
    + rewrite String.eqb_sym. destruct (k =? id)%string; reflexivity.
    + apply orb_false_elim in He. destruct He as [Hx Hr].
      destruct (String.eqb_spec (key x) k) as [Hxk|Hxk].
      * subst k. rewrite Hx. lia.
      * now apply IH.
Qed.

(** A document of another Discord id is left as it is. *)
Lemma update_other_member (doc : IUserInfo) :
  discordId doc <> memberId -> internalUpdateLoggedInfo memberId id amt doc = doc.
Proof.
  intro Hm. unfold internalUpdateLoggedInfo.
  now destruct (String.eqb_spec (discordId doc) memberId).
Qed.

Lemma update_discordId (doc : IUserInfo) :
  discordId (internalUpdateLoggedInfo memberId id amt doc) = discordId doc.
Proof. unfold internalUpdateLoggedInfo. now repeat destruct (_ : bool). Qed.

(** What a test of the keys selects is not changed when it does not select
    [id]. *)
Lemma update_filter (q : string -> bool) (doc : IUserInfo) :
  q id = false ->
  List.filter (fun x => q (key x)) (loggedInfo (internalUpdateLoggedInfo memberId id amt doc))
  = List.filter (fun x => q (key x)) (loggedInfo doc).
Proof.
  intro Hq. unfold internalUpdateLoggedInfo.
  destruct (negb _); [reflexivity|].
  destruct (existsb _ _); cbn [loggedInfo].
  - induction (loggedInfo doc) as [|x r IH]; cbn; [reflexivity|].
    destruct (String.eqb_spec (key x) id) as [Hx|Hx]; cbn.
    + now rewrite Hx, Hq.
    + now rewrite IH.
  - rewrite filter_app. cbn. rewrite Hq. apply app_nil_r.
Qed.

(** The entries after the update: each has the key [id] or was there
    before, and one of them has the key [id]. *)
Lemma update_entries (doc : IUserInfo) :
  discordId doc = memberId ->
  (forall x, In x (loggedInfo (internalUpdateLoggedInfo memberId id amt doc)) ->
             key x = id \/ In x (loggedInfo doc)) /\
  In id (map key (loggedInfo (internalUpdateLoggedInfo memberId id amt doc))).
Proof.
  intro Hm. unfold internalUpdateLoggedInfo.
  rewrite Hm, String.eqb_refl. cbn [negb].
  destruct (existsb _ _) eqn:He; cbn [loggedInfo].
  - split; [|rewrite incFirst_keys; now apply existsb_key].
    clear He. induction (loggedInfo doc) as [|y r IH]; cbn; [tauto|].
    intros x. destruct (String.eqb_spec (key y) id) as [Hy|Hy]; cbn.
    + intros [<-|Hin]; cbn; tauto.
    + intros [<-|Hin]; [tauto|]. destruct (IH x Hin); tauto.
  - split.
    + intros x Hin. apply in_app_or in Hin. destruct Hin as [Hin|[<-|[]]]; cbn; tauto.
    + rewrite map_app. apply in_or_app. right. now left.
Qed.

End Counters.

(** With keys kept apart, the counter of an entry's key is the entry's
    value. *)
Lemma counter_of_entry (doc : IUserInfo) (x : IPropertyKeyValuePair string Z) :
  NoDup (map key (loggedInfo doc)) -> In x (loggedInfo doc) ->
  counter (key x) doc = value x.
Proof.
  unfold counter, JS.find. induction (loggedInfo doc) as [|y r IH]; cbn; [tauto|].
  intros Hnd Hin. inversion Hnd as [|? ? Hnotin Hr]; subst.
  destruct (String.eqb_spec (key y) (key x)) as [Hy|Hy].
  - destruct Hin as [->|Hin]; [reflexivity|].
    exfalso. apply Hnotin. rewrite Hy. now apply in_map.
  - destruct Hin as [->|Hin]; [congruence|]. now apply IH.
Qed.

Section Completed.
Import LoggerManager.

Lemma get_set (c : Collection.t (K := option string) (V := Z)) (k k' : option string)
      (v : Z) :
  Collection.get optEqb (Collection.set optEqb c k v) k'
  = if optEqb k k' then Some v else Collection.get optEqb c k'.
Proof.
  unfold Collection.get. induction c as [|[k0 v0] r IH]; cbn.
  - now destruct (optEqb k k').
  - destruct (optEqb_spec k0 k) as [->|Hne]; cbn.
    + now destruct (optEqb k k').
    + destruct (optEqb_spec k0 k') as [->|Hne'].
      * destruct (optEqb_spec k k'); [congruence|reflexivity].
      * exact IH.
Qed.

Lemma find_snoc {A} (p : A -> bool) (l : list A) (x : A) :
  List.find p (l ++ [x])
  = match List.find p l with
    | Some y => Some y
    | None => if p x then Some x else None
    end.
Proof. induction l as [|y l IH]; cbn; [reflexivity|]. now destruct (p y). Qed.

Lemma find_filter {A} (p q : A -> bool) (l : list A) :
  List.find p (List.filter q l) = List.find (fun x => q x && p x)%bool l.
Proof.
  induction l as [|y l IH]; cbn; [reflexivity|].
  destruct (q y); cbn; [|exact IH]. now destruct (p y).
Qed.

Lemma get_fold_set (data : list (IPropertyKeyValuePair string Z))
      (c : Collection.t (K := option string) (V := Z)) (k : option string) :
  Collection.get optEqb
    (fold_left (fun res dgn =>
                  Collection.set optEqb res (nth_error (JS.split (key dgn) ":"%char) 2)
                                 (value dgn)) data c) k
  = match List.find (fun x => optEqb (nth_error (JS.split (key x) ":"%char) 2) k)
                    (rev data) with
    | Some x => Some (value x)
    | None => Collection.get optEqb c k
    end.
Proof.
  revert c. induction data as [|d data IH]; intro c; cbn [fold_left rev]; [reflexivity|].
  rewrite IH, find_snoc, get_set.
  destruct (List.find _ (rev data)); [reflexivity|].
  now destruct (optEqb _ k).
Qed.

Lemma completed_last (doc : IUserInfo) (guildId : string) (k : option string) :
  Collection.get optEqb (getCompletedDungeons doc guildId) k
  = option_map value
      (List.find (fun x => completionKey guildId k (key x)) (rev (loggedInfo doc))).
Proof.
  unfold getCompletedDungeons. rewrite get_fold_set, <- filter_rev, find_filter.
  unfold completionKey.
  destruct (List.find _ _); reflexivity.
Qed.

End Completed.

(** X13: the completions that [getCompletedDungeons] gives for a dungeon id
    are the value of the last logged entry whose key starts with [R:] and the
    guild id, ends with [1] and has the dungeon id as its third field; there
    are none without such an entry. *)
Theorem completed_dungeons_last_entry (doc : IUserInfo) (guildId : string)
        (dgnId : option string) :
  Collection.get LoggerManager.optEqb (LoggerManager.getCompletedDungeons doc guildId) dgnId
  = option_map value
      (List.find (fun x => completionKey guildId dgnId (key x)) (rev (loggedInfo doc))).
Proof. apply completed_last. Qed.

Section Runs.
Import LoggerManager.

Lemma runKey_shape (guildId dgnId : string) (completed : bool) :
  runKey guildId dgnId completed
  = ("R:" ++ guildId ++ ":" ++ dgnId ++ ":") ++ (if completed then "1" else "0").
Proof. unfold runKey. now rewrite !append_assoc. Qed.

Lemma runKey_completion (g s d : string) :
  noColon (g ++ s) = true -> noColon d = true ->
  forall k, completionKey g k (runKey (g ++ s) d true) = optEqb (Some d) k.
Proof.
  intros Hg Hd k. unfold completionKey.
  rewrite split_runKey by assumption. cbn [nth_error].
  rewrite runKey_shape at 2. rewrite endsWith_app.
  unfold runKey, JS.startsWith.
  replace ("R:" ++ (g ++ s) ++ ":" ++ d ++ ":" ++ "1")
    with (("R:" ++ g) ++ (s ++ ":" ++ d ++ ":" ++ "1"))
    by now rewrite !append_assoc.
  now rewrite prefix_app.
Qed.

Lemma find_hd_filter {A} (p : A -> bool) (l : list A) :
  List.find p l = hd_error (List.filter p l).
Proof. induction l as [|x l IH]; cbn; [reflexivity|]. now destruct (p x). Qed.

(** An update under a key that is no completion for the guild does not
    change the completed dungeons. *)
Lemma completed_frame (memberId id : string) (amt : Z) (doc : IUserInfo)
      (guildId : string) :
  (JS.startsWith id ("R:" ++ guildId) && JS.endsWith id "1")%bool = false ->
  getCompletedDungeons (internalUpdateLoggedInfo memberId id amt doc) guildId
  = getCompletedDungeons doc guildId.
Proof.
  intro Hq. unfold getCompletedDungeons.
  now rewrite (update_filter memberId id amt
                 (fun k => JS.startsWith k ("R:" ++ guildId) && JS.endsWith k "1")%bool
                 doc Hq).
Qed.

Lemma startsWith_other_letter (c : ascii) (r guildId : string) :
  c <> "R"%char -> JS.startsWith (String c r) ("R:" ++ guildId) = false.
Proof.
  intro Hc. unfold JS.startsWith.
  change ("R:" ++ guildId) with (String "R" (String ":" guildId)).
  cbn -[ascii_dec].
  destruct (ascii_dec "R" c) as [Heq|_]; [now destruct Hc|reflexivity].
Qed.

Lemma completed_after_run (memberId g s d : string) (amt : Z) (doc : IUserInfo) :
  discordId doc = memberId ->
  noColon (g ++ s) = true -> noColon d = true ->
  NoDup (map key (loggedInfo doc)) ->
  (forall x, In x (loggedInfo doc) -> completionKey g (Some d) (key x) = true ->
             key x = runKey (g ++ s) d true) ->
  let doc' := internalUpdateLoggedInfo memberId (runKey (g ++ s) d true) amt doc in
  Collection.get optEqb (getCompletedDungeons doc' g) (Some d)
  = Some (counter (runKey (g ++ s) d true) doc + amt) /\
  forall k, k <> Some d ->
            Collection.get optEqb (getCompletedDungeons doc' g) k
            = Collection.get optEqb (getCompletedDungeons doc g) k.
Proof.
  intros Hm Hg Hd Hnd Hyg doc'. subst doc'.
  set (id := runKey (g ++ s) d true) in *.
  destruct (update_entries memberId id amt doc Hm) as [Hin Hid].
  pose proof (update_keys memberId id amt doc Hnd) as Hnd'.
  pose proof (update_counter memberId id amt doc id Hm) as Hc.
  rewrite String.eqb_refl in Hc.
  split.
  - rewrite completed_last.
    destruct (List.find _ _) as [x|] eqn:Hf; cbn [option_map].
    + apply find_some in Hf. destruct Hf as [Hx Hp]. apply in_rev in Hx.
      assert (Hk : key x = id).
      { destruct (Hin x Hx) as [Hk|Hold]; [exact Hk|]. now apply Hyg. }
      rewrite <- (counter_of_entry _ x Hnd' Hx), Hk. now rewrite Hc.
    + exfalso. apply in_map_iff in Hid. destruct Hid as (x & Hk & Hx).
      apply in_rev in Hx. apply (find_none _ _ Hf) in Hx. cbn beta in Hx.
      rewrite Hk in Hx. unfold id in Hx. rewrite runKey_completion in Hx by assumption.
      cbn in Hx. now rewrite String.eqb_refl in Hx.
  - intros k Hk. rewrite !completed_last, !find_hd_filter, !filter_rev.
    rewrite (update_filter memberId id amt (completionKey g k) doc); [reflexivity|].
    unfold id. rewrite runKey_completion by assumption.
    destruct (optEqb_spec (Some d) k); [congruence|reflexivity].
Qed.

End Runs.

(** X14: a completed run that is logged for a member is read back by
    [getCompletedDungeons]: the completions of the dungeon are its counter
    with the amount added, and the completions of no other dungeon change.
    This holds for ids without a colon, a document that has one entry for a
    key, and no other logged key that reads as a completion of this dungeon
    for the reading guild. The reading guild may be the guild of the run or
    any guild whose id the id of the guild of the run starts with: the key is
    tested with [startsWith] on [R:] and the guild id, with no separator
    after it. *)
Theorem completed_run_is_read_back
        (isCustomDungeon : string -> bool) (customDungeons : list string)
        (memberId g s dungeonId d : string) (amt : Z) (doc : IUserInfo) :
  discordId doc = memberId ->
  LoggerManager.getDungeonIdToLog isCustomDungeon customDungeons dungeonId = Some d ->
  d <> "" ->
  noColon (g ++ s) = true -> noColon d = true ->
  NoDup (map key (loggedInfo doc)) ->
  (forall x, In x (loggedInfo doc) -> completionKey g (Some d) (key x) = true ->
             key x = LoggerManager.runKey (g ++ s) d true) ->
  Collection.get LoggerManager.optEqb
    (LoggerManager.getCompletedDungeons
       (LoggerManager.logDungeonRun isCustomDungeon customDungeons memberId (g ++ s)
                                    dungeonId true amt doc) g) (Some d)
  = Some (counter (LoggerManager.runKey (g ++ s) d true) doc + amt) /\
  forall k, k <> Some d ->
    Collection.get LoggerManager.optEqb
      (LoggerManager.getCompletedDungeons
         (LoggerManager.logDungeonRun isCustomDungeon customDungeons memberId (g ++ s)
                                      dungeonId true amt doc) g) k
    = Collection.get LoggerManager.optEqb (LoggerManager.getCompletedDungeons doc g) k.
Proof.
  intros Hm Hlog Hne Hg Hd Hnd Hyg. unfold LoggerManager.logDungeonRun. rewrite Hlog.
  destruct (String.eqb_spec d ""); [contradiction|].
  now apply completed_after_run.
Qed.

Lemma completed_run_is_read_back_witness :
  Collection.get LoggerManager.optEqb
    (LoggerManager.getCompletedDungeons
       (LoggerManager.logDungeonRun (fun _ => false) [] "7" ("12" ++ "") "SHATTERS" true 2
          {| discordId := "7";
             loggedInfo := [{| key := "R:12:SHATTERS:1"; value := 3 |}] |}) "12")
    (Some "SHATTERS") = Some 5 /\
  Collection.get LoggerManager.optEqb
    (LoggerManager.getCompletedDungeons
       (LoggerManager.logDungeonRun (fun _ => false) [] "7" ("12" ++ "3") "SHATTERS" true 2
          {| discordId := "7"; loggedInfo := [] |}) "12")
    (Some "SHATTERS") = Some 2.
Proof.
  split.
  - refine (proj1 (completed_run_is_read_back (fun _ => false) [] "7" "12" "" "SHATTERS"
                     "SHATTERS" 2
                     {| discordId := "7";
                        loggedInfo := [{| key := "R:12:SHATTERS:1"; value := 3 |}] |}
                     eq_refl eq_refl _ eq_refl eq_refl _ _)).
    + discriminate.
    + repeat constructor. intros [].
    + intros x [<-|[]] _. reflexivity.
  - refine (proj1 (completed_run_is_read_back (fun _ => false) [] "7" "12" "3" "SHATTERS"
                     "SHATTERS" 2 {| discordId := "7"; loggedInfo := [] |}
                     eq_refl eq_refl _ eq_refl eq_refl _ _)).
    + discriminate.
    + constructor.
    + intros x [].
Defined.

(** X15: only completed runs count as completions. Logging a failed run, a
    led raid of any result, points or a key use changes the completed
    dungeons of no guild; nor does a run of a custom dungeon that the guild
    does not have, which is not logged at all. *)
Theorem only_completed_runs_count
        (isCustomDungeon : string -> bool) (customDungeons : list string)
        (reactionPoints : list (IPropertyKeyValuePair string Z))
        (memberId guildId dungeonId keyId : string) (result : LoggerManager.RunResult)
        (points amt : Z) (doc : IUserInfo) (readBy : string) :
  LoggerManager.getCompletedDungeons
    (LoggerManager.logDungeonRun isCustomDungeon customDungeons memberId guildId
                                 dungeonId false amt doc) readBy
  = LoggerManager.getCompletedDungeons doc readBy /\
  LoggerManager.getCompletedDungeons
    (LoggerManager.logDungeonLead isCustomDungeon customDungeons memberId guildId
                                  dungeonId result amt doc) readBy
  = LoggerManager.getCompletedDungeons doc readBy /\
  LoggerManager.getCompletedDungeons
    (LoggerManager.logPoints memberId guildId points doc) readBy
  = LoggerManager.getCompletedDungeons doc readBy /\
  LoggerManager.getCompletedDungeons
    (LoggerManager.logKeyUse reactionPoints memberId guildId keyId amt doc) readBy
  = LoggerManager.getCompletedDungeons doc readBy /\
  (isCustomDungeon dungeonId = true -> ~ In dungeonId customDungeons ->
   forall completed,
     LoggerManager.logDungeonRun isCustomDungeon customDungeons memberId guildId
                                 dungeonId completed amt doc = doc).
Proof.
  assert (Hpts : forall p d,
             LoggerManager.getCompletedDungeons
               (LoggerManager.logPoints memberId guildId p d) readBy
             = LoggerManager.getCompletedDungeons d readBy).
  { intros p d. unfold LoggerManager.logPoints. apply completed_frame.
    change ("P:" ++ guildId) with (String "P" (String ":" guildId)).
    rewrite startsWith_other_letter by discriminate. reflexivity. }
  repeat split.
  - unfold LoggerManager.logDungeonRun.
    destruct (LoggerManager.getDungeonIdToLog _ _ _) as [d|]; [|reflexivity].
    destruct (d =? "")%string; [reflexivity|].
    apply completed_frame. rewrite runKey_shape, endsWith_other by discriminate.
    apply andb_false_r.
  - unfold LoggerManager.logDungeonLead.
    destruct (LoggerManager.getDungeonIdToLog _ _ _) as [d|]; [|reflexivity].
    destruct (d =? "")%string; [reflexivity|].
    apply completed_frame. unfold LoggerManager.leadKey.
    change ("L:" ++ guildId ++ ":" ++ d ++ ":" ++ LoggerManager.runResultText result)
      with (String "L" (String ":" (guildId ++ ":" ++ d ++ ":"
                                      ++ LoggerManager.runResultText result))).
    rewrite startsWith_other_letter by discriminate. reflexivity.
  - apply Hpts.
  - unfold LoggerManager.logKeyUse.
    assert (Hk : LoggerManager.getCompletedDungeons
                   (LoggerManager.internalUpdateLoggedInfo memberId
                      (LoggerManager.keyUseKey guildId keyId) amt doc) readBy
                 = LoggerManager.getCompletedDungeons doc readBy).
    { apply completed_frame. unfold LoggerManager.keyUseKey.
      destruct (existsb _ _).
      - change ("K:" ++ guildId ++ ":" ++ keyId ++ ":USE")
          with (String "K" (String ":" (guildId ++ ":" ++ keyId ++ ":USE"))).
        rewrite startsWith_other_letter by discriminate. reflexivity.
      - change ("K:" ++ guildId ++ ":GENERAL:USE")
          with (String "K" (String ":" (guildId ++ ":GENERAL:USE"))).
        rewrite startsWith_other_letter by discriminate. reflexivity. }
    destruct (JS.find _ _); [now rewrite Hpts|exact Hk].
  - intros Hcustom Hnot completed. unfold LoggerManager.logDungeonRun,
      LoggerManager.getDungeonIdToLog. rewrite Hcustom. cbn [negb].
    destruct (JS.find _ _) as [x|] eqn:Hf; [|reflexivity].
    apply find_some in Hf. destruct Hf as [Hin Heq].
    apply String.eqb_eq in Heq. subst x. contradiction.
Qed.

Lemma only_completed_runs_count_witness :
  LoggerManager.logDungeonRun (fun d => String.prefix "[[" d) ["[[MINE"] "7" "12"
                              "[[OTHER" true 1 {| discordId := "7"; loggedInfo := [] |}
  = {| discordId := "7"; loggedInfo := [] |}.
Proof.
  refine (proj2 (proj2 (proj2 (proj2
           (only_completed_runs_count (fun d => String.prefix "[[" d) ["[[MINE"] []
              "7" "12" "[[OTHER" "" LoggerManager.Complete 0 1
              {| discordId := "7"; loggedInfo := [] |} "12")))) eq_refl _ true).
  intros [H|[]]. discriminate H.
Defined.

(** X16: points are read back as they are logged. Logging points for a
    member adds them to the member's points in that guild, and to the points
    in no other guild; nothing is added to the document of another member.
    Without a document, or without an entry for the guild, the points
    are 0. *)
Theorem points_are_read_back (memberId guildId readBy : string) (points : Z)
        (doc : IUserInfo) :
  LoggerManager.getPoints readBy
    (Some (LoggerManager.logPoints memberId guildId points doc))
  = LoggerManager.getPoints readBy (Some doc)
    + (if ((discordId doc =? memberId) && (readBy =? guildId))%string%bool
       then points else 0) /\
  (~ In ("P:" ++ readBy) (map key (loggedInfo doc)) ->
   LoggerManager.getPoints readBy (Some doc) = 0).
Proof.
  split.
  - change (counter ("P:" ++ readBy) (LoggerManager.logPoints memberId guildId points doc)
            = counter ("P:" ++ readBy) doc
              + (if ((discordId doc =? memberId) && (readBy =? guildId))%string%bool
                 then points else 0)).
    unfold LoggerManager.logPoints.
    destruct (String.eqb_spec (discordId doc) memberId) as [Hm|Hm]; cbn [andb].
    + rewrite update_counter by assumption. reflexivity.
    + rewrite update_other_member by assumption. lia.
  - intro Hnot. unfold LoggerManager.getPoints, JS.find.
    destruct (List.find _ _) as [x|] eqn:Hf; [|reflexivity].
    apply find_some in Hf. destruct Hf as [Hin Hk]. apply String.eqb_eq in Hk.
    exfalso. apply Hnot. apply in_map_iff. exists x. split; [exact Hk|exact Hin].
Qed.

Lemma points_are_read_back_witness :
  LoggerManager.getPoints "12" (Some {| discordId := "7"; loggedInfo := [] |}) = 0.
Proof.
  refine (proj2 (points_are_read_back "7" "12" "12" 0
                   {| discordId := "7"; loggedInfo := [] |}) _).
  intros [].
Defined.

(** X17: a key use is counted and rewarded. For the member's own document,
    logging [amt] uses of a key adds [amt] to the counter of that key when it
    is one of the eight keys that have a counter of their own, and to the
    guild's general counter otherwise; the member's points in the guild grow
    by the points of the first reaction-points entry of the key times [amt],
    and do not change when the key has no such entry. *)
Theorem key_use_is_counted_and_rewarded
        (reactionPoints : list (IPropertyKeyValuePair string Z))
        (memberId guildId keyId : string) (amt : Z) (doc : IUserInfo) :
  discordId doc = memberId ->
  counter (if existsb (String.eqb keyId) LoggerManager.KEY_IDS_TO_STORE
           then "K:" ++ guildId ++ ":" ++ keyId ++ ":USE"
           else "K:" ++ guildId ++ ":GENERAL:USE")
          (LoggerManager.logKeyUse reactionPoints memberId guildId keyId amt doc)
  = counter (if existsb (String.eqb keyId) LoggerManager.KEY_IDS_TO_STORE
             then "K:" ++ guildId ++ ":" ++ keyId ++ ":USE"
             else "K:" ++ guildId ++ ":GENERAL:USE") doc + amt /\
  LoggerManager.getPoints guildId
    (Some (LoggerManager.logKeyUse reactionPoints memberId guildId keyId amt doc))
  = LoggerManager.getPoints guildId (Some doc)
    + match JS.find (fun x => (key x =? keyId)%string) reactionPoints with
      | Some ptsForReact => value ptsForReact * amt
      | None => 0
      end.
Proof.
  intro Hm. fold (LoggerManager.keyUseKey guildId keyId).
  assert (Hkp : (LoggerManager.keyUseKey guildId keyId =? "P:" ++ guildId)%string = false).
  { unfold LoggerManager.keyUseKey. now destruct (existsb _ _). }
  assert (Hpk : ("P:" ++ guildId =? LoggerManager.keyUseKey guildId keyId)%string = false)
    by now rewrite String.eqb_sym.
  change (LoggerManager.getPoints guildId) with
    (fun d : option IUserInfo =>
       match d with Some d => counter ("P:" ++ guildId) d | None => 0 end).
  cbn beta iota. unfold LoggerManager.logKeyUse, LoggerManager.logPoints.
  destruct (JS.find _ _) as [ptsForReact|].
  - rewrite !update_counter by (rewrite ?update_discordId; assumption).
    rewrite Hkp, Hpk, !String.eqb_refl. split; lia.
  - rewrite !update_counter by assumption.
    rewrite Hpk, String.eqb_refl. split; lia.
Qed.

Lemma key_use_is_counted_and_rewarded_witness :
  LoggerManager.getPoints "12"
    (Some (LoggerManager.logKeyUse [{| key := "NEST_KEY"; value := 5 |}] "7" "12"
             "NEST_KEY" 3 {| discordId := "7"; loggedInfo := [] |}))
  = 15.
Proof.
  exact (proj2 (key_use_is_counted_and_rewarded [{| key := "NEST_KEY"; value := 5 |}]
                  "7" "12" "NEST_KEY" 3 {| discordId := "7"; loggedInfo := [] |}
                  eq_refl)).
Defined.

(** ** The session as a whole *)
Section Session.

Variable s : MainSession.

Lemma retry_cases sw st issue log :
  collectorEnded st = false -> msgDeleted st = false ->
  (collectorEnded (retry sw st issue log) = true \/
   inAwaitProof (retry sw st issue log) = true) /\
  List.filter isGrant (effects (retry sw st issue log))
  = List.filter isGrant (effects st).
Proof.
  intros Hc Hd. unfold retry, inAwaitProof.
  destruct (dmDelivered sw); cbn; rewrite ?Hc, ?Hd.
  - split; [now right|]. now rewrite <- !app_assoc, filter_app, app_nil_r.
  - split; [now left|]. now rewrite <- !app_assoc, filter_app, app_nil_r.
Qed.

(** What a press of Check Profile does to a running session. *)
Lemma check_profile_cases sw st :
  collectorEnded st = false -> msgDeleted st = false ->
  (collectorEnded (collect sw s st CHECK_PROFILE_ID) = true \/
   inAwaitProof (collect sw s st CHECK_PROFILE_ID) = true) /\
  (List.filter isGrant (effects (collect sw s st CHECK_PROFILE_ID))
   = List.filter isGrant (effects st) \/
   List.filter isGrant (effects (collect sw s st CHECK_PROFILE_ID))
   = (List.filter isGrant (effects st)
      ++ [AddVerifiedRole (guildVerifiedRoleId (sGuildDoc s))])%list /\
   collectorEnded (collect sw s st CHECK_PROFILE_ID) = true /\
   exists requestData nameHistory,
     playerInfoOf sw (nameToVerify s) = Some requestData /\
     codeFound s requestData = true /\
     nameHistoryOf sw (nameToVerify s) = Some nameHistory /\
     blacklisted (sGuildDoc s) (namesToCheck s requestData nameHistory) = None /\
     conclusion (evaluate (sMember s) (OfSection (getMainSection (sGuildDoc s)))
                          requestData (evalWorld sw)) = PASS).
Proof.
  intros Hc Hd. unfold collect.
  destruct (playerInfoOf sw (nameToVerify s)) as [requestData|] eqn:Hp;
    [|cbn; split; [now left|left; now rewrite <- !app_assoc, filter_app, app_nil_r]].
  fold (codeFound s requestData).
  destruct (codeFound s requestData) eqn:Hcode; cbn [negb];
    [|destruct (retry_cases sw (edit st CheckingEmbed []) CodeNotFound "code not found"
                  Hc Hd) as [H1 H2]; split; [exact H1|left; exact H2]].
  destruct (nameHistoryOf sw (nameToVerify s)) as [nameHistory|] eqn:Hn;
    [|destruct (retry_cases sw (edit st CheckingEmbed []) NameHistoryUnavailable
                  "name history unreachable" Hc Hd) as [H1 H2];
      split; [exact H1|left; exact H2]].
  fold (namesToCheck s requestData nameHistory).
  destruct (blacklisted (sGuildDoc s) (namesToCheck s requestData nameHistory))
    as [blacklistEntry|] eqn:Hb;
    [cbn; split; [now left|left; now rewrite <- !app_assoc, filter_app, app_nil_r]|].
  fold (evaluate (sMember s) (OfSection (getMainSection (sGuildDoc s))) requestData
                 (evalWorld sw)).
  destruct (conclusion (evaluate (sMember s) (OfSection (getMainSection (sGuildDoc s)))
                                 requestData (evalWorld sw))) eqn:Hv.
  - cbn. split; [now left|right].
    split; [now rewrite <- !app_assoc, filter_app|].
    split; [reflexivity|].
    exists requestData, nameHistory. tauto.
  - destruct (retry_cases sw (edit st CheckingEmbed [])
                (RequirementIssues
                   (taIssues (evaluate (sMember s)
                                (OfSection (getMainSection (sGuildDoc s)))
                                requestData (evalWorld sw)))) "minor issues" Hc Hd)
      as [H1 H2]. split; [exact H1|left; exact H2].
  - cbn. split; [now left|left; now rewrite filter_app, app_nil_r].
  - cbn. split; [now left|left; now rewrite <- !app_assoc, filter_app, app_nil_r].
Qed.

Lemma collect_cancel sw st :
  collectorEnded (collect sw s st CANCEL_ID) = true /\
  List.filter isGrant (effects (collect sw s st CANCEL_ID))
  = List.filter isGrant (effects st).
Proof. cbn. split; [reflexivity|]. now rewrite filter_app, app_nil_r. Qed.

Lemma step_ended sw st ev :
  collectorEnded st = true -> step sw s st ev = st.
Proof.
  intro Hc. destruct ev as [customId|]; cbn.
  - unfold onInteraction. now rewrite Hc.
  - destruct st; cbn in *. now subst.
Qed.

Lemma wait_running st :
  inAwaitProof st = true -> collectorEnded st = false /\ msgDeleted st = false.
Proof.
  unfold inAwaitProof. intro H.
  apply andb_prop in H. destruct H as [H _]. apply andb_prop in H. destruct H as [H1 H2].
  now destruct (collectorEnded st), (msgDeleted st).
Qed.

End Session.

Lemma runSession_snoc s evs e :
  runSession s (evs ++ [e]) = step (fst e) s (runSession s evs) (snd e).
Proof. unfold runSession. now rewrite fold_left_app. Qed.

Lemma runSession_ended s evs more :
  collectorEnded (runSession s evs) = true ->
  runSession s (evs ++ more) = runSession s evs.
Proof.
  intro Hc. unfold runSession in *. rewrite fold_left_app.
  induction more as [|e more IH]; cbn [fold_left]; [reflexivity|].
  now rewrite step_ended.
Qed.

Lemma session_running_message s evs :
  collectorEnded (runSession s evs) = false -> msgDeleted (runSession s evs) = false.
Proof.
  intro Hc. induction evs as [|[sw ev] evs IH] using rev_ind; [reflexivity|].
  rewrite runSession_snoc in *. cbn [fst snd] in *.
  destruct (collectorEnded (runSession s evs)) eqn:Hc0.
  - rewrite step_ended in Hc by exact Hc0. rewrite Hc in Hc0. discriminate Hc0.
  - specialize (IH eq_refl).
    destruct ev as [customId|]; [|discriminate Hc].
    cbn [step] in *. unfold onInteraction in *. rewrite Hc0 in *.
    assert (Hw : inAwaitProof (collect sw s (runSession s evs) customId) = true).
    { destruct customId as [| |x].
      - now rewrite (proj1 (collect_cancel s sw _)) in Hc.
      - destruct (check_profile_cases s sw _ Hc0 IH) as [[H|H] _]; [congruence|exact H].
      - destruct (check_profile_cases s sw _ Hc0 IH) as [[H|H] _]; [|exact H].
        change (collect sw s (runSession s evs) (OtherId x))
          with (collect sw s (runSession s evs) CHECK_PROFILE_ID) in Hc.
        congruence. }
    now apply wait_running in Hw.
Qed.

(** X18: a main-section session, after any sequence of button presses and
    time-outs, each handled to its end before the next and each in a world
    of its own, is either over or back in the wait state with the message in
    place and both buttons offered. A cancel and a time-out always end it,
    and a session that is over ignores whatever follows: its message,
    buttons and effects stay as they are. *)
Theorem session_waits_or_is_over s evs :
  (collectorEnded (runSession s evs) = true \/ inAwaitProof (runSession s evs) = true) /\
  (forall sw, collectorEnded (runSession s (evs ++ [(sw, Collect CANCEL_ID)])) = true) /\
  (forall sw, collectorEnded (runSession s (evs ++ [(sw, TimeUp)])) = true) /\
  (collectorEnded (runSession s evs) = true ->
   forall more, runSession s (evs ++ more) = runSession s evs).
Proof.
  assert (Hinv : forall evs,
             collectorEnded (runSession s evs) = true \/
             inAwaitProof (runSession s evs) = true).
  { clear evs. induction evs as [|[sw ev] evs IH] using rev_ind; [now right|].
    rewrite runSession_snoc. cbn [fst snd].
    destruct IH as [Hc|Hw]; [left; now rewrite step_ended|].
    apply wait_running in Hw. destruct Hw as [Hc Hd].
    destruct ev as [customId|]; [|now left].
    cbn [step]. unfold onInteraction. rewrite Hc.
    destruct customId as [| |x].
    - left. apply collect_cancel.
    - apply (check_profile_cases s sw _ Hc Hd).
    - apply (check_profile_cases s sw _ Hc Hd). }
  split; [apply Hinv|]. split; [|split].
  - intro sw. rewrite runSession_snoc. cbn [fst snd step]. unfold onInteraction.
    destruct (collectorEnded (runSession s evs)) eqn:Hc; [exact Hc|].
    apply collect_cancel.
  - intro sw. rewrite runSession_snoc. reflexivity.
  - intros Hc more. now apply runSession_ended.
Qed.

(** X19: over a whole main-section session, its button presses handled
    one after the other, the verified role is given at most once, and only
    by a press of a button other than Cancel in whose world the profile was
    obtained, carried the proof code, had a name history, matched no
    blacklist entry under any of its names, and was evaluated to PASS; the
    role is the guild's verified role and the session is over once it is
    given. *)
Theorem role_given_once_and_only_on_pass s evs :
  List.filter isGrant (effects (runSession s evs)) = [] \/
  List.filter isGrant (effects (runSession s evs))
  = [AddVerifiedRole (guildVerifiedRoleId (sGuildDoc s))] /\
  collectorEnded (runSession s evs) = true /\
  exists sw customId requestData nameHistory,
    In (sw, Collect customId) evs /\ customId <> CANCEL_ID /\
    playerInfoOf sw (nameToVerify s) = Some requestData /\
    codeFound s requestData = true /\
    nameHistoryOf sw (nameToVerify s) = Some nameHistory /\
    blacklisted (sGuildDoc s) (namesToCheck s requestData nameHistory) = None /\
    conclusion (evaluate (sMember s) (OfSection (getMainSection (sGuildDoc s)))
                         requestData (evalWorld sw)) = PASS.
Proof.
  induction evs as [|[sw ev] evs IH] using rev_ind; [now left|].
  rewrite runSession_snoc. cbn [fst snd].
  destruct IH as [Hnone|(Hone & Hc & sw0 & c0 & rd & nh & Hin & Hrest)].
  - destruct (collectorEnded (runSession s evs)) eqn:Hc;
      [left; now rewrite step_ended|].
    destruct ev as [customId|]; [|left; exact Hnone].
    cbn [step]. unfold onInteraction. rewrite Hc.
    pose proof (session_running_message s evs Hc) as Hd.
    assert (Hcheck : forall c, c <> CANCEL_ID ->
               In (sw, Collect c) (evs ++ [(sw, Collect c)]) ->
               List.filter isGrant (effects (collect sw s (runSession s evs) CHECK_PROFILE_ID)) = [] \/
               List.filter isGrant (effects (collect sw s (runSession s evs) CHECK_PROFILE_ID))
               = [AddVerifiedRole (guildVerifiedRoleId (sGuildDoc s))] /\
               collectorEnded (collect sw s (runSession s evs) CHECK_PROFILE_ID) = true /\
               exists sw' customId requestData nameHistory,
                 In (sw', Collect customId) (evs ++ [(sw, Collect c)]) /\
                 customId <> CANCEL_ID /\
                 playerInfoOf sw' (nameToVerify s) = Some requestData /\
                 codeFound s requestData = true /\
                 nameHistoryOf sw' (nameToVerify s) = Some nameHistory /\
                 blacklisted (sGuildDoc s) (namesToCheck s requestData nameHistory) = None /\
                 conclusion (evaluate (sMember s) (OfSection (getMainSection (sGuildDoc s)))
                                      requestData (evalWorld sw')) = PASS).
    { intros c Hne Hin.
      destruct (check_profile_cases s sw _ Hc Hd)
        as [_ [Hsame|(Hadd & Hend & rd & nh & Hrest)]].
      - left. now rewrite Hsame.
      - right. rewrite Hadd, Hnone. split; [reflexivity|]. split; [exact Hend|].
        exists sw, c, rd, nh. tauto. }
    destruct customId as [| |x].
    + left. now rewrite (proj2 (collect_cancel s sw _)).
    + apply Hcheck; [discriminate|]. apply in_or_app. right. now left.
    + apply (Hcheck (OtherId x)); [discriminate|]. apply in_or_app. right. now left.
  - right. rewrite step_ended by exact Hc. split; [exact Hone|]. split; [exact Hc|].
    exists sw0, c0, rd, nh. split; [|exact Hrest]. apply in_or_app. now left.
Qed.

(** ** Verification in a section, and the manual-verification round *)

Lemma manual_verdict_channel member section resp w :
  conclusion (evaluate member section resp w) = MANUAL ->
  hasManualChannel member section = true.
Proof.
  unfold hasManualChannel.
  destruct (evaluate_cases member section resp w)
    as [(issue & _ & -> & _) | (r & _ & -> & _)]; [discriminate|].
  rewrite conclusion_conclude.
  destruct (GuildFgrUtilities.hasCachedChannel _ _); [reflexivity|].
  destruct (assess r); discriminate.
Qed.

Lemma fail_without_fatal member section resp w :
  conclusion (evaluate member section resp w) = FAIL ->
  fatalIssues (evaluate member section resp w) = [] ->
  manualIssues (evaluate member section resp w) <> [] /\
  hasManualChannel member section = false.
Proof.
  unfold hasManualChannel.
  destruct (evaluate_cases member section resp w)
    as [(issue & _ & -> & _) | (r & _ & -> & Hf)].
  - cbn. intros _ H. destruct (app_cons_not_nil _ _ _ (eq_sym H)).
  - destruct (conclude_lists member section r) as (-> & _ & ->).
    rewrite conclusion_conclude. unfold assess. rewrite Hf.
    destruct (taIssues r), (manualIssues r); cbn [isManual andb];
      destruct (GuildFgrUtilities.hasCachedChannel _ _); cbn [negb];
      try discriminate.
    intros _ _. split; [discriminate|reflexivity].
Qed.

Section SectionFlow.

Variables (sw : SessionWorld) (member : Discord.GuildMember) (section : ISectionInfo).

Lemma verifySection_cases :
  (verifySection sw member section
   = [AddVerifiedRole (verifiedRoleId section); InteractionReply ReplyVerified; LogSuccess]
   /\ sectionGrants sw member section) \/
  ((forall e, In e (verifySection sw member section) -> quietEffect e = true) /\
   ~ sectionGrants sw member section).
Proof.
  unfold verifySection, sectionGrants.
  destruct (GuildFgrUtilities.hasCachedRole _ _) eqn:Hr; cbn [negb orb].
  2:{ right. split; [intros e []|]. intros (H & _). discriminate H. }
  destruct (GuildFgrUtilities.memberHasCachedRole _ _) eqn:Hm.
  { right. split; [intros e []|]. intros (_ & H & _). discriminate H. }
  destruct (Defs.checkRequirements (verificationProperties section)) eqn:Hflag; cbn [negb].
  2:{ left. tauto. }
  assert (Hno : forall P : Prop, (P -> False) -> ~ (true = true /\ false = false /\
                                                     (true = false \/ P))).
  { intros P HP (_ & _ & [H|H]); [discriminate H|auto]. }
  destruct (resolveName sw) as [[r|]|nameToUse] eqn:Hname.
  - right. split; [intros e [<-|[]]; reflexivity|].
    apply Hno. intros (n & d & H & _). discriminate H.
  - right. split; [intros e []|].
    apply Hno. intros (n & d & H & _). discriminate H.
  - destruct (playerInfoOf sw nameToUse) as [requestData|] eqn:Hp.
    2:{ right. split; [intros e [<-|[<-|[]]]; reflexivity|].
        apply Hno. intros (n & d & H1 & H2 & _). injection H1 as <-. congruence. }
    fold (evaluate member (OfSection section) requestData (evalWorld sw)).
    destruct (conclusion (evaluate member (OfSection section) requestData (evalWorld sw)))
      eqn:Hv.
    + left. split; [reflexivity|]. repeat split. right.
      exists nameToUse, requestData. tauto.
    + right. split; [intros e [<-|[<-|[]]]; reflexivity|].
      apply Hno. intros (n & d & H1 & H2 & H3). injection H1 as <-.
      rewrite Hp in H2. injection H2 as <-. congruence.
    + right. split; [intros e [<-|[<-|[]]]; reflexivity|].
      apply Hno. intros (n & d & H1 & H2 & H3). injection H1 as <-.
      rewrite Hp in H2. injection H2 as <-. congruence.
    + right. split; [intros e [<-|[<-|[]]]; reflexivity|].
      apply Hno. intros (n & d & H1 & H2 & H3). injection H1 as <-.
      rewrite Hp in H2. injection H2 as <-. congruence.
Qed.

End SectionFlow.

Lemma filter_none {A} (p : A -> bool) (l : list A) :
  (forall x, In x l -> p x = false) -> List.filter p l = [].
Proof.
  induction l as [|x l IH]; intro H; cbn; [reflexivity|].
  rewrite (H x (or_introl eq_refl)). apply IH. intros y Hy. apply H. now right.
Qed.

(** X20: in a section the verified role is given exactly when the role
    exists, the member does not have it yet, and either the section's master
    flag is off or the profile of the member's name was obtained and
    evaluated to PASS. It is the section's verified role and it is given
    once; no proof code and no blacklist is consulted, and the section flow
    sets no nickname and records no name. *)
Theorem section_role_given_iff sw member section :
  (List.filter isGrant (verifySection sw member section) = [] \/
   List.filter isGrant (verifySection sw member section)
   = [AddVerifiedRole (verifiedRoleId section)]) /\
  (List.filter isGrant (verifySection sw member section) <> [] <->
   GuildFgrUtilities.hasCachedRole (Discord.guild member) (verifiedRoleId section) = true /\
   GuildFgrUtilities.memberHasCachedRole member (verifiedRoleId section) = false /\
   (Defs.checkRequirements (verificationProperties section) = false \/
    exists nameToUse requestData,
      resolveName sw = inr nameToUse /\
      playerInfoOf sw nameToUse = Some requestData /\
      conclusion (evaluate member (OfSection section) requestData (evalWorld sw)) = PASS)) /\
  (forall e, In e (verifySection sw member section) ->
             match e with
             | SetNickname _ | AddIdName _ => False
             | _ => True
             end).
Proof.
  destruct (verifySection_cases sw member section) as [[-> Hg]|[Hq Hng]].
  - split; [now right|]. split.
    + split; [intros _; exact Hg|discriminate].
    + intros e [<-|[<-|[<-|[]]]]; exact I.
  - assert (Hnone : List.filter isGrant (verifySection sw member section) = []).
    { apply filter_none. intros e He. specialize (Hq e He). now destruct e. }
    split; [now left|]. split.
    + rewrite Hnone. split; [intro H; now destruct H|intro H; now destruct Hng].
    + intros e He. specialize (Hq e He). now destruct e.
Qed.

Section ResultName.

Lemma checkRealmEyeCompletions_name vr gy r :
  resName (checkRealmEyeCompletions vr gy r) = resName r.
Proof. unfold checkRealmEyeCompletions. split_tests; reflexivity. Qed.

Lemma checkBotCompletions_name vr member resp r w t :
  resName (fst (checkBotCompletions vr member resp r w t)) = resName r.
Proof.
  unfold checkBotCompletions, bind, getUserDoc, await.
  destruct (fold_left _ _ _) as [[c allPassed] issues].
  destruct allPassed; reflexivity.
Qed.

Lemma checkGraveyardSummary_name vr member resp gy r w t :
  resName (fst (checkGraveyardSummary vr member resp gy r w t)) = resName r.
Proof.
  unfold checkGraveyardSummary, ret.
  destruct (graveyardSummary_checkThis vr); [|reflexivity].
  destruct (graveyardSummary_useBotCompletions vr).
  - apply checkBotCompletions_name.
  - apply checkRealmEyeCompletions_name.
Qed.

Lemma checkExaltations_name vr resp r w t :
  resName (fst (checkExaltations vr resp r w t)) = resName r.
Proof.
  unfold checkExaltations, bind, ret, getExaltation, await.
  destruct (exaltations_checkThis vr); [|reflexivity].
  destruct (exaltationOf w (PAD.name resp)); [|reflexivity].
  destruct (notMetExaltations _); reflexivity.
Qed.

(** The result of an evaluation carries the name of the profile. *)
Lemma evaluate_name member section resp w :
  resName (evaluate member section resp w) = PAD.name resp.
Proof.
  unfold evaluate. rewrite checkRequirements_unfold. cbv zeta.
  assert (H0 : forall vr r, resName (checkLastSeen vr resp r) = resName r)
    by (intros; unfold checkLastSeen; split_tests; reflexivity).
  assert (H1 : forall vr r, resName (checkRank vr resp r) = resName r)
    by (intros; unfold checkRank; split_tests; reflexivity).
  assert (H2 : forall vr r, resName (checkAliveFame vr resp r) = resName r)
    by (intros; unfold checkAliveFame; split_tests; reflexivity).
  assert (H3 : forall vr gy r, resName (checkCharacters vr resp gy r) = resName r)
    by (intros; unfold checkCharacters; split_tests; reflexivity).
  assert (H4 : forall r, resName (conclude member section r) = resName r)
    by (intros; unfold conclude; split_tests; reflexivity).
  destruct (checkGuild _ resp) as [issue|]; cbn [fst].
  - cbn. now rewrite H0.
  - now rewrite H4, checkExaltations_name, checkGraveyardSummary_name, H3, H2, H1, H0.
Qed.

End ResultName.

(** X21: a failure for want of a manual-verification channel, in a
    section. When the evaluation ends in FAIL without a fatal issue, there
    are manual issues and the section has no manual-verification channel.
    The section flow answers with the fatal issues, of which there are none:
    the member is told of a failure with an empty list of reasons. *)
Theorem failure_for_want_of_a_channel sw member section nameToUse requestData :
  GuildFgrUtilities.hasCachedRole (Discord.guild member) (verifiedRoleId section) = true ->
  GuildFgrUtilities.memberHasCachedRole member (verifiedRoleId section) = false ->
  Defs.checkRequirements (verificationProperties section) = true ->
  resolveName sw = inr nameToUse ->
  playerInfoOf sw nameToUse = Some requestData ->
  conclusion (evaluate member (OfSection section) requestData (evalWorld sw)) = FAIL ->
  fatalIssues (evaluate member (OfSection section) requestData (evalWorld sw)) = [] ->
  verifySection sw member section
  = [InteractionReply (ReplyFailed []); LogFail "fatal issues"] /\
  manualIssues (evaluate member (OfSection section) requestData (evalWorld sw)) <> [] /\
  GuildFgrUtilities.hasCachedChannel (Discord.guild member)
                                     (manualVerificationChannelId section) = false.
Proof.
  intros Hr Hm Hflag Hname Hp Hv Hf.
  destruct (fail_without_fatal _ _ _ _ Hv Hf) as [Hman Hch].
  split; [|split; [exact Hman|exact Hch]].
  unfold verifySection. rewrite Hr, Hm, Hflag, Hname, Hp. cbn [negb orb].
  fold (evaluate member (OfSection section) requestData (evalWorld sw)).
  now rewrite Hv, Hf.
Qed.

(** X22: a request for manual verification is recorded once and blocks a
    new attempt. For a member who entered verification through the button
    and whose profile was evaluated to MANUAL, the kit has the manual
    channel; opting in appends one entry, of this member, this section, the
    profile's name and that channel, and [verify] then answers that the
    member is under manual verification. Declining, letting the two minutes
    pass, or a prompt that could not be shown records nothing. *)
Theorem manual_request_is_recorded
        member guildDoc section dmOpen kit o resp w promptShown selected msgId :
  verifyInteraction true true (Some member) dmOpen true guildDoc section = Entered kit o ->
  conclusion (evaluate member (OfSection section) resp w) = MANUAL ->
  manualVerify kit = Some (manualVerificationChannelId section) /\
  (optedIn promptShown selected = true ->
   handleManualVerificationCase member (evaluate member (OfSection section) resp w) kit
     section promptShown selected msgId (manualVerificationEntries guildDoc)
   = (manualVerificationEntries guildDoc
      ++ [{| userId := Discord.memberId member; ign := PAD.name resp;
             manualVerifyMsgId := msgId;
             manualVerifyChannelId := manualVerificationChannelId section;
             sectionId := uniqueIdentifier section |}])%list /\
   verify true member
     (withEntries guildDoc
        (handleManualVerificationCase member (evaluate member (OfSection section) resp w)
           kit section promptShown selected msgId (manualVerificationEntries guildDoc)))
     section
   = UnderManualVerification) /\
  (optedIn promptShown selected = false ->
   handleManualVerificationCase member (evaluate member (OfSection section) resp w) kit
     section promptShown selected msgId (manualVerificationEntries guildDoc)
   = manualVerificationEntries guildDoc).
Proof.
  intros Henter Hv.
  pose proof (manual_verdict_channel _ _ _ _ Hv) as Hch.
  unfold hasManualChannel in Hch. cbn [manualChannelOf] in Hch.
  assert (Hkit : manualVerify kit = Some (manualVerificationChannelId section)).
  { revert Henter. unfold verifyInteraction. cbn [negb].
    destruct (_ || _)%bool; [discriminate|].
    destruct (_ && _)%bool; [discriminate|].
    intro H. injection H as <- _. cbn [manualVerify]. unfold getCachedChannel.
    now rewrite Hch. }
  split; [exact Hkit|]. split.
  - intro Hopt. unfold optedIn in Hopt.
    destruct promptShown; [|discriminate]. destruct selected as [customId|]; [|discriminate].
    cbn [andb] in Hopt. apply negb_true_iff in Hopt.
    assert (Hentries :
              handleManualVerificationCase member
                (evaluate member (OfSection section) resp w) kit section true
                (Some customId) msgId (manualVerificationEntries guildDoc)
              = (manualVerificationEntries guildDoc
                 ++ [{| userId := Discord.memberId member; ign := PAD.name resp;
                        manualVerifyMsgId := msgId;
                        manualVerifyChannelId := manualVerificationChannelId section;
                        sectionId := uniqueIdentifier section |}])%list).
    { unfold handleManualVerificationCase, sendManualVerifyEmbedAndLog. cbn [negb].
      now rewrite Hopt, Hkit, evaluate_name. }
    split; [exact Hentries|]. rewrite Hentries.
    unfold verify, withEntries, JS.find. cbn [negb manualVerificationEntries].
    rewrite find_snoc. destruct (List.find _ _); [reflexivity|].
    cbn [userId sectionId]. now rewrite !String.eqb_refl.
  - intro Hopt. unfold optedIn in Hopt. unfold handleManualVerificationCase.
    destruct promptShown; [|reflexivity]. destruct selected as [customId|]; [|reflexivity].
    cbn [andb negb] in *. apply negb_false_iff in Hopt. now rewrite Hopt.
Qed.

(** ** Acknowledgement, once more *)

Lemma ack_shapes aw entry moderator responseId :
  let res := acknowledgeManualVerifyRes aw entry moderator responseId in
  let entries := manualVerificationEntries (storedGuildDoc aw) in
  (entriesAfter res = entries \/
   entriesAfter res = pull (fun x => (userId x =? userId entry)%string) entries \/
   entriesAfter res = pull (fun x => (sectionId x =? sectionId entry)%string) entries \/
   entriesAfter res
   = pull (fun x => ((sectionId x =? sectionId entry)%string
                     && (userId x =? userId entry)%string)%bool) entries).
Proof.
  cbv zeta. unfold acknowledgeManualVerifyRes.
  destruct (fetchedMember aw); [|cbn; tauto].
  destruct (sectionOfEntry _ _); [|cbn; tauto].
  destruct (negb _); [cbn; tauto|].
  repeat (destruct (String.eqb responseId _); [cbn; tauto|]). cbn; tauto.
Qed.

(** X23: an acknowledgement never adds an entry and never removes an entry
    of another user in another section. It gives a role only when the
    moderator accepts, the user is still in the guild, the section of the
    entry is there and its verified role exists: then it gives that role,
    once, and the acknowledgement succeeds. With the user present and the
    section there, a modmail request or an unknown response id leaves the
    entries as they are; when the section is gone, the entries of every user
    for that section are removed. *)
Theorem acknowledgement_effects aw entry moderator responseId :
  (forall x, In x (entriesAfter (acknowledgeManualVerifyRes aw entry moderator responseId)) ->
             In x (manualVerificationEntries (storedGuildDoc aw))) /\
  (forall x, In x (manualVerificationEntries (storedGuildDoc aw)) ->
             userId x <> userId entry -> sectionId x <> sectionId entry ->
             In x (entriesAfter (acknowledgeManualVerifyRes aw entry moderator responseId))) /\
  (List.filter isGrant (ackEffects (acknowledgeManualVerifyRes aw entry moderator responseId))
   <> [] ->
   responseId = MANUAL_VERIFY_ACCEPT_ID /\
   acknowledged (acknowledgeManualVerifyRes aw entry moderator responseId) = true /\
   exists member section,
     fetchedMember aw = Some member /\
     sectionOfEntry (storedGuildDoc aw) entry = Some section /\
     GuildFgrUtilities.hasCachedRole (Discord.guild moderator) (verifiedRoleId section)
     = true /\
     List.filter isGrant
       (ackEffects (acknowledgeManualVerifyRes aw entry moderator responseId))
     = [AddVerifiedRole (verifiedRoleId section)]) /\
  (fetchedMember aw <> None ->
   sectionOfEntry (storedGuildDoc aw) entry <> None ->
   responseId <> MANUAL_VERIFY_ACCEPT_ID -> responseId <> MANUAL_VERIFY_DENY_ID ->
   entriesAfter (acknowledgeManualVerifyRes aw entry moderator responseId)
   = manualVerificationEntries (storedGuildDoc aw)) /\
  (fetchedMember aw <> None ->
   sectionOfEntry (storedGuildDoc aw) entry = None ->
   acknowledged (acknowledgeManualVerifyRes aw entry moderator responseId) = false /\
   forall x, In x (entriesAfter (acknowledgeManualVerifyRes aw entry moderator responseId))
             <-> In x (manualVerificationEntries (storedGuildDoc aw))
                 /\ sectionId x <> sectionId entry).
Proof.
  split; [|split; [|split; [|split]]].
  - intros x Hx.
    destruct (ack_shapes aw entry moderator responseId) as [H|[H|[H|H]]];
      rewrite H in Hx; [exact Hx| | |]; now apply pull_In in Hx.
  - intros x Hx Hu Hs.
    destruct (ack_shapes aw entry moderator responseId) as [H|[H|[H|H]]];
      rewrite H; [exact Hx| | |]; apply pull_In; (split; [exact Hx|]).
    + now apply String.eqb_neq.
    + now apply String.eqb_neq.
    + apply String.eqb_neq in Hs. now rewrite Hs.
  - unfold acknowledgeManualVerifyRes.
    destruct (fetchedMember aw) as [member|].
    2:{ cbn [ackEffects]. intro H. exfalso. apply H. apply filter_none.
        intros e He. apply in_map_iff in He. now destruct He as (x & <- & _). }
    destruct (sectionOfEntry _ _) as [section|]; [|intro H; now destruct H].
    destruct (GuildFgrUtilities.hasCachedRole _ _) eqn:Hr; cbn [negb];
      [|intro H; now destruct H].
    destruct (String.eqb_spec responseId MANUAL_VERIFY_MODMAIL_ID);
      [intro H; now destruct H|].
    destruct (String.eqb_spec responseId MANUAL_VERIFY_DENY_ID);
      [intro H; now destruct H|].
    destruct (String.eqb_spec responseId MANUAL_VERIFY_ACCEPT_ID);
      [|intro H; now destruct H].
    intros _. split; [assumption|]. split; [reflexivity|].
    exists member, section. repeat split; try assumption.
    cbn [ackEffects]. now destruct (isMainSection section).
  - intros Hm Hs Ha Hd. unfold acknowledgeManualVerifyRes.
    destruct (fetchedMember aw); [|now destruct Hm].
    destruct (sectionOfEntry _ _); [|now destruct Hs].
    destruct (negb _); [reflexivity|].
    destruct (String.eqb_spec responseId MANUAL_VERIFY_MODMAIL_ID); [reflexivity|].
    destruct (String.eqb_spec responseId MANUAL_VERIFY_DENY_ID); [contradiction|].
    destruct (String.eqb_spec responseId MANUAL_VERIFY_ACCEPT_ID); [contradiction|].
    reflexivity.
  - intros Hm Hs. unfold acknowledgeManualVerifyRes.
    destruct (fetchedMember aw); [|now destruct Hm]. rewrite Hs.
    cbn [acknowledged entriesAfter]. split; [reflexivity|].
    intro x. rewrite pull_In.
    destruct (String.eqb_spec (sectionId x) (sectionId entry)); intuition congruence.
Qed.

(** X24: after an acknowledged accept or deny the member of the entry can
    start verification in that section again: [verify], on the stored
    entries as the acknowledgement left them, no longer answers that the
    member is under manual verification. After a modmail request, whether it
    could be started or not, a stored entry of the member still blocks it. *)
Theorem acknowledged_member_can_verify_again
        aw entry moderator responseId member section :
  Discord.memberId member = userId entry ->
  uniqueIdentifier section = sectionId entry ->
  (responseId = MANUAL_VERIFY_ACCEPT_ID \/ responseId = MANUAL_VERIFY_DENY_ID ->
   acknowledged (acknowledgeManualVerifyRes aw entry moderator responseId) = true ->
   verify true member
     (withEntries (storedGuildDoc aw)
        (entriesAfter (acknowledgeManualVerifyRes aw entry moderator responseId)))
     section
   = if isMainSection section then StartedMain else StartedSection) /\
  (responseId = MANUAL_VERIFY_MODMAIL_ID ->
   fetchedMember aw <> None ->
   sectionOfEntry (storedGuildDoc aw) entry <> None ->
   In entry (manualVerificationEntries (storedGuildDoc aw)) ->
   verify true member
     (withEntries (storedGuildDoc aw)
        (entriesAfter (acknowledgeManualVerifyRes aw entry moderator responseId)))
     section
   = UnderManualVerification).
Proof.
  intros Hu Hs. split.
  - intros Hid Hack.
    assert (Hpulled :
              entriesAfter (acknowledgeManualVerifyRes aw entry moderator responseId)
              = pull (fun x => ((sectionId x =? sectionId entry)%string
                                && (userId x =? userId entry)%string)%bool)
                     (manualVerificationEntries (storedGuildDoc aw))).
    { revert Hack. unfold acknowledgeManualVerifyRes.
      destruct (fetchedMember aw); [|discriminate].
      destruct (sectionOfEntry _ _); [|discriminate].
      destruct (negb _); [discriminate|].
      destruct Hid as [-> | ->]; reflexivity. }
    unfold verify, withEntries, JS.find. cbn [negb manualVerificationEntries].
    rewrite Hpulled, Hu, Hs.
    destruct (List.find _ _) as [x|] eqn:Hf; [|reflexivity].
    apply find_some in Hf. destruct Hf as [Hin Hx].
    apply pull_In in Hin. destruct Hin as [_ Hin].
    rewrite andb_comm in Hx. congruence.
  - intros -> Hm Hsec Hin.
    assert (Hsame :
              entriesAfter (acknowledgeManualVerifyRes aw entry moderator
                              MANUAL_VERIFY_MODMAIL_ID)
              = manualVerificationEntries (storedGuildDoc aw)).
    { unfold acknowledgeManualVerifyRes.
      destruct (fetchedMember aw); [|now destruct Hm].
      destruct (sectionOfEntry _ _); [|now destruct Hsec].
      destruct (negb _); reflexivity. }
    unfold verify, withEntries, JS.find. cbn [negb manualVerificationEntries].
    rewrite Hsame, Hu, Hs.
    destruct (List.find _ _) as [x|] eqn:Hf; [reflexivity|].
    apply (find_none _ _ Hf) in Hin. cbn beta in Hin.
    now rewrite !String.eqb_refl in Hin.
Qed.

(** ** The history tables *)



Lemma session_waits_or_is_over_witness :
  runSession (Samples.mainSession Samples.staffedGuild
                (Samples.props true Samples.nothingChecked))
             ([(Samples.sessionWorld None true, Collect CHECK_PROFILE_ID)]
              ++ [(Samples.sessionWorld (Some (Samples.alice [])) true,
                   Collect CHECK_PROFILE_ID)])
  = runSession (Samples.mainSession Samples.staffedGuild
                  (Samples.props true Samples.nothingChecked))
               [(Samples.sessionWorld None true, Collect CHECK_PROFILE_ID)].
Proof.
  apply (proj2 (proj2 (proj2 (session_waits_or_is_over
           (Samples.mainSession Samples.staffedGuild
              (Samples.props true Samples.nothingChecked))
           [(Samples.sessionWorld None true, Collect CHECK_PROFILE_ID)])))).
  reflexivity.
Defined.

Lemma failure_for_want_of_a_channel_witness :
  verifySection (Samples.sessionWorld (Some (Samples.alice [])) true)
                (Samples.memberOf Samples.channellessGuild)
                (Samples.sectionWith (Samples.props true
                                        (Samples.requireRank 10 Samples.nothingChecked)))
  = [InteractionReply (ReplyFailed []); LogFail "fatal issues"].
Proof.
  refine (proj1 (failure_for_want_of_a_channel
                   (Samples.sessionWorld (Some (Samples.alice [])) true)
                   (Samples.memberOf Samples.channellessGuild)
                   (Samples.sectionWith (Samples.props true
                                           (Samples.requireRank 10 Samples.nothingChecked)))
                   "Alice" (Samples.alice [])
                   eq_refl eq_refl eq_refl eq_refl eq_refl _ _)); reflexivity.
Defined.

Lemma manual_request_is_recorded_witness :
  verify true (Samples.memberOf Samples.staffedGuild)
    (withEntries
       (Samples.guildDocWith
          (Samples.props true (Samples.requireRank 10 Samples.nothingChecked)) [])
       (handleManualVerificationCase (Samples.memberOf Samples.staffedGuild)
          (evaluate (Samples.memberOf Samples.staffedGuild) Samples.rank10
                    (Samples.alice []) Samples.silentWorld)
          {| manualVerify := Some "manual-queue"; kitHasMsg := false |}
          (Samples.sectionWith
             (Samples.props true (Samples.requireRank 10 Samples.nothingChecked)))
          true (Some MANUAL_VERIFY_ID) "msg-9" []))
    (Samples.sectionWith
       (Samples.props true (Samples.requireRank 10 Samples.nothingChecked)))
  = UnderManualVerification.
Proof.
  refine (proj2 (proj1 (proj2 (manual_request_is_recorded
            (Samples.memberOf Samples.staffedGuild)
            (Samples.guildDocWith
               (Samples.props true (Samples.requireRank 10 Samples.nothingChecked)) [])
            (Samples.sectionWith
               (Samples.props true (Samples.requireRank 10 Samples.nothingChecked)))
            true {| manualVerify := Some "manual-queue"; kitHasMsg := false |}
            StartedSection (Samples.alice []) Samples.silentWorld
            true (Some MANUAL_VERIFY_ID) "msg-9" eq_refl _)) eq_refl)).
  reflexivity.
Defined.

Lemma acknowledgement_effects_witness :
  entriesAfter (acknowledgeManualVerifyRes (Samples.pendingWorld true Samples.staffedGuild)
                  (Samples.entryOf "user-1" "section-1")
                  (Samples.moderatorOf Samples.staffedGuild) MANUAL_VERIFY_MODMAIL_ID)
  = [Samples.entryOf "user-1" "section-1"] /\
  In (Samples.entryOf "user-1" "section-1")
     (entriesAfter (acknowledgeManualVerifyRes
                      (Samples.pendingWorld true Samples.staffedGuild)
                      (Samples.entryOf "user-2" "section-2")
                      (Samples.moderatorOf Samples.staffedGuild) MANUAL_VERIFY_ACCEPT_ID)).
Proof.
  split.
  - apply (proj1 (proj2 (proj2 (proj2 (acknowledgement_effects
             (Samples.pendingWorld true Samples.staffedGuild)
             (Samples.entryOf "user-1" "section-1")
             (Samples.moderatorOf Samples.staffedGuild) MANUAL_VERIFY_MODMAIL_ID)))));
      discriminate.
  - apply (proj1 (proj2 (acknowledgement_effects
             (Samples.pendingWorld true Samples.staffedGuild)
             (Samples.entryOf "user-2" "section-2")
             (Samples.moderatorOf Samples.staffedGuild) MANUAL_VERIFY_ACCEPT_ID))).
    + now left.
    + discriminate.
    + discriminate.
Defined.

Lemma acknowledged_member_can_verify_again_witness :
  verify true (Samples.memberOf Samples.staffedGuild)
    (withEntries (storedGuildDoc (Samples.pendingWorld true Samples.staffedGuild))
       (entriesAfter (acknowledgeManualVerifyRes
                        (Samples.pendingWorld true Samples.staffedGuild)
                        (Samples.entryOf "user-1" "section-1")
                        (Samples.moderatorOf Samples.staffedGuild) MANUAL_VERIFY_DENY_ID)))
    (Samples.sectionWith (Samples.props true Samples.nothingChecked))
  = StartedSection /\
  verify true (Samples.memberOf Samples.staffedGuild)
    (withEntries (storedGuildDoc (Samples.pendingWorld true Samples.staffedGuild))
       (entriesAfter (acknowledgeManualVerifyRes
                        (Samples.pendingWorld true Samples.staffedGuild)
                        (Samples.entryOf "user-1" "section-1")
                        (Samples.moderatorOf Samples.staffedGuild)
                        MANUAL_VERIFY_MODMAIL_ID)))
    (Samples.sectionWith (Samples.props true Samples.nothingChecked))
  = UnderManualVerification.
Proof.
  split.
  - apply (proj1 (acknowledged_member_can_verify_again
                    (Samples.pendingWorld true Samples.staffedGuild)
                    (Samples.entryOf "user-1" "section-1")
                    (Samples.moderatorOf Samples.staffedGuild) MANUAL_VERIFY_DENY_ID
                    (Samples.memberOf Samples.staffedGuild)
                    (Samples.sectionWith (Samples.props true Samples.nothingChecked))
                    eq_refl eq_refl)); [now right|reflexivity].
  - apply (proj2 (acknowledged_member_can_verify_again
                    (Samples.pendingWorld true Samples.staffedGuild)
                    (Samples.entryOf "user-1" "section-1")
                    (Samples.moderatorOf Samples.staffedGuild) MANUAL_VERIFY_MODMAIL_ID
                    (Samples.memberOf Samples.staffedGuild)
                    (Samples.sectionWith (Samples.props true Samples.nothingChecked))
                    eq_refl eq_refl)); [reflexivity|discriminate|discriminate|now left].
Defined.


(** ** The statistics of dungeon runs *)
Section Stats.
Import LoggerManager.

Lemma set_all {K V} (eqb : K -> K -> bool) (P : V -> Prop)
      (c : Collection.t (K := K) (V := V)) (k : K) (v : V) :
  Forall (fun e => P (snd e)) c -> P v ->
  Forall (fun e => P (snd e)) (Collection.set eqb c k v).
Proof.
  intros Hc Hv. induction c as [|[k0 v0] r IH]; cbn.
  - now repeat constructor.
  - inversion Hc as [|? ? H0 Hr]; subst.
    destruct (eqb k0 k); constructor; auto.
Qed.

Lemma get_all {K V} (eqb : K -> K -> bool) (P : V -> Prop)
      (c : Collection.t (K := K) (V := V)) (k : K) (v : V) :
  Forall (fun e => P (snd e)) c -> Collection.get eqb c k = Some v -> P v.
Proof.
  intros Hc Hg. unfold Collection.get in Hg.
  destruct (List.find _ c) as [[k0 v0]|] eqn:Hf; [|discriminate].
  cbn in Hg. injection Hg as ->. apply find_some in Hf. destruct Hf as [Hin _].
  rewrite Forall_forall in Hc. exact (Hc _ Hin).
Qed.

Lemma dungeonRunsStep_noFailed dungeonNameOf dungeonRuns entry :
  Forall (fun e => noFailed (snd e)) dungeonRuns ->
  Forall (fun e => noFailed (snd e)) (dungeonRunsStep dungeonNameOf dungeonRuns entry).
Proof.
  intro Hinv. unfold dungeonRunsStep.
  destruct (nth_error (JS.split (key entry) ":") 0) as [type|]; [|assumption].
  destruct (String.eqb_spec type "R") as [->|Hne].
  2:{ destruct type as [|c r]; [assumption|].
      destruct c as [[] [] [] [] [] [] [] []]; try assumption;
        destruct r; try assumption. now destruct Hne. }
  destruct (dungeonNameOf _) as [dgnName|]; [|assumption].
  destruct (dgnName =? "")%string; [assumption|].
  destruct (parseInt _) as [result|]; [|assumption].
  destruct (result =? 0) eqn:Hres; [assumption|].
  set (runs1 := if negb (Collection.has optEqb dungeonRuns _)
                then Collection.set optEqb dungeonRuns _ [] else dungeonRuns).
  assert (H1 : Forall (fun e => noFailed (snd e)) runs1).
  { unfold runs1. destruct (negb _); [|assumption].
    apply set_all; [assumption|constructor]. }
  apply set_all; [assumption|].
  assert (H2 : noFailed match Collection.get optEqb runs1
                                (nth_error (JS.split (key entry) ":") 1) with
                        | Some c => c
                        | None => []
                        end).
  { destruct (Collection.get optEqb runs1 _) as [c|] eqn:Hg; [|constructor].
    exact (get_all optEqb noFailed runs1 _ c H1 Hg). }
  destruct (Collection.get String.eqb _ dgnName) as [c|] eqn:Hg.
  - apply (set_all String.eqb (fun c => failed c = 0)); [exact H2|].
    cbn. exact (get_all String.eqb (fun c => failed c = 0) _ _ c H2 Hg).
  - apply (set_all String.eqb (fun c => failed c = 0)); [exact H2|]. reflexivity.
Qed.

Lemma getDungeonIdToLog_id isCustomDungeon customDungeons dungeonId d :
  getDungeonIdToLog isCustomDungeon customDungeons dungeonId = Some d -> d = dungeonId.
Proof.
  unfold getDungeonIdToLog. destruct (negb _); [congruence|].
  intro H. apply find_some in H. destruct H as [_ H]. now apply String.eqb_eq in H.
Qed.

(** An entry of a failed run contributes nothing to the statistics. *)
Lemma failed_run_step dungeonNameOf dungeonRuns g d v :
  noColon g = true -> noColon d = true ->
  dungeonRunsStep dungeonNameOf dungeonRuns {| key := runKey g d false; value := v |}
  = dungeonRuns.
Proof.
  intros Hg Hd. unfold dungeonRunsStep. cbn [key].
  rewrite split_runKey by assumption. cbn [nth_error skipn].
  destruct (dungeonNameOf _) as [dgnName|]; [|reflexivity].
  destruct (dgnName =? "")%string; reflexivity.
Qed.

Lemma fold_update {S} (step : S -> IPropertyKeyValuePair string Z -> S)
      (q : string -> bool) (memberId id : string) (amt : Z) (doc : IUserInfo) (st : S) :
  (forall st v, step st {| key := id; value := v |} = st) ->
  fold_left step (List.filter (fun x => q (key x))
                    (loggedInfo (internalUpdateLoggedInfo memberId id amt doc))) st
  = fold_left step (List.filter (fun x => q (key x)) (loggedInfo doc)) st.
Proof.
  intro Hid. unfold internalUpdateLoggedInfo.
  destruct (negb _); [reflexivity|].
  destruct (existsb _ _); cbn [loggedInfo].
  - revert st. induction (loggedInfo doc) as [|x r IH]; intro st; cbn; [reflexivity|].
    destruct (String.eqb_spec (key x) id) as [Hx|Hx]; cbn.
    + destruct (q (key x)); [|reflexivity]. cbn.
      rewrite Hx, Hid. destruct x as [k v]. cbn in Hx. subst k. now rewrite Hid.
    + destruct (q (key x)); cbn; now rewrite ?IH.
  - rewrite filter_app, fold_left_app. cbn.
    destruct (q id); cbn; [apply Hid|reflexivity].
Qed.

End Stats.

(** X26: the statistics of dungeon runs never count a failed run. Every
    count that [getStatsWithDoc] reports in [dungeonRuns] has 0 failed runs,
    whatever was logged: a result of 0 is dropped by the test that drops a
    result that is not a number, before the branch that would add to the
    failed runs. Accordingly, logging a failed run changes nothing in these
    statistics. *)
Theorem failed_runs_are_never_counted
        (dungeonNameOf : option string -> option string)
        (userInfo : IUserInfo) (guildDoc : option IGuildInfo) :
  (forall gId runs dgnName c,
      Collection.get LoggerManager.optEqb
        (LoggerManager.getStatsWithDoc_dungeonRuns dungeonNameOf userInfo guildDoc) gId
      = Some runs ->
      Collection.get String.eqb runs dgnName = Some c ->
      LoggerManager.failed c = 0) /\
  (forall isCustomDungeon customDungeons memberId g dungeonId amt,
      noColon g = true -> noColon dungeonId = true ->
      LoggerManager.getStatsWithDoc_dungeonRuns dungeonNameOf
        (LoggerManager.logDungeonRun isCustomDungeon customDungeons memberId g dungeonId
                                     false amt userInfo) guildDoc
      = LoggerManager.getStatsWithDoc_dungeonRuns dungeonNameOf userInfo guildDoc).
Proof.
  split.
  - intros gId runs dgnName c Hruns Hc.
    assert (Hinv : Forall (fun e => noFailed (snd e))
                          (LoggerManager.getStatsWithDoc_dungeonRuns dungeonNameOf
                             userInfo guildDoc)).
    { unfold LoggerManager.getStatsWithDoc_dungeonRuns.
      generalize (match guildDoc with
                  | Some g => List.filter (fun x => JS.includes (key x) (guildId g))
                                          (loggedInfo userInfo)
                  | None => loggedInfo userInfo
                  end).
      intro l.
      assert (Hgen : forall st, Forall (fun e => noFailed (snd e)) st ->
                 Forall (fun e => noFailed (snd e))
                        (fold_left (LoggerManager.dungeonRunsStep dungeonNameOf) l st)).
      { induction l as [|x l IH]; intros st Hst; cbn; [assumption|].
        apply IH. now apply dungeonRunsStep_noFailed. }
      apply Hgen. constructor. }
    pose proof (get_all LoggerManager.optEqb noFailed _ _ _ Hinv Hruns) as Hr.
    exact (get_all String.eqb (fun c => LoggerManager.failed c = 0) _ _ _ Hr Hc).
  - intros isCustomDungeon customDungeons memberId g dungeonId amt Hg Hd.
    unfold LoggerManager.logDungeonRun.
    destruct (LoggerManager.getDungeonIdToLog _ _ _) as [d|] eqn:Hlog; [|reflexivity].
    apply getDungeonIdToLog_id in Hlog. subst d.
    destruct (dungeonId =? "")%string; [reflexivity|].
    unfold LoggerManager.getStatsWithDoc_dungeonRuns.
    destruct guildDoc as [gd|].
    + apply (fold_update (LoggerManager.dungeonRunsStep dungeonNameOf)
                         (fun k => JS.includes k (guildId gd))).
      intros st v. now apply failed_run_step.
    + assert (Hall : forall l : list (IPropertyKeyValuePair string Z),
                 List.filter (fun _ => true) l = l)
        by (induction l; cbn; congruence).
      pose proof (fold_update (LoggerManager.dungeonRunsStep dungeonNameOf)
                    (fun _ => true) memberId (LoggerManager.runKey g dungeonId false) amt
                    userInfo []
                    (fun st v => failed_run_step dungeonNameOf st g dungeonId v Hg Hd))
        as H.
      now rewrite !Hall in H.
Qed.

Section RunsAddUp.
Import LoggerManager.

Variable dungeonNameOf : option string -> option string.

Lemma get_set_str {V} (c : Collection.t (K := string) (V := V)) (k k' : string) (v : V) :
  Collection.get String.eqb (Collection.set String.eqb c k v) k'
  = if (k =? k')%string then Some v else Collection.get String.eqb c k'.
Proof.
  unfold Collection.get. induction c as [|[k0 v0] r IH]; cbn.
  - now destruct (k =? k')%string.
  - destruct (String.eqb_spec k0 k) as [->|Hne]; cbn.
    + now destruct (k =? k')%string.
    + destruct (String.eqb_spec k0 k') as [->|Hne'].
      * destruct (String.eqb_spec k k'); [congruence|reflexivity].
      * exact IH.
Qed.

Lemma get_set_opt {V} (c : Collection.t (K := option string) (V := V))
      (k k' : option string) (v : V) :
  Collection.get optEqb (Collection.set optEqb c k v) k'
  = if optEqb k k' then Some v else Collection.get optEqb c k'.
Proof.
  unfold Collection.get. induction c as [|[k0 v0] r IH]; cbn.
  - now destruct (optEqb k k').
  - destruct (optEqb_spec k0 k) as [->|Hne]; cbn.
    + now destruct (optEqb k k').
    + destruct (optEqb_spec k0 k') as [->|Hne'].
      * destruct (optEqb_spec k k'); [congruence|reflexivity].
      * exact IH.
Qed.

Lemma has_get {V} (c : Collection.t (K := option string) (V := V)) (k : option string) :
  Collection.has optEqb c k = false -> Collection.get optEqb c k = None.
Proof.
  unfold Collection.has, Collection.get. induction c as [|[k0 v0] r IH]; cbn; [reflexivity|].
  destruct (optEqb k0 k); [discriminate|exact IH].
Qed.

Lemma has_get_some {V} (c : Collection.t (K := option string) (V := V))
      (k : option string) :
  Collection.has optEqb c k = true -> exists v, Collection.get optEqb c k = Some v.
Proof.
  unfold Collection.has, Collection.get. induction c as [|[k0 v0] r IH]; cbn; [discriminate|].
  destruct (optEqb k0 k); [intros _; now exists v0|exact IH].
Qed.

(** One iteration adds the value of an entry that counts, and nothing
    else. *)
Lemma dungeonRunsStep_total stats entry gId dgnName :
  completedRuns (dungeonRunsStep dungeonNameOf stats entry) gId dgnName
  = completedRuns stats gId dgnName
    + (if countsFor dungeonNameOf gId dgnName (key entry) then value entry else 0).
Proof.
  unfold dungeonRunsStep, countsFor.
  destruct (nth_error (JS.split (key entry) ":") 0) as [type|]; [|lia].
  destruct (String.eqb_spec type "R") as [->|Hne].
  2:{ cbn [andb].
      destruct type as [|c r]; [lia|].
      destruct c as [[] [] [] [] [] [] [] []]; try lia; destruct r; try lia.
      now destruct Hne. }
  cbn [andb].
  destruct (dungeonNameOf _) as [n|]; [|rewrite andb_false_r; cbn; lia].
  destruct (String.eqb_spec n "") as [->|Hn];
    [rewrite !andb_false_r; cbn; lia|].
  destruct (parseInt _) as [result|]; [|rewrite andb_false_r; lia].
  destruct (result =? 0) eqn:Hres; [rewrite andb_false_r; lia|].
  cbn [negb]. rewrite !andb_true_r.
  set (g0 := nth_error (JS.split (key entry) ":") 1).
  unfold completedRuns. rewrite get_set_opt.
  destruct (Collection.has optEqb stats g0) eqn:Hhas; cbn [negb].
  - destruct (has_get_some stats g0 Hhas) as [runs Hruns]. rewrite Hruns.
    destruct (optEqb_spec g0 gId) as [<-|Hg]; cbn [andb]; [|lia].
    rewrite Hruns.
    destruct (Collection.get String.eqb runs n) as [c|] eqn:Hc;
      rewrite get_set_str;
      (destruct (String.eqb_spec n dgnName) as [<-|Hd]; [|lia]);
      rewrite ?Hc; cbn; lia.
  - rewrite get_set_opt.
    destruct (optEqb_spec g0 g0) as [_|Hne]; [|now destruct Hne].
    pose proof (has_get stats g0 Hhas) as Hnone.
    destruct (optEqb_spec g0 gId) as [<-|Hg]; cbn [andb].
    + rewrite Hnone. cbn. unfold Collection.get. cbn [List.find fst snd option_map].
      destruct (n =? dgnName)%string; cbn; lia.
    + rewrite get_set_opt. destruct (optEqb_spec g0 gId); [contradiction|]. lia.
Qed.

Lemma dungeonRuns_fold l stats gId dgnName :
  completedRuns (fold_left (dungeonRunsStep dungeonNameOf) l stats) gId dgnName
  = completedRuns stats gId dgnName
    + sumZ (map value
              (List.filter (fun x => countsFor dungeonNameOf gId dgnName (key x)) l)).
Proof.
  revert stats. induction l as [|x l IH]; intro stats; cbn [fold_left filter].
  - cbn. lia.
  - rewrite IH, dungeonRunsStep_total. unfold sumZ.
    destruct (countsFor _ _ _ _); cbn; lia.
Qed.

End RunsAddUp.

Lemma sum_update (q : string -> bool) (memberId id : string) (amt : Z) (doc : IUserInfo) :
  discordId doc = memberId ->
  sumZ (map value (List.filter (fun x => q (key x))
                     (loggedInfo (LoggerManager.internalUpdateLoggedInfo
                                    memberId id amt doc))))
  = sumZ (map value (List.filter (fun x => q (key x)) (loggedInfo doc)))
    + (if q id then amt else 0).
Proof.
  intro Hm. unfold LoggerManager.internalUpdateLoggedInfo, sumZ.
  rewrite Hm, String.eqb_refl. cbn [negb].
  destruct (existsb _ _) eqn:He; cbn [loggedInfo].
  - induction (loggedInfo doc) as [|x r IH]; cbn in *; [discriminate|].
    destruct (String.eqb_spec (key x) id) as [Hx|Hx]; cbn.
    + rewrite Hx. destruct (q id); cbn; lia.
    + destruct (q (key x)); cbn; rewrite IH by assumption; lia.
  - rewrite filter_app, map_app, fold_right_app. cbn.
    destruct (q id); cbn; [|lia].
    induction (map value _) as [|v l IH]; cbn; lia.
Qed.

Lemma includes_app (a s b : string) : JS.includes (a ++ s ++ b) s = true.
Proof.
  induction a as [|c a IH].
  - cbn [append]. destruct s as [|c s]; [now destruct b|].
    assert (H : String.prefix (String c s) (String c (s ++ b)) = true)
      by exact (prefix_app (String c s) b).
    cbn [append JS.includes]. now rewrite H.
  - cbn [append JS.includes]. rewrite IH. now destruct (String.prefix _ _).
Qed.

(** X27: the statistics add the completed runs up. The completed runs that
    [getStatsWithDoc] reports for a guild and a dungeon name are the sum of
    the values of the processed entries whose key has [R] as its first
    field, the guild as its second, the id of a dungeon of that non-empty
    name as its third, and a fourth field that parses to a number other than
    0; without such an entry there are none. *)
Theorem completed_runs_add_up
        (dungeonNameOf : option string -> option string)
        (userInfo : IUserInfo) (guildDoc : option IGuildInfo)
        (gId : option string) (dgnName : string) :
  completedRuns (LoggerManager.getStatsWithDoc_dungeonRuns dungeonNameOf userInfo guildDoc)
                gId dgnName
  = sumZ (map value
            (List.filter (fun x => countsFor dungeonNameOf gId dgnName (key x))
                         (logInfoToProcess userInfo guildDoc))).
Proof.
  unfold LoggerManager.getStatsWithDoc_dungeonRuns.
  fold (logInfoToProcess userInfo guildDoc).
  rewrite dungeonRuns_fold. reflexivity.
Qed.

(** X28: a completed run that is logged shows in the statistics. For the
    member's own document, ids without a colon and a dungeon that has a
    non-empty name, logging [amt] completed runs adds [amt] to the completed
    runs that the statistics report for that guild and dungeon name, whether
    they are taken for that guild or for all guilds; the completed runs of a
    dungeon of another name, or of another guild, do not change. *)
Theorem logged_run_shows_in_statistics
        (dungeonNameOf : option string -> option string)
        (isCustomDungeon : string -> bool) (customDungeons : list string)
        (memberId g dungeonId dgnName : string) (amt : Z)
        (userInfo : IUserInfo) (guildDoc : option IGuildInfo) :
  discordId userInfo = memberId ->
  LoggerManager.getDungeonIdToLog isCustomDungeon customDungeons dungeonId <> None ->
  dungeonId <> "" ->
  noColon g = true -> noColon dungeonId = true ->
  dungeonNameOf (Some dungeonId) = Some dgnName -> dgnName <> "" ->
  (forall gd, guildDoc = Some gd -> guildId gd = g) ->
  forall gId' dgnName',
    completedRuns
      (LoggerManager.getStatsWithDoc_dungeonRuns dungeonNameOf
         (LoggerManager.logDungeonRun isCustomDungeon customDungeons memberId g dungeonId
                                      true amt userInfo) guildDoc) gId' dgnName'
    = completedRuns
        (LoggerManager.getStatsWithDoc_dungeonRuns dungeonNameOf userInfo guildDoc)
        gId' dgnName'
      + (if (LoggerManager.optEqb (Some g) gId' && (dgnName =? dgnName')%string)%bool
         then amt else 0).
Proof.
  intros Hm Hlog Hne Hg Hd Hname Hnn Hgd gId' dgnName'.
  unfold LoggerManager.logDungeonRun.
  destruct (LoggerManager.getDungeonIdToLog _ _ _) as [d|] eqn:Hl; [|now destruct Hlog].
  apply getDungeonIdToLog_id in Hl. subst d.
  destruct (String.eqb_spec dungeonId ""); [contradiction|].
  unfold LoggerManager.getStatsWithDoc_dungeonRuns. rewrite !dungeonRuns_fold.
  assert (Hcounts : countsFor dungeonNameOf gId' dgnName'
                              (LoggerManager.runKey g dungeonId true)
                    = (LoggerManager.optEqb (Some g) gId' && (dgnName =? dgnName')%string)%bool).
  { unfold countsFor. rewrite split_runKey by assumption.
    cbn [nth_error skipn]. rewrite Hname.
    destruct (String.eqb_spec dgnName ""); [contradiction|].
    cbn. now rewrite !andb_true_r. }
  change (completedRuns [] gId' dgnName') with 0.
  destruct guildDoc as [gd|].
  - rewrite (Hgd gd eq_refl).
    assert (Hboth : forall l : list (IPropertyKeyValuePair string Z),
               List.filter (fun x => countsFor dungeonNameOf gId' dgnName' (key x))
                           (List.filter (fun x => JS.includes (key x) g) l)
               = List.filter (fun x => (JS.includes (key x) g
                                        && countsFor dungeonNameOf gId' dgnName' (key x))%bool)
                             l).
    { induction l as [|x l IH]; cbn; [reflexivity|].
      destruct (JS.includes (key x) g); cbn; [|exact IH].
      destruct (countsFor _ _ _ _); now rewrite IH. }
    rewrite !Hboth.
    rewrite (sum_update (fun k => (JS.includes k g
                                   && countsFor dungeonNameOf gId' dgnName' k)%bool)
                        memberId _ amt userInfo Hm).
    rewrite Hcounts.
    replace (JS.includes (LoggerManager.runKey g dungeonId true) g) with true; [cbn; lia|].
    symmetry. unfold LoggerManager.runKey.
    exact (includes_app "R:" g (":" ++ dungeonId ++ ":" ++ "1")).
  - rewrite (sum_update (fun k => countsFor dungeonNameOf gId' dgnName' k)
                        memberId _ amt userInfo Hm).
    rewrite Hcounts. lia.
Qed.

Lemma failed_runs_are_never_counted_witness :
  LoggerManager.getStatsWithDoc_dungeonRuns
    (fun vId => option_map (fun d => "The " ++ d) vId)
    (LoggerManager.logDungeonRun (fun _ => false) [] "7" "12" "SHATTERS" false 4
       {| discordId := "7"; loggedInfo := [{| key := "R:12:SHATTERS:1"; value := 3 |}] |})
    None
  = [(Some "12", [("The SHATTERS", {| LoggerManager.completed := 3;
                                      LoggerManager.failed := 0 |})])].
Proof.
  rewrite (proj2 (failed_runs_are_never_counted
                    (fun vId => option_map (fun d => "The " ++ d) vId)
                    {| discordId := "7";
                       loggedInfo := [{| key := "R:12:SHATTERS:1"; value := 3 |}] |}
                    None)
                 (fun _ => false) [] "7" "12" "SHATTERS" 4 eq_refl eq_refl).
  reflexivity.
Defined.

Lemma logged_run_shows_in_statistics_witness :
  completedRuns
    (LoggerManager.getStatsWithDoc_dungeonRuns
       (fun vId => option_map (fun d => "The " ++ d) vId)
       (LoggerManager.logDungeonRun (fun _ => false) [] "7" "12" "SHATTERS" true 2
          {| discordId := "7";
             loggedInfo := [{| key := "R:12:SHATTERS:1"; value := 3 |}] |})
       None)
    (Some "12") "The SHATTERS"
  = 5.
Proof.
  refine (eq_trans
            (logged_run_shows_in_statistics
               (fun vId => option_map (fun d => "The " ++ d) vId)
               (fun _ => false) [] "7" "12" "SHATTERS" "The SHATTERS" 2
               {| discordId := "7";
                  loggedInfo := [{| key := "R:12:SHATTERS:1"; value := 3 |}] |}
               None eq_refl _ _ eq_refl eq_refl eq_refl _ _
               (Some "12") "The SHATTERS")
            eq_refl).
  - discriminate.
  - discriminate.
  - discriminate.
  - intros gd H. discriminate H.
Defined.

Section LedAddUp.
Import LoggerManager.

Variable dungeonNameOf : option string -> option string.

Lemma dungeonsLedStep_total stats entry gId dgnName result :
  ledRaids (dungeonsLedStep dungeonNameOf stats entry) gId dgnName result
  = ledRaids stats gId dgnName result
    + (if countsForLed dungeonNameOf gId dgnName result (key entry)
       then value entry else 0).
Proof.
  unfold dungeonsLedStep, countsForLed.
  destruct (nth_error (JS.split (key entry) ":") 0) as [type|]; [|lia].
  destruct (String.eqb_spec type "L") as [->|Hne].
  2:{ cbn [andb].
      destruct type as [|c r]; [lia|].
      destruct c as [[] [] [] [] [] [] [] []]; try lia; destruct r; try lia.
      now destruct Hne. }
  cbn [andb].
  destruct (dungeonNameOf _) as [n|]; [|rewrite andb_false_r; cbn; lia].
  destruct (String.eqb_spec n "") as [->|Hn];
    [rewrite !andb_false_r; cbn; lia|].
  cbn [negb]. rewrite !andb_true_r.
  set (g0 := nth_error (JS.split (key entry) ":") 1).
  set (res := nth_error (skipn 3 (JS.split (key entry) ":")) 0).
  unfold ledRaids, readResult. rewrite get_set_opt.
  destruct (Collection.has optEqb stats g0) eqn:Hhas; cbn [negb].
  - destruct (has_get_some stats g0 Hhas) as [leads Hleads]. rewrite Hleads.
    destruct (optEqb_spec g0 gId) as [<-|Hg]; cbn [andb]; [|lia].
    rewrite Hleads.
    destruct (Collection.get String.eqb leads n) as [c|] eqn:Hc;
      rewrite get_set_str;
      (destruct (String.eqb_spec n dgnName) as [<-|Hd]; cbn [andb]; [|lia]);
      rewrite ?Hc;
      destruct (optEqb res (Some "Completed")); [| destruct (optEqb res (Some "Assisted")) | |
                                                  destruct (optEqb res (Some "Assisted"))];
      destruct result; cbn; lia.
  - rewrite get_set_opt.
    destruct (optEqb_spec g0 g0) as [_|Hne]; [|now destruct Hne].
    pose proof (has_get stats g0 Hhas) as Hnone.
    destruct (optEqb_spec g0 gId) as [<-|Hg]; cbn [andb].
    + rewrite Hnone. unfold Collection.get. cbn [Collection.set List.find fst snd option_map].
      destruct (n =? dgnName)%string; cbn [andb option_map snd]; [|lia].
      destruct (optEqb res (Some "Completed")); [|destruct (optEqb res (Some "Assisted"))];
        destruct result; cbn; lia.
    + rewrite get_set_opt. destruct (optEqb_spec g0 gId); [contradiction|]. lia.
Qed.

Lemma dungeonsLed_fold l stats gId dgnName result :
  ledRaids (fold_left (dungeonsLedStep dungeonNameOf) l stats) gId dgnName result
  = ledRaids stats gId dgnName result
    + sumZ (map value
              (List.filter (fun x => countsForLed dungeonNameOf gId dgnName result (key x))
                           l)).
Proof.
  revert stats. induction l as [|x l IH]; intro stats; cbn [fold_left filter].
  - cbn. lia.
  - rewrite IH, dungeonsLedStep_total. unfold sumZ.
    destruct (countsForLed _ _ _ _ _); cbn; lia.
Qed.

Lemma split_leadKey (guildId dgnId : string) (result : RunResult) :
  noColon guildId = true -> noColon dgnId = true ->
  JS.split (leadKey guildId dgnId result) ":"
  = ["L"; guildId; dgnId; runResultText result].
Proof.
  intros Hg Hd. unfold JS.split, leadKey.
  change ("L:" ++ guildId ++ ":" ++ dgnId ++ ":" ++ runResultText result)
    with ("L" ++ String ":" (guildId ++ String ":" (dgnId ++ String ":"
            (runResultText result)))).
  rewrite splitAux_field by reflexivity.
  rewrite splitAux_field by assumption.
  rewrite splitAux_field by assumption.
  rewrite splitAux_last by now destruct result.
  reflexivity.
Qed.

End LedAddUp.

(** X29: a led raid that is logged shows in the statistics under its own
    result. For the member's own document, ids without a colon and a dungeon
    that has a non-empty name, logging [amt] led raids of a result adds [amt]
    to the raids of that result that the statistics report for that guild
    and dungeon name, and to no other count: each of the three result texts
    that are written is read back as the result it was written for. *)
Theorem logged_lead_shows_in_statistics
        (dungeonNameOf : option string -> option string)
        (isCustomDungeon : string -> bool) (customDungeons : list string)
        (memberId g dungeonId dgnName : string) (result : LoggerManager.RunResult)
        (amt : Z) (userInfo : IUserInfo) (guildDoc : option IGuildInfo) :
  discordId userInfo = memberId ->
  LoggerManager.getDungeonIdToLog isCustomDungeon customDungeons dungeonId <> None ->
  dungeonId <> "" ->
  noColon g = true -> noColon dungeonId = true ->
  dungeonNameOf (Some dungeonId) = Some dgnName -> dgnName <> "" ->
  (forall gd, guildDoc = Some gd -> guildId gd = g) ->
  forall gId' dgnName' result',
    ledRaids
      (LoggerManager.getStatsWithDoc_dungeonsLed dungeonNameOf
         (LoggerManager.logDungeonLead isCustomDungeon customDungeons memberId g
                                       dungeonId result amt userInfo) guildDoc)
      gId' dgnName' result'
    = ledRaids
        (LoggerManager.getStatsWithDoc_dungeonsLed dungeonNameOf userInfo guildDoc)
        gId' dgnName' result'
      + (if (LoggerManager.optEqb (Some g) gId' && (dgnName =? dgnName')%string
             && resultEqb result result')%bool
         then amt else 0).
Proof.
  intros Hm Hlog Hne Hg Hd Hname Hnn Hgd gId' dgnName' result'.
  unfold LoggerManager.logDungeonLead.
  destruct (LoggerManager.getDungeonIdToLog _ _ _) as [d|] eqn:Hl; [|now destruct Hlog].
  apply getDungeonIdToLog_id in Hl. subst d.
  destruct (String.eqb_spec dungeonId ""); [contradiction|].
  unfold LoggerManager.getStatsWithDoc_dungeonsLed. rewrite !dungeonsLed_fold.
  assert (Hcounts : countsForLed dungeonNameOf gId' dgnName' result'
                                 (LoggerManager.leadKey g dungeonId result)
                    = (LoggerManager.optEqb (Some g) gId' && (dgnName =? dgnName')%string
                       && resultEqb result result')%bool).
  { unfold countsForLed. rewrite split_leadKey by assumption.
    cbn [nth_error skipn]. rewrite Hname.
    destruct (String.eqb_spec dgnName ""); [contradiction|].
    rewrite String.eqb_refl. cbn [andb negb]. rewrite andb_true_r.
    now destruct result. }
  change (ledRaids [] gId' dgnName' result') with 0.
  destruct guildDoc as [gd|].
  - rewrite (Hgd gd eq_refl).
    assert (Hboth : forall l : list (IPropertyKeyValuePair string Z),
               List.filter (fun x => countsForLed dungeonNameOf gId' dgnName' result' (key x))
                           (List.filter (fun x => JS.includes (key x) g) l)
               = List.filter
                   (fun x => (JS.includes (key x) g
                              && countsForLed dungeonNameOf gId' dgnName' result' (key x))%bool)
                   l).
    { induction l as [|x l IH]; cbn; [reflexivity|].
      destruct (JS.includes (key x) g); cbn; [|exact IH].
      destruct (countsForLed _ _ _ _ _); now rewrite IH. }
    rewrite !Hboth.
    rewrite (sum_update (fun k => (JS.includes k g
                                   && countsForLed dungeonNameOf gId' dgnName' result' k)%bool)
                        memberId _ amt userInfo Hm).
    rewrite Hcounts.
    replace (JS.includes (LoggerManager.leadKey g dungeonId result) g) with true;
      [cbn [andb]; lia|].
    symmetry. unfold LoggerManager.leadKey.
    exact (includes_app "L:" g (":" ++ dungeonId ++ ":" ++ LoggerManager.runResultText result)).
  - rewrite (sum_update (fun k => countsForLed dungeonNameOf gId' dgnName' result' k)
                        memberId _ amt userInfo Hm).
    rewrite Hcounts. lia.
Qed.

Lemma logged_lead_shows_in_statistics_witness :
  ledRaids
    (LoggerManager.getStatsWithDoc_dungeonsLed
       (fun vId => option_map (fun d => "The " ++ d) vId)
       (LoggerManager.logDungeonLead (fun _ => false) [] "7" "12" "SHATTERS"
          LoggerManager.Assist 2
          {| discordId := "7";
             loggedInfo := [{| key := "L:12:SHATTERS:Assisted"; value := 3 |}] |})
       None)
    (Some "12") "The SHATTERS" LoggerManager.Assist
  = 5.
Proof.
  refine (eq_trans
            (logged_lead_shows_in_statistics
               (fun vId => option_map (fun d => "The " ++ d) vId)
               (fun _ => false) [] "7" "12" "SHATTERS" "The SHATTERS"
               LoggerManager.Assist 2
               {| discordId := "7";
                  loggedInfo := [{| key := "L:12:SHATTERS:Assisted"; value := 3 |}] |}
               None eq_refl _ _ eq_refl eq_refl eq_refl _ _
               (Some "12") "The SHATTERS" LoggerManager.Assist)
            eq_refl).
  - discriminate.
  - discriminate.
  - discriminate.
  - intros gd H. discriminate H.
Defined.

(** ** The name a member verifies with *)

Lemma matchedDocsLoop_facts (memberId : string) (docs : list string) (n : Z) :
  (In memberId docs ->
   fst (matchedDocsLoop memberId docs n) = Some memberId) /\
  (~ In memberId docs ->
   matchedDocsLoop memberId docs n = (None, n + Z.of_nat (List.length docs))).
Proof.
  revert n. induction docs as [|doc rest IH]; intro n; cbn [matchedDocsLoop].
  - split; [intros []|]. intros _. cbn. f_equal. lia.
  - destruct (String.eqb_spec doc memberId) as [->|Hne].
    + split; [reflexivity|]. intro H. exfalso. apply H. now left.
    + destruct (IH (n + 1)) as [IH1 IH2]. split.
      * intros [H|H]; [contradiction|]. now apply IH1.
      * intro H. rewrite IH2 by (intro Hin; apply H; now right).
        f_equal. cbn [List.length]. lia.
Qed.

(** X30: a member cannot start verifying with a name that is registered to
    others only. The main-section flow stops on a typed name exactly when
    some document holds that name and none of the documents that hold it is
    the member's own; a name that no document holds, or that one of the
    documents holds for this member, wherever it stands among them, goes
    on. *)
Theorem name_registered_to_others_only (memberId : string)
        (matchedNameUserDocs : list string) :
  nameAlreadyRegistered memberId matchedNameUserDocs = true <->
  matchedNameUserDocs <> [] /\ ~ In memberId matchedNameUserDocs.
Proof.
  unfold nameAlreadyRegistered.
  destruct (matchedDocsLoop_facts memberId matchedNameUserDocs 0) as [Hin Hout].
  destruct (in_dec string_dec memberId matchedNameUserDocs) as [H|H].
  - specialize (Hin H). destruct (matchedDocsLoop _ _ _) as [userDoc invalidDocs].
    cbn in Hin. subst userDoc. cbn [andb]. split; [discriminate|tauto].
  - rewrite (Hout H). cbn [andb]. destruct matchedNameUserDocs as [|doc rest].
    + cbn. split; [discriminate|]. intros [Hne _]. now destruct Hne.
    + split; [intros _; split; [discriminate|exact H]|].
      intros _. apply Z.ltb_lt. cbn [List.length]. lia.
Qed.
